(** * yoast-seo-audit: the WordPress data extractor of [index.js]

    A shallow embedding of [index.js] and the properties of its report
    rows, its media resolver, its post-type discovery, its per-type
    item fetcher and its run as a whole.

    Conventions of the embedding.
    - A JavaScript string is a [string]; one character of the model
      stands for one UTF-16 code unit, so [String.length] is [.length].
    - JSON numbers that the program handles (ids, page counts, word
      counts) are integers and are modelled in [Z]; a template literal
      prints them in decimal.
    - The JSON documents of the REST API are records with the types
      the API gives their fields; a field that may be missing is an
      [option], and [None] is JavaScript's [undefined].
    - The four [Map] caches are [gmap Z _]. The process state, the
      network, the console and the file system are threaded explicitly
      (section Effects): a piece of the program is a function from the
      environment and the store to an outcome and a new store.
    - An awaited call runs to its end before the caller goes on. The
      one place where calls overlap is the [Promise.all] of
      [createAndSaveReport]; there the callbacks are split at their
      [await] (section The report).
    - Paths are those of a POSIX system: [path.join] joins with a
      slash and normalises.
    - The two [while] loops take an iteration bound; section
      Termination shows that a large enough bound always exists and
      that the outcome does not depend on it. *)

From stdpp Require Import gmap strings list pretty.
From Stdlib Require Import ZArith Lia Ascii.

Local Open Scope Z_scope.

(** ** JavaScript primitives used by the program *)

(** [ToBoolean]: which values count as true in a condition. *)
Class ToBoolean (A : Type) := to_boolean : A -> bool.

#[global] Instance string_to_boolean : ToBoolean string :=
  fun s => match s with EmptyString => false | String _ _ => true end.
#[global] Instance Z_to_boolean : ToBoolean Z :=
  fun z => negb (z =? 0).
#[global] Instance bool_to_boolean : ToBoolean bool := fun b => b.
(** Arrays are objects: always true, also when empty. *)
#[global] Instance list_to_boolean {A} : ToBoolean (list A) := fun _ => true.
(** A possibly-undefined value: [undefined] is false. *)
#[global] Instance option_to_boolean {A} `{ToBoolean A} : ToBoolean (option A) :=
  fun o => match o with Some a => to_boolean a | None => false end.

(** [a || b] where [a] may be undefined and [b] has the type of a defined [a]. *)
Definition js_or {A} `{ToBoolean A} (a : option A) (b : A) : A :=
  match a with
  | Some x => if to_boolean x then x else b
  | None => b
  end.

Notation "a <||> b" := (js_or a b) (at level 45, left associativity).

(** [s.length] as a JavaScript number. *)
Definition js_length (s : string) : Z := Z.of_nat (String.length s).

(** [s.startsWith(p)]. *)
Definition startsWith (s p : string) : bool := String.prefix p s.

(** [arr.join(sep)] on an array of strings. *)
Fixpoint join (sep : string) (l : list string) : string :=
  match l with
  | [] => ""
  | [x] => x
  | x :: l' => x +:+ sep +:+ join sep l'
  end.

(** [s.includes(p)]: [p] occurs in [s] as a contiguous substring. *)
Fixpoint includes (s p : string) : bool :=
  String.prefix p s ||
  match s with
  | EmptyString => false
  | String _ s' => includes s' p
  end.

(** Number of pieces of [s.split(sep)] minus one, for a non-empty [sep]:
    the occurrences of [sep] found scanning left to right, each one
    starting after the end of the previous one. [skip] counts the
    characters of the current occurrence still to pass over. *)
Fixpoint occurrences (sep : string) (skip : nat) (s : string) : nat :=
  match s with
  | EmptyString => 0%nat
  | String _ s' =>
      match skip with
      | S k => occurrences sep k s'
      | O => if String.prefix sep s
             then S (occurrences sep (String.length sep - 1) s')
             else occurrences sep 0 s'
      end
  end.

Definition split_length (s sep : string) : Z :=
  Z.of_nat (S (occurrences sep 0 s)).

(** Length of a match of [[^>]+>] at the head of [s]: one or more
    characters other than [>] and then a [>]. *)
Fixpoint tag_rest (seen : nat) (s : string) : option nat :=
  match s with
  | EmptyString => None
  | String c s' =>
      if Ascii.eqb c ">"%char
      then match seen with O => None | S _ => Some (S seen) end
      else tag_rest (S seen) s'
  end.

(** [s.replace(/<[^>]+>/g, '')]. *)
Fixpoint strip_tags (skip : nat) (s : string) : string :=
  match s with
  | EmptyString => EmptyString
  | String c s' =>
      match skip with
      | S k => strip_tags k s'
      | O =>
          if Ascii.eqb c "<"%char then
            match tag_rest 0 s' with
            | Some n => strip_tags n s'
            | None => String c (strip_tags 0 s')
            end
          else String c (strip_tags 0 s')
      end
  end.

(** White space of [String.prototype.trim] among code units below 256. *)
Definition is_white_space (c : ascii) : bool :=
  let n := nat_of_ascii c in
  ((9 <=? n) && (n <=? 13) || (n =? 32) || (n =? 160))%nat.

Fixpoint trim_start (s : string) : string :=
  match s with
  | EmptyString => EmptyString
  | String c s' => if is_white_space c then trim_start s' else s
  end.

Fixpoint trim_end (s : string) : string :=
  match s with
  | EmptyString => EmptyString
  | String c s' =>
      match trim_end s' with
      | EmptyString => if is_white_space c then EmptyString else String c EmptyString
      | t => String c t
      end
  end.

Definition trim (s : string) : string := trim_end (trim_start s).

(** The line feed that starts some of the messages. *)
Definition nl : string := String (ascii_of_nat 10) EmptyString.

(** A word between double quotes inside a message. *)
Definition quoted (s : string) : string :=
  String (ascii_of_nat 34) (s +:+ String (ascii_of_nat 34) EmptyString).

(** ** Data model *)

(** A value stored in a report row. *)
Inductive cell :=
  | Undefined
  | Str (s : string)
  | Num (z : Z).

Definition str_cell (o : option string) : cell :=
  match o with Some s => Str s | None => Undefined end.
Definition num_cell (o : option Z) : cell :=
  match o with Some z => Num z | None => Undefined end.

(** An object literal: its keys in insertion order. *)
Definition row := list (string * cell).

Fixpoint get_col (k : string) (r : row) : option cell :=
  match r with
  | [] => None
  | (k', v) :: r' => if String.eqb k k' then Some v else get_col k r'
  end.

(** [{ rendered }] of a title or an excerpt. *)
Record rendered_obj := { rendered : option string }.

(** [keywords] of an Article node: an array of strings or one string. *)
Inductive keywords_val :=
  | KwArray (l : list string)
  | KwString (s : string).

(** [@type] of a graph node: one string or an array of them. *)
Inductive type_val :=
  | TypeString (s : string)
  | TypeArray (l : list string).

Record graph_node := {
  node_type : option type_val;
  keywords : option keywords_val;
  wordCount : option Z;
  headline : option string
}.

Record schema_obj := { graph : option (list graph_node) }.

Record og_image_obj := { og_url : option string }.

Record yoast_head := {
  title_ : option string;
  description : option string;
  schema : option schema_obj;
  og_image : option (list og_image_obj);
  og_title : option string;
  og_description : option string;
  twitter_title : option string;
  twitter_description : option string;
  twitter_image : option string;
  canonical : option string
}.

Record item := {
  postType : option string;
  item_id : option Z;
  title : option rendered_obj;
  author : option Z;
  date_gmt : option string;
  modified_gmt : option string;
  link : option string;
  status : option string;
  excerpt : option rendered_obj;
  comment_status : option string;
  template : option string;
  categories : option (list Z);
  tags : option (list Z);
  featured_media : option Z;
  yoast_head_json : option yoast_head
}.

(** The empty object literal [{}] at the types it is used at. *)
Definition empty_yoast : yoast_head :=
  {| title_ := None; description := None; schema := None; og_image := None;
     og_title := None; og_description := None; twitter_title := None;
     twitter_description := None; twitter_image := None; canonical := None |}.
Definition empty_schema : schema_obj := {| graph := None |}.
Definition empty_node : graph_node :=
  {| node_type := None; keywords := None; wordCount := None; headline := None |}.

(** [{ url, alt }] as returned by the media resolver. *)
Record imageData := { url : string; alt : string }.

#[global] Instance imageData_eq_dec : EqDecision imageData.
Proof. solve_decision. Defined.

(** An error value as the program inspects it: [error.message] and
    [error.response.status] when the error carries a response. *)
Record error := { message : string; response_status : option Z }.

(** The media resource with the two requested fields. *)
Record media_obj := { source_url : option string; alt_text : option string }.

(** An entity of [/users], [/categories] or [/tags]. *)
Record term_obj := { term_id : Z; term_name : string }.

(** An entry of [/types]. *)
Record type_obj := { viewable : option bool; rest_base : option string }.

(** A response: the two headers the program reads, and the parsed body. *)
Record response (A : Type) := {
  x_wp_totalpages : option string;
  x_wp_total : option string;
  data : A
}.
Arguments x_wp_totalpages {A} _.
Arguments x_wp_total {A} _.
Arguments data {A} _.

(** ** Process state *)

(** A request sent through the client. *)
Inductive request :=
  | GetCollection (endpoint : string) (per_page page : Z)
  | GetMedia (mediaId : Z)
  | GetTypes
  | GetItems (postType : string) (per_page page : Z) (fields : string).

Inductive level := Log | Warn | Error.

(** One console call: its level and its arguments. *)
Record console_entry := { entry_level : level; entry_args : list string }.

(** The client built by [setupApiClient]: the base URL and the two
    parts of the Basic credential it sends with every request. *)
Record client := { baseURL : string; auth_user : string; auth_password : string }.

(** The module-level variables of [index.js], with what the process has
    done so far to the outside: the requests it has sent, its console
    output and the files it has written (oldest first). A written file
    is recorded by its path and the rows handed to [Papa.unparse]. *)
Record store := {
  authorCache : gmap Z string;
  categoryCache : gmap Z string;
  tagCache : gmap Z string;
  mediaCache : gmap Z imageData;
  axiosInstance : option client;
  siteDomain : option string;
  requests : list request;
  console : list console_entry;
  files : list (string * list row)
}.

Definition initial_store : store :=
  {| authorCache := ∅; categoryCache := ∅; tagCache := ∅; mediaCache := ∅;
     axiosInstance := None; siteDomain := None;
     requests := []; console := []; files := [] |}.

(** ** The row flattener: the callback of [createAndSaveReport]

    The callback is an [async] function with one [await], the call of
    [getFeaturedImageData]. [flatten_locals] holds its local constants
    at that point; [flatten_after] is the code that runs once the image
    data has arrived. *)

Record flatten_locals := {
  yoastData : yoast_head;
  focusKeyphrase : string;
  wordCount_cell : cell;
  hasMultipleH1s : bool;
  ogImageObject : option og_image_obj;
  yoastTitle : string;
  yoastDesc : string;
  categoryNames : string;
  tagNames : string
}.

(** [g['@type'] === ty]. *)
Definition type_is (ty : string) (g : graph_node) : bool :=
  match node_type g with
  | Some (TypeString s) => String.eqb s ty
  | _ => false
  end.

(** [cache.get(id) || `ID:${id}`]. *)
Definition resolve_name (cache : gmap Z string) (id : Z) : string :=
  (cache !! id) <||> ("ID:" +:+ pretty id).

Definition flatten_before (σ : store) (it : item) : flatten_locals :=
  let yoastData := default empty_yoast (yoast_head_json it) in
  let schema := default empty_schema (schema yoastData) in
  let graph := default [] (graph schema) in
  let article := default empty_node (List.find (type_is "Article") graph) in
  let webpage := default empty_node (List.find (type_is "WebPage") graph) in
  let focusKeyphrase :=
    match keywords article with
    | Some (KwArray l) => join ", " l
    | Some (KwString s) => Some s <||> ""
    | None => ""
    end in
  let wordCount :=
    match wordCount webpage with
    | Some n => if to_boolean n then Num n else Str ""
    | None => Str ""
    end in
  let hasMultipleH1s := split_length (headline webpage <||> "") "</h1>" - 1 >? 1 in
  let ogImageObject :=
    match og_image yoastData with
    | Some l => head l
    | None => None
    end in
  let yoastTitle := title_ yoastData <||> "" in
  let yoastDesc := description yoastData <||> "" in
  let categoryNames :=
    join ", " (map (resolve_name (categoryCache σ)) (default [] (categories it))) in
  let tagNames :=
    join ", " (map (resolve_name (tagCache σ)) (default [] (tags it))) in
  {| yoastData := yoastData; focusKeyphrase := focusKeyphrase;
     wordCount_cell := wordCount; hasMultipleH1s := hasMultipleH1s;
     ogImageObject := ogImageObject; yoastTitle := yoastTitle;
     yoastDesc := yoastDesc; categoryNames := categoryNames;
     tagNames := tagNames |}.

(** What running a piece of the program gives: a value, a thrown
    error, the end of the process by [process.exit], or no answer
    because a loop was cut off by the model's iteration bound. *)
Inductive outcome (A : Type) :=
  | Ret (a : A)
  | Throw (e : error)
  | Exit (code : Z)
  | OutOfFuel.
Arguments Ret {A} a.
Arguments Throw {A} e.
Arguments Exit {A} code.
Arguments OutOfFuel {A}.

Definition outcome_bind {A B} (o : outcome A) (k : A -> outcome B) : outcome B :=
  match o with
  | Ret a => k a
  | Throw e => Throw e
  | Exit c => Exit c
  | OutOfFuel => OutOfFuel
  end.

Definition yes_no (b : bool) : cell := Str (if b then "Yes" else "No").

(** [item.excerpt?.rendered.replace(/<[^>]+>/g, '').trim() || '']:
    the optional chain stops at a missing [excerpt]; a present excerpt
    without [rendered] makes [.replace] a call on [undefined]. *)
Definition excerpt_text (it : item) : outcome string :=
  match excerpt it with
  | None => Ret ""
  | Some e =>
      match rendered e with
      | Some s => Ret (Some (trim (strip_tags 0 s)) <||> "")
      | None =>
          Throw {| message := "Cannot read properties of undefined (reading 'replace')";
                   response_status := None |}
      end
  end.

(** The seven increments of [completenessScore]. *)
Definition completeness (it : item) (l : flatten_locals)
    (featuredImageData : imageData) : Z :=
  let completenessScore := 0 in
  let completenessScore :=
    if Z.of_nat (length (default [] (categories it))) >? 0
    then completenessScore + 1 else completenessScore in
  let completenessScore :=
    if Z.of_nat (length (default [] (tags it))) >? 0
    then completenessScore + 1 else completenessScore in
  let completenessScore :=
    if to_boolean (url featuredImageData)
       && negb (startsWith (url featuredImageData) "Error")
    then completenessScore + 1 else completenessScore in
  let completenessScore :=
    if to_boolean (alt featuredImageData)
    then completenessScore + 1 else completenessScore in
  let completenessScore :=
    if to_boolean (yoastDesc l)
    then completenessScore + 1 else completenessScore in
  let completenessScore :=
    if to_boolean (focusKeyphrase l)
    then completenessScore + 1 else completenessScore in
  let completenessScore :=
    if match ogImageObject l with
       | Some o => to_boolean (og_url o)
       | None => false
       end
    then completenessScore + 1 else completenessScore in
  completenessScore.

Definition totalPossibleScore : Z := 7.

(** The audit flags and the object literal the callback returns, given
    the text of the Excerpt column. *)
Definition report_row (σ : store) (it : item) (l : flatten_locals)
    (featuredImageData : imageData) (excerpt : string) : row :=
  let completenessScore := completeness it l featuredImageData in
  let isTitleTooLong := js_length (yoastTitle l) >? 60 in
  let isTitleTooShort := js_length (yoastTitle l) <? 30 in
  let isDescMissing := negb (to_boolean (yoastDesc l)) in
  let isDescTooLong := js_length (yoastDesc l) >? 160 in
  let isDescTooShort :=
    (js_length (yoastDesc l) >? 0) && (js_length (yoastDesc l) <? 70) in
  let isOgImageMissing :=
    match ogImageObject l with Some _ => false | None => true end in
  let isFeaturedImageAltMissing :=
    to_boolean (url featuredImageData)
    && negb (to_boolean (alt featuredImageData)) in
  [ ("Post Type", str_cell (postType it));
    ("ID", num_cell (item_id it));
    ("Title", Str (match title it with
                   | Some t => rendered t <||> "No Title"
                   | None => "No Title"
                   end));
    ("Status", str_cell (status it));
    ("Author Name",
     Str (match author it with
          | Some a => resolve_name (authorCache σ) a
          | None => "ID:undefined"
          end));
    ("Author ID", num_cell (author it));
    ("Created Date (GMT)", str_cell (date_gmt it));
    ("Last Updated Date (GMT)", str_cell (modified_gmt it));
    ("Link", str_cell (link it));
    ("Categories", Str (categoryNames l));
    ("Tags", Str (tagNames l));
    ("Comment Status", str_cell (comment_status it));
    ("Template", str_cell (template it));
    ("Excerpt", Str excerpt);
    ("Featured Image URL", Str (url featuredImageData));
    ("Featured Image Alt Text", Str (alt featuredImageData));
    ("Yoast Title", Str (yoastTitle l));
    ("Yoast Description", Str (yoastDesc l));
    ("Yoast Focus Keyphrase", Str (focusKeyphrase l));
    ("Yoast Word Count", wordCount_cell l);
    ("Yoast OG Title", str_cell (og_title (yoastData l)));
    ("Yoast OG Description", str_cell (og_description (yoastData l)));
    ("Yoast OG Image",
     match ogImageObject l with
     | Some o => str_cell (og_url o)
     | None => Str ""
     end);
    ("Yoast Twitter Title", str_cell (twitter_title (yoastData l)));
    ("Yoast Twitter Description", str_cell (twitter_description (yoastData l)));
    ("Yoast Twitter Image", str_cell (twitter_image (yoastData l)));
    ("Yoast Canonical", str_cell (canonical (yoastData l)));
    ("AUDIT: SEO Meta Score",
     Str (pretty completenessScore +:+ " / " +:+ pretty totalPossibleScore));
    ("AUDIT: Is Title Too Long (>60)", yes_no isTitleTooLong);
    ("AUDIT: Is Title Too Short (<30)", yes_no isTitleTooShort);
    ("AUDIT: Is Meta Desc Missing", yes_no isDescMissing);
    ("AUDIT: Is Meta Desc Too Long (>160)", yes_no isDescTooLong);
    ("AUDIT: Is Meta Desc Too Short (<70)", yes_no isDescTooShort);
    ("AUDIT: Is OG Image Missing", yes_no isOgImageMissing);
    ("AUDIT: Is Featured Image Alt Missing", yes_no isFeaturedImageAltMissing);
    ("AUDIT: Has Multiple H1 Tags", yes_no (hasMultipleH1s l)) ].

(** The callback after its [await]. The Excerpt entry is the only
    expression of this part that can throw and the others have no
    effect, so the outcome is that of the excerpt followed by the
    object literal. *)
Definition flatten_after (σ : store) (it : item) (l : flatten_locals)
    (featuredImageData : imageData) : outcome row :=
  outcome_bind (excerpt_text it)
    (fun excerpt => Ret (report_row σ it l featuredImageData excerpt)).

(** The whole callback for an item whose image data is [featuredImageData]. *)
Definition flatten_row (σ : store) (it : item) (featuredImageData : imageData)
    : outcome row :=
  flatten_after σ it (flatten_before σ it) featuredImageData.

(** ** Effects

    The world outside the process is an [env]: what the REST API
    answers to the [k]-th request the process sends (so that answers
    may change over time), what the operator types, the clock and
    whether writing the report fails. A piece of the program is a
    function from the environment and the current [store] to an
    outcome and the new store. *)

Record credentials := { domain : string; username : string; appPassword : string }.

Record env := {
  net_collection : nat -> string -> Z -> error + response (list term_obj);
  net_media : nat -> Z -> error + media_obj;
  net_types : nat -> error + list (string * type_obj);
  net_items : nat -> string -> Z -> error + response (list item);
  answers : credentials;
  now_iso : string;
  fs_failure : option error
}.

Definition M (A : Type) : Type := env -> store -> outcome A * store.

Definition ret {A} (a : A) : M A := fun _ σ => (Ret a, σ).

Definition bind {A B} (m : M A) (k : A -> M B) : M B :=
  fun E σ =>
    match m E σ with
    | (Ret a, σ') => k a E σ'
    | (Throw e, σ') => (Throw e, σ')
    | (Exit c, σ') => (Exit c, σ')
    | (OutOfFuel, σ') => (OutOfFuel, σ')
    end.

Notation "'let*' x ':=' m 'in' k" := (bind m (fun x => k))
  (at level 10, x pattern, m at level 200, k at level 200).
Notation "m >>> k" := (bind m (fun _ => k))
  (at level 91, right associativity).

Definition throw {A} (e : error) : M A := fun _ σ => (Throw e, σ).
(** [process.exit(code)]. *)
Definition process_exit {A} (code : Z) : M A := fun _ σ => (Exit code, σ).
Definition out_of_fuel {A} : M A := fun _ σ => (OutOfFuel, σ).
Definition lift {A} (o : outcome A) : M A := fun _ σ => (o, σ).

(** [try { m } catch (error) { h }]: only a thrown error is caught. *)
Definition try_catch {A} (m : M A) (h : error -> M A) : M A :=
  fun E σ =>
    match m E σ with
    | (Throw e, σ') => h e E σ'
    | r => r
    end.

Definition get_store : M store := fun _ σ => (Ret σ, σ).
Definition get_env : M env := fun E σ => (Ret E, σ).
Definition modify (f : store -> store) : M unit := fun _ σ => (Ret tt, f σ).

(** [while (cond) { body }] on the loop's variables [s], cut off after
    [fuel] iterations. *)
Fixpoint while {S : Type} (fuel : nat) (cond : S -> bool) (body : S -> M S) (s : S)
    : M S :=
  if cond s then
    match fuel with
    | O => out_of_fuel
    | Datatypes.S fuel' => let* s' := body s in while fuel' cond body s'
    end
  else ret s.

(** [for (const x of l) { body }] with the variables [s] it updates. *)
Fixpoint for_of {A S : Type} (l : list A) (body : A -> S -> M S) (s : S) : M S :=
  match l with
  | [] => ret s
  | x :: l' => let* s' := body x s in for_of l' body s'
  end.

Fixpoint mapM {A B : Type} (f : A -> M B) (l : list A) : M (list B) :=
  match l with
  | [] => ret []
  | x :: l' => let* y := f x in let* ys := mapM f l' in ret (y :: ys)
  end.

(** *** Updates of the store *)

Definition set_mediaCache (f : gmap Z imageData -> gmap Z imageData) (σ : store) : store :=
  {| authorCache := authorCache σ; categoryCache := categoryCache σ;
     tagCache := tagCache σ; mediaCache := f (mediaCache σ);
     axiosInstance := axiosInstance σ; siteDomain := siteDomain σ;
     requests := requests σ; console := console σ; files := files σ |}.

Definition set_requests (f : list request -> list request) (σ : store) : store :=
  {| authorCache := authorCache σ; categoryCache := categoryCache σ;
     tagCache := tagCache σ; mediaCache := mediaCache σ;
     axiosInstance := axiosInstance σ; siteDomain := siteDomain σ;
     requests := f (requests σ); console := console σ; files := files σ |}.

Definition set_console (f : list console_entry -> list console_entry) (σ : store) : store :=
  {| authorCache := authorCache σ; categoryCache := categoryCache σ;
     tagCache := tagCache σ; mediaCache := mediaCache σ;
     axiosInstance := axiosInstance σ; siteDomain := siteDomain σ;
     requests := requests σ; console := f (console σ); files := files σ |}.

Definition set_files (f : list (string * list row) -> list (string * list row))
    (σ : store) : store :=
  {| authorCache := authorCache σ; categoryCache := categoryCache σ;
     tagCache := tagCache σ; mediaCache := mediaCache σ;
     axiosInstance := axiosInstance σ; siteDomain := siteDomain σ;
     requests := requests σ; console := console σ; files := f (files σ) |}.

Definition set_client (c : client) (d : string) (σ : store) : store :=
  {| authorCache := authorCache σ; categoryCache := categoryCache σ;
     tagCache := tagCache σ; mediaCache := mediaCache σ;
     axiosInstance := Some c; siteDomain := Some d;
     requests := requests σ; console := console σ; files := files σ |}.

(** The three name caches are passed to [fetchAndCacheAll] by
    reference: the callee writes into the module-level map itself. *)
Inductive cache_ref := AuthorCache | CategoryCache | TagCache.

Definition cache_of (c : cache_ref) (σ : store) : gmap Z string :=
  match c with
  | AuthorCache => authorCache σ
  | CategoryCache => categoryCache σ
  | TagCache => tagCache σ
  end.

Definition set_cache (c : cache_ref) (f : gmap Z string -> gmap Z string) (σ : store)
    : store :=
  {| authorCache := match c with AuthorCache => f (authorCache σ) | _ => authorCache σ end;
     categoryCache :=
       match c with CategoryCache => f (categoryCache σ) | _ => categoryCache σ end;
     tagCache := match c with TagCache => f (tagCache σ) | _ => tagCache σ end;
     mediaCache := mediaCache σ;
     axiosInstance := axiosInstance σ; siteDomain := siteDomain σ;
     requests := requests σ; console := console σ; files := files σ |}.

(** *** Console and network *)

Definition console_call (lv : level) (args : list string) : M unit :=
  modify (set_console (fun c => c ++ [{| entry_level := lv; entry_args := args |}])).

(** [axiosInstance.get(...)] up to the point where the request has left:
    a call on the undefined client is a [TypeError]; otherwise the
    request is recorded and its sequence number returned. *)
Definition send (r : request) : M nat :=
  let* σ := get_store in
  match axiosInstance σ with
  | None =>
      throw {| message := "Cannot read properties of undefined (reading 'get')";
               response_status := None |}
  | Some _ =>
      modify (set_requests (fun rs => rs ++ [r])) >>> ret (length (requests σ))
  end.

(** [await] of a request's promise: the answer, or the error thrown. *)
Definition await {A} (r : error + A) : M A :=
  match r with
  | inl e => throw e
  | inr a => ret a
  end.

(** [parseInt(s, 10)]; [None] is [NaN]. *)
Definition digit_of (c : ascii) : option Z :=
  let n := nat_of_ascii c in
  if ((48 <=? n) && (n <=? 57))%nat then Some (Z.of_nat n - 48) else None.

Fixpoint digits (acc : option Z) (s : string) : option Z :=
  match s with
  | EmptyString => acc
  | String c s' =>
      match digit_of c with
      | Some d => digits (Some (10 * default 0 acc + d)) s'
      | None => acc
      end
  end.

Definition parseInt10 (o : option string) : option Z :=
  match o with
  | None => None
  | Some s =>
      match trim_start s with
      | String "-" s' => Z.opp <$> digits None s'
      | String "+" s' => digits None s'
      | s' => digits None s'
      end
  end.

(** ** The program *)

(** [setupApiClient(domain, username, appPassword)]. *)
Definition setupApiClient (domain username appPassword : string) : M unit :=
  modify (set_client
            {| baseURL := "https://" +:+ domain +:+ "/wp-json/wp/v2";
               auth_user := username; auth_password := appPassword |}
            domain).

(** [fetchAndCacheAll(endpoint, cache, logName)]; the loop variables
    are [(page, totalPages)]. *)
Definition fetchAndCacheAll (fuel : nat) (endpoint : string) (cache : cache_ref)
    (logName : string) : M unit :=
  console_call Log ["Fetching all " +:+ logName +:+ "..."] >>>
  try_catch
    (let* _ :=
       while fuel
         (fun '(page, totalPages) => page <=? totalPages)
         (fun '(page, totalPages) =>
            let* k := send (GetCollection endpoint 100 page) in
            let* E := get_env in
            let* response := await (net_collection E k endpoint page) in
            let totalPages :=
              if page =? 1
              then parseInt10 (x_wp_totalpages response) <||> 1
              else totalPages in
            modify (set_cache cache (fun c =>
              foldl (fun c item => <[term_id item := term_name item]> c)
                    c (data response))) >>>
            ret (page + 1, totalPages))
         (1, 1) in
     let* σ := get_store in
     console_call Log
       ["Successfully cached " +:+ pretty (size (cache_of cache σ)) +:+ " "
        +:+ logName +:+ "."])
    (fun error =>
       console_call Warn
         ["Warning: Could not fetch " +:+ logName
          +:+ ". This data may be missing from the report."; message error]).

(** *** The media resolver

    [getFeaturedImageData] is an [async] function with one [await], on
    the media request. [getFeaturedImageData_begin] is the part that
    runs when the function is called, up to that [await];
    [getFeaturedImageData_resume] is the part that runs when the
    answer is there. *)

Inductive started :=
  | Settled (d : imageData)
  | Awaiting (k : nat) (mediaId : Z).

Definition errorData : imageData :=
  {| url := "Error fetching image"; alt := "Error fetching image" |}.

(** The [catch] block. *)
Definition media_failed (mediaId : Z) (error : error) : M imageData :=
  console_call Warn
    ["Warning: Could not fetch media ID " +:+ pretty mediaId +:+ "."; message error] >>>
  modify (set_mediaCache (fun c => <[mediaId := errorData]> c)) >>>
  ret errorData.

Definition getFeaturedImageData_begin (mediaId : option Z) : M started :=
  match mediaId with
  | None => ret (Settled {| url := ""; alt := "" |})
  | Some mediaId =>
      if negb (to_boolean mediaId) then ret (Settled {| url := ""; alt := "" |})
      else
        let* σ := get_store in
        match mediaCache σ !! mediaId with
        | Some d => ret (Settled d)
        | None =>
            try_catch
              (let* k := send (GetMedia mediaId) in ret (Awaiting k mediaId))
              (fun error => let* d := media_failed mediaId error in ret (Settled d))
        end
  end.

Definition getFeaturedImageData_resume (st : started) : M imageData :=
  match st with
  | Settled d => ret d
  | Awaiting k mediaId =>
      let* E := get_env in
      try_catch
        (let* response_data := await (net_media E k mediaId) in
         let imageData :=
           {| url := source_url response_data <||> "";
              alt := alt_text response_data <||> "" |} in
         modify (set_mediaCache (fun c => <[mediaId := imageData]> c)) >>>
         ret imageData)
        (media_failed mediaId)
  end.

(** A call whose result is awaited before anything else runs. *)
Definition getFeaturedImageData (mediaId : option Z) : M imageData :=
  let* st := getFeaturedImageData_begin mediaId in
  getFeaturedImageData_resume st.

(** *** Post-type discovery *)

Definition getPostTypes : M (list string) :=
  console_call Log ["Discovering available post types..."] >>>
  try_catch
    (let* k := send GetTypes in
     let* E := get_env in
     let* response_data := await (net_types E k) in
     (* after the filter every [rest_base] is a string: [omap] drops nothing *)
     let availableTypes :=
       omap rest_base
         (List.filter
            (fun type => to_boolean (viewable type) && to_boolean (rest_base type))
            (map snd response_data)) in
     if Z.of_nat (length availableTypes) >? 0 then
       console_call Log ["Found post types: " +:+ join ", " availableTypes] >>>
       ret availableTypes
     else
       console_call Warn
         ["Warning: Could not automatically discover post types. Defaulting to "
          +:+ quoted "posts" +:+ " and " +:+ quoted "pages" +:+ "."] >>>
       ret ["posts"; "pages"])
    (fun error =>
       console_call Error ["Fatal: Could not fetch post types endpoint."; message error] >>>
       process_exit 1).

(** *** The item fetcher *)

Definition fields : string :=
  join "," ["id"; "title"; "author"; "date_gmt"; "modified_gmt"; "link"; "status";
            "excerpt"; "comment_status"; "template"; "categories"; "tags";
            "featured_media"; "yoast_head_json"].

(** The [try] block of [fetchPaginatedData]; the loop variables are
    [(allItems, page, totalPages)]. *)
Definition fetchPaginatedData_try (fuel : nat) (postType : string) : M (list item) :=
  let* (allItems, _, _) :=
    while fuel
      (fun '(allItems, page, totalPages) => page <=? totalPages)
      (fun '(allItems, page, totalPages) =>
         let* k := send (GetItems postType 50 page fields) in
         let* E := get_env in
         let* response := await (net_items E k postType page) in
         let* totalPages :=
           if page =? 1 then
             let totalPages := parseInt10 (x_wp_totalpages response) <||> 1 in
             console_call Log
               ["Found " +:+ default "undefined" (x_wp_total response)
                +:+ " items across " +:+ pretty totalPages +:+ " page(s)."] >>>
             ret totalPages
           else ret totalPages in
         let* allItems :=
           if Z.of_nat (length (data response)) >? 0 then
             let allItems := allItems ++ data response in
             console_call Log
               ["Fetched page " +:+ pretty page +:+ "/" +:+ pretty totalPages
                +:+ "... (" +:+ pretty (length allItems) +:+ " items so far)"] >>>
             ret allItems
           else ret allItems in
         ret (allItems, page + 1, totalPages))
      ([], 1, 1) in
  ret allItems.

(** [error.response && error.response.status === 404]. *)
Definition is_not_found (error : error) : bool :=
  match response_status error with
  | Some s => s =? 404
  | None => false
  end.

Definition fetchPaginatedData (fuel : nat) (postType : string) : M (list item) :=
  console_call Log [nl +:+ "--- Starting fetch for post type: '" +:+ postType +:+ "' ---"] >>>
  try_catch
    (fetchPaginatedData_try fuel postType)
    (fun error =>
       (if is_not_found error then
          console_call Log ["No items found for post type '" +:+ postType +:+ "'. Skipping."]
        else
          console_call Error
            ["Error fetching data for '" +:+ postType +:+ "': " +:+ message error
             +:+ ". Skipping this type."]) >>>
       ret []).

(** *** The report *)

(** [s.replace(/[:.]/g, '-')]. *)
Fixpoint dashes (s : string) : string :=
  match s with
  | EmptyString => EmptyString
  | String c s' =>
      String (if Ascii.eqb c ":" || Ascii.eqb c "." then "-"%char else c) (dashes s')
  end.

(** [path.split('/')]: the segments between the slashes. *)
Fixpoint split_slash (s : string) : list string :=
  match s with
  | EmptyString => [EmptyString]
  | String c s' =>
      if Ascii.eqb c "/" then EmptyString :: split_slash s'
      else match split_slash s' with
           | seg :: segs => String c seg :: segs
           | [] => [String c EmptyString]
           end
  end.

(** One segment of [normalizeString] of Node's [path] module; [res]
    holds the segments kept so far, the last one first. An empty segment
    and [.] are dropped; [..] removes the segment before it, unless
    there is none or it is [..] itself, in which case it is kept when
    the path is relative. *)
Definition normalize_segment (allowAboveRoot : bool) (res : list string)
    (seg : string) : list string :=
  if String.eqb seg "" || String.eqb seg "." then res
  else if String.eqb seg ".." then
    match res with
    | last :: rest =>
        if String.eqb last ".." then (if allowAboveRoot then seg :: res else res)
        else rest
    | [] => if allowAboveRoot then [seg] else []
    end
  else seg :: res.

Definition normalizeString (path : string) (allowAboveRoot : bool) : string :=
  join "/" (rev (fold_left (normalize_segment allowAboveRoot) (split_slash path) [])).

Definition starts_with_slash (s : string) : bool :=
  match s with
  | String c _ => Ascii.eqb c "/"
  | EmptyString => false
  end.

Fixpoint ends_with_slash (s : string) : bool :=
  match s with
  | EmptyString => false
  | String c EmptyString => Ascii.eqb c "/"
  | String _ s' => ends_with_slash s'
  end.

(** [path.normalize(path)] (POSIX). *)
Definition normalize (path : string) : string :=
  if String.eqb path "" then "."
  else
    let isAbsolute := starts_with_slash path in
    let trailingSeparator := ends_with_slash path in
    let path := normalizeString path (negb isAbsolute) in
    if String.eqb path "" then
      if isAbsolute then "/" else if trailingSeparator then "./" else "."
    else
      let path := if trailingSeparator then path +:+ "/" else path in
      if isAbsolute then "/" +:+ path else path.

(** [path.join(a, b)] (POSIX): the arguments that are not empty, joined
    by a slash and normalised. *)
Definition path_join (a b : string) : string :=
  match a, b with
  | EmptyString, EmptyString => "."
  | EmptyString, _ => normalize b
  | _, EmptyString => normalize a
  | _, _ => normalize (a +:+ "/" +:+ b)
  end.

(** The callback of [allData.map] up to its [await]. *)
Definition flatten_begin (it : item) : M (item * flatten_locals * started) :=
  let* σ := get_store in
  let l := flatten_before σ it in
  let* st := getFeaturedImageData_begin (featured_media it) in
  ret (it, l, st).

(** The callback from its [await] on. *)
Definition flatten_resume (p : item * flatten_locals * started) : M row :=
  match p with
  | (it, l, st) =>
      let* featuredImageData := getFeaturedImageData_resume st in
      let* σ := get_store in
      lift (flatten_after σ it l featuredImageData)
  end.

(** [await Promise.all(allData.map(async (item) => ...))]: [map] calls
    the callback on every item in turn, and each call runs up to its
    [await] before the next one starts; no answer is handled before
    [map] is through. The callbacks are then resumed; the model
    resumes them in the order of the items. *)
Definition flatten_all (allData : list item) : M (list row) :=
  let* pending := mapM flatten_begin allData in
  mapM flatten_resume pending.

Definition createAndSaveReport (allData : list item) : M unit :=
  if Z.of_nat (length allData) =? 0 then
    console_call Log [nl +:+ "- No data was extracted. Report will not be generated."]
  else
    console_call Log [nl +:+ "Processing data for CSV report..."] >>>
    let* flatData := flatten_all allData in
    let* E := get_env in
    let datetime := dashes (now_iso E) in
    let* σ := get_store in
    let* reportDir :=
      match siteDomain σ with
      | Some d => ret (path_join "reports" d)
      | None =>
          throw {| message := "The " +:+ quoted "path"
                                +:+ " argument must be of type string. Received undefined";
                   response_status := None |}
      end in
    let fileName := datetime +:+ "-yoast-report.csv" in
    let filePath := path_join reportDir fileName in
    try_catch
      (match fs_failure E with
       | Some e => throw e
       | None => modify (set_files (fun fs => fs ++ [(filePath, flatData)]))
       end >>>
       console_call Log [nl +:+ "✅ Success! Report saved to: " +:+ filePath])
      (fun error =>
         console_call Error [nl +:+ "❌ Error saving CSV report to file: " +:+ message error]).

(** *** The run *)

(** [{ ...item, postType: type }]. *)
Definition with_postType (type : string) (it : item) : item :=
  {| postType := Some type; item_id := item_id it; title := title it;
     author := author it; date_gmt := date_gmt it; modified_gmt := modified_gmt it;
     link := link it; status := status it; excerpt := excerpt it;
     comment_status := comment_status it; template := template it;
     categories := categories it; tags := tags it;
     featured_media := featured_media it; yoast_head_json := yoast_head_json it |}.

(** The body of the [for (const type of postTypes)] loop. *)
Definition extract_type (fuel : nat) (type : string) (allExtractedData : list item)
    : M (list item) :=
  let* items := fetchPaginatedData fuel type in
  if Z.of_nat (length items) >? 0 then
    let itemsWithType := map (with_postType type) items in
    ret (allExtractedData ++ itemsWithType)
  else ret allExtractedData.

(** [main] up to its last statement: the value of [allExtractedData]
    when the loop over the post types is through. *)
Definition main_extract (fuel : nat) : M (list item) :=
  console_call Log ["--- WordPress Data Extractor ---"] >>>
  let* E := get_env in
  let credentials := answers E in
  setupApiClient (domain credentials) (username credentials) (appPassword credentials) >>>
  fetchAndCacheAll fuel "/users" AuthorCache "users" >>>
  fetchAndCacheAll fuel "/categories" CategoryCache "categories" >>>
  fetchAndCacheAll fuel "/tags" TagCache "tags" >>>
  let* postTypes := getPostTypes in
  for_of postTypes (extract_type fuel) [].

Definition main (fuel : nat) : M unit :=
  let* allExtractedData := main_extract fuel in
  createAndSaveReport allExtractedData.

(** [main().catch(error => { ...; process.exit(1) })]. *)
Definition run (fuel : nat) : M unit :=
  try_catch (main fuel)
    (fun error =>
       console_call Error [nl +:+ "An unexpected error occurred:"; message error] >>>
       process_exit 1).

(** The exit status of the process after [run]: 0 when the program
    runs to its end, the argument of [process.exit] otherwise. *)
Definition exit_status (o : outcome unit) : option Z :=
  match o with
  | Ret _ => Some 0
  | Exit c => Some c
  | Throw _ => Some 1
  | OutOfFuel => None
  end.

(** ** Vocabulary of the properties *)

(** The item's excerpt, when present, has its [rendered] text: the one
    condition under which the callback returns a row. *)
Definition excerpt_ok (it : item) : bool :=
  match excerpt it with
  | Some e => match rendered e with Some _ => true | None => false end
  | None => true
  end.

Definition non_empty (s : string) : bool := negb (String.eqb s "").

Definition count_satisfied (l : list bool) : Z :=
  Z.of_nat (length (List.filter (fun b : bool => b) l)).

(** The Yoast title and description of an item, as the API gave them. *)
Definition yoast_title (it : item) : option string :=
  match yoast_head_json it with Some y => title_ y | None => None end.
Definition yoast_description (it : item) : option string :=
  match yoast_head_json it with Some y => description y | None => None end.

(** Absent or empty. *)
Definition blank (o : option string) : bool :=
  match o with Some s => String.eqb s "" | None => true end.

(** The first node of the given type in the schema graph of an item. *)
Definition first_node (ty : string) (it : item) : option graph_node :=
  y ← yoast_head_json it; s ← schema y; g ← graph s; List.find (type_is ty) g.

(** The focus keyphrase of an item: the keywords of its Article node,
    a list of them joined by a comma and a space. *)
Definition focus_keyphrase (it : item) : string :=
  match first_node "Article" it ≫= keywords with
  | Some (KwArray l) => join ", " l
  | Some (KwString s) => s
  | None => ""
  end.

(** The URL of the first OG image of an item. *)
Definition og_image_url (it : item) : option string :=
  y ← yoast_head_json it; l ← og_image y; o ← head l; og_url o.

(** Image data that stands for a fetch that failed. *)
Definition is_error_sentinel (img : imageData) : bool :=
  bool_decide (img = errorData).

(** The seven conditions of the completeness score, read off the item
    as the API gave it and off the data of its featured image: the
    item has categories, has tags, its image has a URL that is not an
    error, its image has alt text (the text of the error sentinel is
    none), the item has a Yoast description, a focus keyphrase, an OG
    image with a URL. *)
Definition seven_conditions (it : item) (img : imageData) : list bool :=
  [ match categories it with Some (_ :: _) => true | _ => false end;
    match tags it with Some (_ :: _) => true | _ => false end;
    non_empty (url img) && negb (startsWith (url img) "Error");
    non_empty (alt img) && negb (is_error_sentinel img);
    negb (blank (yoast_description it));
    non_empty (focus_keyphrase it);
    negb (blank (og_image_url it)) ].

(** [it] with the Yoast title and description replaced. *)
Definition with_yoast_texts (t d : option string) (it : item) : item :=
  let y := default empty_yoast (yoast_head_json it) in
  {| postType := postType it; item_id := item_id it; title := title it;
     author := author it; date_gmt := date_gmt it; modified_gmt := modified_gmt it;
     link := link it; status := status it; excerpt := excerpt it;
     comment_status := comment_status it; template := template it;
     categories := categories it; tags := tags it;
     featured_media := featured_media it;
     yoast_head_json :=
       Some {| title_ := t; description := d; schema := schema y;
               og_image := og_image y; og_title := og_title y;
               og_description := og_description y;
               twitter_title := twitter_title y;
               twitter_description := twitter_description y;
               twitter_image := twitter_image y; canonical := canonical y |} |}.

(** The names of the audit columns of a row, in order. *)
Definition audit_columns (r : row) : list string :=
  List.filter (String.prefix "AUDIT:") (map fst r).

(** The store once [fetchPaginatedData] has announced the type. *)
Definition announced (postType : string) (σ : store) : store :=
  set_console (fun c => c ++
    [{| entry_level := Log;
        entry_args := [nl +:+ "--- Starting fetch for post type: '" +:+ postType
                       +:+ "' ---"] |}]) σ.

(** What the [catch] block of [fetchPaginatedData] prints. *)
Definition skip_entry (postType : string) (e : error) : console_entry :=
  if is_not_found e then
    {| entry_level := Log;
       entry_args := ["No items found for post type '" +:+ postType +:+ "'. Skipping."] |}
  else
    {| entry_level := Error;
       entry_args := ["Error fetching data for '" +:+ postType +:+ "': " +:+ message e
                      +:+ ". Skipping this type."] |}.

(** The REST bases of the types that are viewable and have a non-empty
    REST base, in the order of the listing. *)
Definition viewable_slugs (types : list (string * type_obj)) : list string :=
  flat_map (fun entry =>
              match viewable (snd entry), rest_base (snd entry) with
              | Some true, Some (String c s) => [String c s]
              | _, _ => []
              end) types.

(** Two stores with the same three name caches. *)
Definition same_names (σ1 σ2 : store) : Prop :=
  authorCache σ1 = authorCache σ2 /\
  categoryCache σ1 = categoryCache σ2 /\
  tagCache σ1 = tagCache σ2.

(** A piece of the program that writes no file. *)
Definition keeps_files {A} (m : M A) : Prop :=
  forall (E : env) (σ : store), files (snd (m E σ)) = files σ.

(** A piece of the program that neither throws nor ends the process. *)
Definition completes {A} (m : M A) : Prop :=
  forall (E : env) (σ : store),
    match fst (m E σ) with
    | Ret _ | OutOfFuel => True
    | Throw _ | Exit _ => False
    end.

(** A piece of the program that has no loop to cut off. *)
Definition fuel_free {A} (m : M A) : Prop :=
  forall (E : env) (σ : store), fst (m E σ) <> OutOfFuel.

(** A piece of the program with an iteration bound is [settled] when
    every bound from some point on gives the same outcome, which is
    not [OutOfFuel]: that outcome is what the program does. *)
Definition settled {A} (m : nat -> M A) : Prop :=
  forall (E : env) (σ : store),
    exists (N : nat) (o : outcome A) (σ' : store),
      o <> OutOfFuel /\
      forall fuel : nat, (N <= fuel)%nat -> m fuel E σ = (o, σ').

(** ** Sample data *)

(** A string of [n] characters. *)
Fixpoint text (n : nat) : string :=
  match n with O => EmptyString | S n' => String "a" (text n') end.

(** Image data of an item without featured image. *)
Definition no_image : imageData := {| url := ""; alt := "" |}.

(** Image data of a fetched image. *)
Definition picture : imageData :=
  {| url := "https://example.com/p.png"; alt := "A picture" |}.

(** An item without SEO data, with two categories. *)
Definition bare_item : item :=
  {| postType := Some "posts"; item_id := Some 1; title := None; author := Some 3;
     date_gmt := None; modified_gmt := None; link := None; status := None;
     excerpt := None; comment_status := None; template := None;
     categories := Some [4; 5]; tags := Some []; featured_media := Some 9;
     yoast_head_json := None |}.

(** An item with every SEO field filled in. *)
Definition full_item : item :=
  {| postType := Some "posts"; item_id := Some 7;
     title := Some {| rendered := Some "Hello" |}; author := Some 3;
     date_gmt := Some "2025-01-01T00:00:00"; modified_gmt := Some "2025-01-02T00:00:00";
     link := Some "https://example.com/hello"; status := Some "publish";
     excerpt := Some {| rendered := Some "<p>Hello world</p>" |};
     comment_status := Some "open"; template := Some "";
     categories := Some [4]; tags := Some [8; 9]; featured_media := Some 9;
     yoast_head_json :=
       Some {| title_ := Some (text 60); description := Some (text 70);
               schema :=
                 Some {| graph :=
                   Some [ {| node_type := Some (TypeString "Article");
                             keywords := Some (KwArray ["seo"; "audit"]);
                             wordCount := None; headline := None |};
                          {| node_type := Some (TypeString "WebPage");
                             keywords := None; wordCount := Some 250;
                             headline := Some "<h1>Hello</h1>" |} ] |};
               og_image := Some [ {| og_url := Some "https://example.com/og.png" |} ];
               og_title := Some "Hello"; og_description := None;
               twitter_title := None; twitter_description := None;
               twitter_image := None; canonical := Some "https://example.com/hello" |} |}.

(** Errors of the client. *)
Definition not_found : error :=
  {| message := "Request failed with status code 404"; response_status := Some 404 |}.
Definition server_error : error :=
  {| message := "Request failed with status code 500"; response_status := Some 500 |}.
Definition network_error : error :=
  {| message := "getaddrinfo ENOTFOUND example.com"; response_status := None |}.

(** An item with a featured image and nothing else. *)
Definition sample_post : item :=
  {| postType := None; item_id := Some 1; title := None; author := Some 3;
     date_gmt := None; modified_gmt := None; link := None; status := None;
     excerpt := None; comment_status := None; template := None;
     categories := None; tags := None; featured_media := Some 9;
     yoast_head_json := None |}.

(** A site with two viewable post types: it has one post and no
    books (404), its media cannot be fetched and neither can its users,
    categories and tags. *)
Definition sample_site : env :=
  {| net_collection := fun _ _ _ => inl server_error;
     net_media := fun _ _ => inl not_found;
     net_types := fun _ =>
       inr [("book", {| viewable := Some true; rest_base := Some "books" |});
            ("post", {| viewable := Some true; rest_base := Some "posts" |});
            ("wp_block", {| viewable := Some false; rest_base := Some "blocks" |})];
     net_items := fun _ postType _ =>
       if String.eqb postType "posts"
       then inr {| x_wp_totalpages := Some "1"; x_wp_total := Some "1";
                   data := [sample_post] |}
       else inl not_found;
     answers := {| domain := "example.com"; username := "editor";
                   appPassword := "abcd efgh" |};
     now_iso := "2025-08-01T21:55:00.123Z";
     fs_failure := None |}.

(** The same site with no content at all. *)
Definition empty_site : env :=
  {| net_collection := net_collection sample_site;
     net_media := net_media sample_site;
     net_types := net_types sample_site;
     net_items := fun _ _ _ => inl not_found;
     answers := answers sample_site;
     now_iso := now_iso sample_site;
     fs_failure := None |}.

(** The same site when it cannot be reached. *)
Definition unreachable_site : env :=
  {| net_collection := fun _ _ _ => inl network_error;
     net_media := fun _ _ => inl network_error;
     net_types := fun _ => inl network_error;
     net_items := fun _ _ _ => inl network_error;
     answers := answers sample_site;
     now_iso := now_iso sample_site;
     fs_failure := None |}.

(** The store once the client is set up. *)
Definition connected : store :=
  set_client {| baseURL := "https://example.com/wp-json/wp/v2";
                auth_user := "editor"; auth_password := "abcd efgh" |}
             "example.com" initial_store.

(** ** Vocabulary of the further properties *)

(** A piece of the program whose thrown errors all satisfy [ok] and
    whose exit codes all satisfy [codes]. *)
Definition raises_only {A} (ok : error -> Prop) (codes : Z -> Prop) (m : M A) : Prop :=
  forall (E : env) (σ : store),
    match fst (m E σ) with
    | Throw e => ok e
    | Exit c => codes c
    | _ => True
    end.

Definition no_error : error -> Prop := fun _ => False.
Definition no_code : Z -> Prop := fun _ => False.
Definition code_1 : Z -> Prop := fun c => c = 1.

(** A piece of the program that takes every store to one that [R]
    relates to it. *)
Definition respects {A} (R : store -> store -> Prop) (m : M A) : Prop :=
  forall (E : env) (σ : store), R σ (snd (m E σ)).


(** The requests for the pages 1 to [k] of a collection and of the
    listing of a post type. *)
Definition collection_pages (endpoint : string) (k : nat) : list request :=
  map (fun i => GetCollection endpoint 100 (Z.of_nat i + 1)) (seq 0 k).
Definition item_pages (postType : string) (k : nat) : list request :=
  map (fun i => GetItems postType 50 (Z.of_nat i + 1) fields) (seq 0 k).
Arguments collection_pages : simpl never.
Arguments item_pages : simpl never.

(** [response.data.forEach(item => cache.set(item.id, item.name))]
    on a map. *)
Definition cache_terms (m : gmap Z string) (l : list term_obj) : gmap Z string :=
  foldl (fun c item => <[term_id item := term_name item]> c) m l.

(** The media ids for which the callbacks of [createAndSaveReport]
    send a request: one for every item, in the order of the items,
    whose [featured_media] is a non-zero id that the media cache did
    not hold when the report started. *)
Definition media_to_fetch (σ : store) (allData : list item) : list Z :=
  omap (fun it =>
          match featured_media it with
          | Some mediaId =>
              if to_boolean mediaId
              then match mediaCache σ !! mediaId with
                   | Some _ => None
                   | None => Some mediaId
                   end
              else None
          | None => None
          end) allData.

Arguments media_to_fetch : simpl never.

(** From [σ] to [σ'] the requests are the same. *)
Definition same_requests (σ σ' : store) : Prop := requests σ' = requests σ.

(** From [σ] to [σ'] the domain, the files and the name caches are the same. *)
Definition same_report_target (σ σ' : store) : Prop :=
  siteDomain σ' = siteDomain σ /\ files σ' = files σ /\ same_names σ σ'.

(** From [σ] to [σ'] the media cache is the same. *)
Definition same_media (σ σ' : store) : Prop := mediaCache σ' = mediaCache σ.

(** The names of the columns of a report row, in order. *)
Definition report_columns : list string :=
  [ "Post Type"; "ID"; "Title"; "Status"; "Author Name"; "Author ID";
    "Created Date (GMT)"; "Last Updated Date (GMT)"; "Link"; "Categories"; "Tags";
    "Comment Status"; "Template"; "Excerpt"; "Featured Image URL";
    "Featured Image Alt Text"; "Yoast Title"; "Yoast Description";
    "Yoast Focus Keyphrase"; "Yoast Word Count"; "Yoast OG Title";
    "Yoast OG Description"; "Yoast OG Image"; "Yoast Twitter Title";
    "Yoast Twitter Description"; "Yoast Twitter Image"; "Yoast Canonical";
    "AUDIT: SEO Meta Score"; "AUDIT: Is Title Too Long (>60)";
    "AUDIT: Is Title Too Short (<30)"; "AUDIT: Is Meta Desc Missing";
    "AUDIT: Is Meta Desc Too Long (>160)"; "AUDIT: Is Meta Desc Too Short (<70)";
    "AUDIT: Is OG Image Missing"; "AUDIT: Is Featured Image Alt Missing";
    "AUDIT: Has Multiple H1 Tags" ].

(** A path segment that [path.join] takes as it is: not empty, without
    a slash, and neither [.] nor [..]. *)
Definition plain_segment (s : string) : bool :=
  non_empty s && negb (includes s "/")
  && negb (String.eqb s ".") && negb (String.eqb s "..").

(** The path of the report of a site at a given time. *)
Definition report_path (domain now : string) : string :=
  "reports/" +:+ domain +:+ "/" +:+ dashes now +:+ "-yoast-report.csv".

(** From [σ] to [σ'] the domain and the files are the same. *)
Definition same_domain_and_files (σ σ' : store) : Prop :=
  siteDomain σ' = siteDomain σ /\ files σ' = files σ.

(** ** Further sample data *)

(** A site with two pages of categories and two pages of posts. *)
Definition category_page (i : nat) : response (list term_obj) :=
  {| x_wp_totalpages := Some "2"; x_wp_total := Some "2";
     data := match i with
             | O => [{| term_id := 4; term_name := "News" |}]
             | _ => [{| term_id := 5; term_name := "Sport" |}]
             end |}.

Definition post_page (i : nat) : response (list item) :=
  {| x_wp_totalpages := Some "2"; x_wp_total := Some "3";
     data := match i with
             | O => [sample_post; bare_item]
             | _ => [full_item]
             end |}.

Definition paged_site : env :=
  {| net_collection := fun _ endpoint page =>
       if String.eqb endpoint "/categories"
       then inr (category_page (Z.to_nat (page - 1)))
       else inl server_error;
     net_media := net_media sample_site;
     net_types := net_types sample_site;
     net_items := fun _ postType page =>
       if String.eqb postType "posts"
       then inr (post_page (Z.to_nat (page - 1)))
       else inl not_found;
     answers := answers sample_site;
     now_iso := now_iso sample_site;
     fs_failure := None |}.


(** The row of [full_item] with a fetched image. *)
Definition full_row : row :=
  report_row connected full_item (flatten_before connected full_item) picture
    "Hello world".

(** The same site with an image 9 that has no alt text. *)
Definition media_site : env :=
  {| net_collection := net_collection sample_site;
     net_media := fun _ _ =>
       inr {| source_url := Some "https://example.com/p.png"; alt_text := None |};
     net_types := net_types sample_site;
     net_items := net_items sample_site;
     answers := answers sample_site;
     now_iso := now_iso sample_site;
     fs_failure := None |}.

(** The same site with an image 9 that cannot be fetched at the first
    request of the process and can from the second on. *)
Definition flaky_site : env :=
  {| net_collection := net_collection sample_site;
     net_media := fun k _ =>
       match k with
       | O => inl not_found
       | S _ => inr {| source_url := Some "https://example.com/p.png";
                       alt_text := Some "A picture" |}
       end;
     net_types := net_types sample_site;
     net_items := net_items sample_site;
     answers := answers sample_site;
     now_iso := now_iso sample_site;
     fs_failure := None |}.

(** ** Tactics *)

(** Unfolds the operations of [M] down to functions on the store. *)
Ltac run_M :=
  cbv beta iota zeta delta
    [bind ret throw process_exit out_of_fuel lift try_catch get_store get_env
     modify console_call send await]; cbn.

(** The same with the media resolver unfolded first. *)
Ltac run_step :=
  unfold getFeaturedImageData, getFeaturedImageData_begin,
    getFeaturedImageData_resume, media_failed; run_M.

(** ** The row flattener: properties *)

Section Flattener.

Context (σ : store) (it : item) (featuredImageData : imageData).

Lemma flatten_row_returns :
  excerpt_ok it = true ->
  exists x, excerpt_text it = Ret x /\
    flatten_row σ it featuredImageData
    = Ret (report_row σ it (flatten_before σ it) featuredImageData x).
Proof.
  unfold excerpt_ok, flatten_row, flatten_after, excerpt_text.
  destruct (excerpt it) as [[[s|]]|]; intros H; try discriminate; eauto.
Qed.

Lemma flatten_row_throws :
  excerpt_ok it = false ->
  exists e, flatten_row σ it featuredImageData = Throw e.
Proof.
  unfold excerpt_ok, flatten_row, flatten_after, excerpt_text.
  destruct (excerpt it) as [[[s|]]|]; intros H; try discriminate; eauto.
Qed.

Lemma yoastTitle_eq :
  yoastTitle (flatten_before σ it) = default "" (yoast_title it).
Proof.
  unfold yoast_title. cbn.
  destruct (yoast_head_json it) as [y|]; cbn; [|reflexivity].
  destruct (title_ y) as [[|c s]|]; reflexivity.
Qed.

Lemma yoastDesc_eq :
  yoastDesc (flatten_before σ it) = default "" (yoast_description it).
Proof.
  unfold yoast_description. cbn.
  destruct (yoast_head_json it) as [y|]; cbn; [|reflexivity].
  destruct (description y) as [[|c s]|]; reflexivity.
Qed.

End Flattener.

Lemma to_boolean_non_empty (s : string) : to_boolean s = non_empty s.
Proof. destruct s; reflexivity. Qed.

Lemma has_elements {A} (o : option (list A)) :
  (Z.of_nat (length (default [] o)) >? 0)
  = match o with Some (_ :: _) => true | _ => false end.
Proof. destruct o as [[|a l]|]; reflexivity. Qed.

Lemma count_satisfied_cons (b : bool) (l : list bool) :
  count_satisfied (b :: l) = (if b then 1 else 0) + count_satisfied l.
Proof.
  unfold count_satisfied. destruct b; cbn [List.filter length]; lia.
Qed.

Lemma count_satisfied_bounds (l : list bool) :
  0 <= count_satisfied l <= Z.of_nat (length l).
Proof.
  induction l as [|b l IH]; [unfold count_satisfied; cbn; lia|].
  rewrite count_satisfied_cons. cbn [length]. rewrite Nat2Z.inj_succ.
  destruct b; lia.
Qed.

(** The keyphrase, the description and the OG image that the callback
    works with are those of the item. *)
Lemma focusKeyphrase_eq (σ : store) (it : item) :
  focusKeyphrase (flatten_before σ it) = focus_keyphrase it.
Proof.
  unfold focus_keyphrase, first_node. cbn.
  destruct (yoast_head_json it) as [y|]; cbn; [|reflexivity].
  destruct (schema y) as [s|]; cbn; [|reflexivity].
  destruct (graph s) as [g|]; cbn; [|reflexivity].
  destruct (List.find (type_is "Article") g) as [n|]; cbn; [|reflexivity].
  destruct (keywords n) as [[l|[|c k]]|]; reflexivity.
Qed.

Lemma ogImageObject_has_url (σ : store) (it : item) :
  match ogImageObject (flatten_before σ it) with
  | Some o => to_boolean (og_url o)
  | None => false
  end = negb (blank (og_image_url it)).
Proof.
  unfold og_image_url. cbn.
  destruct (yoast_head_json it) as [y|]; cbn; [|reflexivity].
  destruct (og_image y) as [[|o l]|]; cbn; try reflexivity.
  destruct (og_url o) as [[|c u]|]; reflexivity.
Qed.

Lemma yoastDesc_non_empty (σ : store) (it : item) :
  to_boolean (yoastDesc (flatten_before σ it)) = negb (blank (yoast_description it)).
Proof.
  rewrite yoastDesc_eq. destruct (yoast_description it) as [[|c d]|]; reflexivity.
Qed.

(** The point for the alt text goes to every image data with a
    non-empty [alt], the error sentinel included. *)
Lemma alt_text_counted (img : imageData) :
  (if to_boolean (alt img) then 1 else 0)
  = (if non_empty (alt img) && negb (is_error_sentinel img) then 1 else 0)
    + (if is_error_sentinel img then 1 else 0).
Proof.
  unfold is_error_sentinel. rewrite to_boolean_non_empty.
  destruct (bool_decide_reflect (img = errorData)) as [->|_].
  - reflexivity.
  - rewrite andb_true_r. destruct (non_empty (alt img)); reflexivity.
Qed.

Lemma completeness_bounds (it : item) (l : flatten_locals) (img : imageData) :
  0 <= completeness it l img <= 7.
Proof.
  unfold completeness.
  repeat match goal with
         | |- context [if ?b then _ else _] => destruct b
         end; lia.
Qed.

(** The score is the number of the seven conditions that hold, and one
    more when the image data is the error sentinel. *)
Lemma completeness_counts (σ : store) (it : item) (img : imageData) :
  completeness it (flatten_before σ it) img
  = count_satisfied (seven_conditions it img)
    + (if is_error_sentinel img then 1 else 0).
Proof.
  pose proof (alt_text_counted img) as Halt.
  unfold completeness, seven_conditions.
  rewrite !has_elements, yoastDesc_non_empty, focusKeyphrase_eq.
  rewrite (to_boolean_non_empty (url img)), (to_boolean_non_empty (focus_keyphrase it)).
  rewrite !count_satisfied_cons.
  change (count_satisfied []) with 0.
  destruct (to_boolean (alt img)), (non_empty (alt img) && negb (is_error_sentinel img)),
    (is_error_sentinel img); try lia;
  clear Halt.
  all: rewrite ?ogImageObject_has_url.
  all: repeat match goal with
         | |- context [if ?b then _ else _] => destruct b
         end; reflexivity.
Qed.

(** C1, with the point where the program departs from it. For every
    item that flattens to a row, the column 'AUDIT: SEO Meta Score'
    reads [n / 7] where [n] is an integer between 0 and 7. [n] is the
    number of the seven conditions that hold (a non-empty categories
    list, a non-empty tags list, a featured-image URL that is not an
    error, alt text on the featured image, a non-empty Yoast
    description, a non-empty focus keyphrase, an OG-image object with a
    URL) for every image data but the error sentinel of a failed
    fetch: there the program counts the text of the sentinel as alt
    text, and [n] is one more than the number of conditions that hold. *)
Theorem score_counts_sentinel_alt_text (σ : store) (it : item) (img : imageData) :
  excerpt_ok it = true ->
  exists (r : row) (n : Z),
    flatten_row σ it img = Ret r /\
    get_col "AUDIT: SEO Meta Score" r = Some (Str (pretty n +:+ " / 7")) /\
    0 <= n <= 7 /\
    n = count_satisfied (seven_conditions it img)
        + (if is_error_sentinel img then 1 else 0).
Proof.
  intros Hex.
  destruct (flatten_row_returns σ it img Hex) as (x & _ & Hrow).
  eexists; exists (completeness it (flatten_before σ it) img).
  split; [exact Hrow|]. split; [reflexivity|].
  split; [apply completeness_bounds|apply completeness_counts].
Qed.

(** *** The audit columns of a row *)

Section Columns.

Context (σ : store) (it : item) (l : flatten_locals) (img : imageData) (x : string).

Lemma col_title_too_long :
  get_col "AUDIT: Is Title Too Long (>60)" (report_row σ it l img x)
  = Some (yes_no (js_length (yoastTitle l) >? 60)).
Proof. reflexivity. Qed.

Lemma col_title_too_short :
  get_col "AUDIT: Is Title Too Short (<30)" (report_row σ it l img x)
  = Some (yes_no (js_length (yoastTitle l) <? 30)).
Proof. reflexivity. Qed.

Lemma col_desc_missing :
  get_col "AUDIT: Is Meta Desc Missing" (report_row σ it l img x)
  = Some (yes_no (negb (to_boolean (yoastDesc l)))).
Proof. reflexivity. Qed.

Lemma col_desc_too_long :
  get_col "AUDIT: Is Meta Desc Too Long (>160)" (report_row σ it l img x)
  = Some (yes_no (js_length (yoastDesc l) >? 160)).
Proof. reflexivity. Qed.

Lemma col_desc_too_short :
  get_col "AUDIT: Is Meta Desc Too Short (<70)" (report_row σ it l img x)
  = Some (yes_no ((js_length (yoastDesc l) >? 0) && (js_length (yoastDesc l) <? 70))).
Proof. reflexivity. Qed.

Lemma col_alt_missing :
  get_col "AUDIT: Is Featured Image Alt Missing" (report_row σ it l img x)
  = Some (yes_no (to_boolean (url img) && negb (to_boolean (alt img)))).
Proof. reflexivity. Qed.

Lemma col_score :
  get_col "AUDIT: SEO Meta Score" (report_row σ it l img x)
  = Some (Str (pretty (completeness it l img) +:+ " / 7")).
Proof. reflexivity. Qed.

End Columns.

(** C3. A Yoast title of exactly 60 characters is not too long and one
    of 61 is; a title of exactly 30 characters is not too short and one
    of 29 is. *)
Theorem title_length_audits (σ : store) (it : item) (img : imageData) (t : string) :
  excerpt_ok it = true ->
  yoast_title it = Some t ->
  exists r : row,
    flatten_row σ it img = Ret r /\
    (String.length t = 60%nat ->
     get_col "AUDIT: Is Title Too Long (>60)" r = Some (Str "No")) /\
    (String.length t = 61%nat ->
     get_col "AUDIT: Is Title Too Long (>60)" r = Some (Str "Yes")) /\
    (String.length t = 30%nat ->
     get_col "AUDIT: Is Title Too Short (<30)" r = Some (Str "No")) /\
    (String.length t = 29%nat ->
     get_col "AUDIT: Is Title Too Short (<30)" r = Some (Str "Yes")).
Proof.
  intros Hex Ht.
  destruct (flatten_row_returns σ it img Hex) as (x & _ & Hrow).
  eexists; split; [exact Hrow|].
  rewrite col_title_too_long, col_title_too_short, yoastTitle_eq, Ht.
  unfold js_length; cbn [from_option id].
  repeat split; intros ->; reflexivity.
Qed.

(** C4. An empty Yoast description is reported missing, and neither too
    long nor too short; a description of exactly 70 characters is not
    too short and one of 69 is. *)
Theorem description_audits (σ : store) (it : item) (img : imageData) :
  excerpt_ok it = true ->
  exists r : row,
    flatten_row σ it img = Ret r /\
    (blank (yoast_description it) = true ->
     get_col "AUDIT: Is Meta Desc Missing" r = Some (Str "Yes") /\
     get_col "AUDIT: Is Meta Desc Too Long (>160)" r = Some (Str "No") /\
     get_col "AUDIT: Is Meta Desc Too Short (<70)" r = Some (Str "No")) /\
    (forall d : string, yoast_description it = Some d ->
       (String.length d = 70%nat ->
        get_col "AUDIT: Is Meta Desc Too Short (<70)" r = Some (Str "No")) /\
       (String.length d = 69%nat ->
        get_col "AUDIT: Is Meta Desc Too Short (<70)" r = Some (Str "Yes"))).
Proof.
  intros Hex.
  destruct (flatten_row_returns σ it img Hex) as (x & _ & Hrow).
  eexists; split; [exact Hrow|].
  rewrite col_desc_missing, col_desc_too_long, col_desc_too_short, yoastDesc_eq.
  split.
  - destruct (yoast_description it) as [[|c d]|]; cbn; intros H;
      try discriminate; repeat split; reflexivity.
  - intros d ->. unfold js_length; cbn [from_option id].
    split; intros ->; reflexivity.
Qed.

Lemma append_cons (c : ascii) (s t : string) : String c s +:+ t = String c (s +:+ t).
Proof. reflexivity. Qed.

Lemma append_nil_r (s : string) : s +:+ "" = s.
Proof. induction s as [|c s IH]; [reflexivity|]. rewrite append_cons, IH. reflexivity. Qed.

Lemma append_assoc (a b c : string) : (a +:+ b) +:+ c = a +:+ (b +:+ c).
Proof.
  induction a as [|x a IH]; [reflexivity|]. rewrite !append_cons, IH. reflexivity.
Qed.

Lemma prefix_append (p b : string) : String.prefix p (p +:+ b) = true.
Proof.
  induction p as [|c p IH]; [destruct b; reflexivity|].
  rewrite append_cons. cbn [String.prefix].
  destruct (ascii_dec c c); [exact IH|congruence].
Qed.

Lemma prefix_split (p s : string) :
  String.prefix p s = true -> exists b, s = p +:+ b.
Proof.
  revert s; induction p as [|c p IH]; intros s H.
  - exists s. reflexivity.
  - destruct s as [|c' s]; [discriminate|]. cbn [String.prefix] in H.
    destruct (ascii_dec c c') as [<-|]; [|discriminate].
    destruct (IH s H) as (b & ->). exists b. reflexivity.
Qed.

Lemma includes_append (a p b : string) : includes (a +:+ p +:+ b) p = true.
Proof.
  induction a as [|c a IH].
  - change ("" +:+ p +:+ b) with (p +:+ b).
    destruct (p +:+ b) eqn:E; cbn [includes];
      rewrite <- E, prefix_append; reflexivity.
  - rewrite append_cons. cbn [includes]. rewrite IH. apply orb_true_r.
Qed.

(** [includes] decides whether [p] is a contiguous part of [s]. *)
Lemma includes_spec (s p : string) :
  includes s p = true <-> exists a b, s = a +:+ p +:+ b.
Proof.
  split; [|intros (a & b & ->); apply includes_append].
  induction s as [|c s IH]; cbn [includes]; intros H.
  - rewrite orb_false_r in H. destruct (prefix_split _ _ H) as (b & E).
    exists "", b. exact E.
  - apply orb_true_iff in H as [H|H].
    + destruct (prefix_split _ _ H) as (b & E). exists "", b. exact E.
    + destruct (IH H) as (a & b & ->). exists (String c a), b. reflexivity.
Qed.

Lemma join_includes (sep : string) (f : Z -> string) (l : list Z) (id : Z) :
  id ∈ l -> includes (join sep (map f l)) (f id) = true.
Proof.
  intros Hin.
  assert (exists a b, join sep (map f l) = a +:+ f id +:+ b) as (a & b & ->);
    [|apply includes_append].
  induction l as [|x l IH]; [inversion Hin|].
  destruct l as [|y l].
  - apply list_elem_of_singleton in Hin as ->. exists "", "".
    change (join sep (map f [x])) with (f x).
    change ("" +:+ f x +:+ "") with (f x +:+ ""). symmetry; apply append_nil_r.
  - apply elem_of_cons in Hin as [->|Hin].
    + exists "", (sep +:+ join sep (map f (y :: l))). reflexivity.
    + destruct (IH Hin) as (a & b & E).
      exists (f x +:+ sep +:+ a), b.
      change (join sep (map f (x :: y :: l)))
        with (f x +:+ sep +:+ join sep (map f (y :: l))).
      rewrite E, !append_assoc. reflexivity.
Qed.

Lemma resolve_name_absent (cache : gmap Z string) (id : Z) :
  cache !! id = None -> resolve_name cache id = "ID:" +:+ pretty id.
Proof. unfold resolve_name. intros ->. reflexivity. Qed.

(** C6. An id of the categories or of the tags that the cache does not
    hold appears in the joined field as [ID:<id>], an author the cache
    does not hold is named [ID:<id>], and the row is there whatever the
    caches hold. *)
Theorem missing_names_become_placeholders (σ : store) (it : item) (img : imageData) :
  excerpt_ok it = true ->
  exists r : row,
    flatten_row σ it img = Ret r /\
    (forall (l : list Z) (i : Z),
       categories it = Some l -> i ∈ l -> categoryCache σ !! i = None ->
       exists s, get_col "Categories" r = Some (Str s) /\
                 includes s ("ID:" +:+ pretty i) = true) /\
    (forall (l : list Z) (i : Z),
       tags it = Some l -> i ∈ l -> tagCache σ !! i = None ->
       exists s, get_col "Tags" r = Some (Str s) /\
                 includes s ("ID:" +:+ pretty i) = true) /\
    (forall a : Z,
       author it = Some a -> authorCache σ !! a = None ->
       get_col "Author Name" r = Some (Str ("ID:" +:+ pretty a))).
Proof.
  intros Hex.
  destruct (flatten_row_returns σ it img Hex) as (x & _ & Hrow).
  eexists; split; [exact Hrow|].
  split; [|split].
  - intros l i Hl Hin Hc. eexists; split; [reflexivity|].
    cbn [categoryNames flatten_before]. rewrite Hl. cbn [from_option id].
    rewrite <- (resolve_name_absent _ _ Hc).
    apply (join_includes ", " (resolve_name (categoryCache σ))), Hin.
  - intros l i Hl Hin Hc. eexists; split; [reflexivity|].
    cbn [tagNames flatten_before]. rewrite Hl. cbn [from_option id].
    rewrite <- (resolve_name_absent _ _ Hc).
    apply (join_includes ", " (resolve_name (tagCache σ))), Hin.
  - intros a Ha Hc.
    change (get_col "Author Name" (report_row σ it (flatten_before σ it) img x))
      with (Some (Str (match author it with
                       | Some a => resolve_name (authorCache σ) a
                       | None => "ID:undefined"
                       end))).
    rewrite Ha, (resolve_name_absent _ _ Hc). reflexivity.
Qed.

(** Replacing the Yoast title leaves the other local constants of the
    callback as they were. *)
Lemma flatten_before_with_title (σ : store) (it : item) (t : option string) :
  let l := flatten_before σ it in
  let l' := flatten_before σ (with_yoast_texts t (yoast_description it) it) in
  focusKeyphrase l' = focusKeyphrase l /\
  wordCount_cell l' = wordCount_cell l /\
  hasMultipleH1s l' = hasMultipleH1s l /\
  ogImageObject l' = ogImageObject l /\
  yoastDesc l' = yoastDesc l /\
  categoryNames l' = categoryNames l /\
  tagNames l' = tagNames l /\
  og_title (yoastData l') = og_title (yoastData l) /\
  og_description (yoastData l') = og_description (yoastData l) /\
  twitter_title (yoastData l') = twitter_title (yoastData l) /\
  twitter_description (yoastData l') = twitter_description (yoastData l) /\
  twitter_image (yoastData l') = twitter_image (yoastData l) /\
  canonical (yoastData l') = canonical (yoastData l).
Proof.
  unfold yoast_description.
  destruct (yoast_head_json it) as [y|] eqn:E; cbn; rewrite E; cbn;
    repeat split; reflexivity.
Qed.

Lemma excerpt_text_with_yoast_texts (it : item) (t d : option string) :
  excerpt_text (with_yoast_texts t d it) = excerpt_text it.
Proof. reflexivity. Qed.

Lemma get_col_cons (k k' : string) (v : cell) (r : row) :
  get_col k ((k', v) :: r) = if String.eqb k k' then Some v else get_col k r.
Proof. reflexivity. Qed.

(** C10. An item without a Yoast title (no SEO blob, no title field or
    an empty one) is flagged too short and not too long. The row has
    nine audit columns and none of them says that the title is missing:
    set against the same item with a title of 30 to 60 characters, the
    row differs in the title column and in the too-short flag only. *)
Theorem missing_title_is_too_short (σ : store) (it : item) (img : imageData) :
  excerpt_ok it = true ->
  blank (yoast_title it) = true ->
  exists r : row,
    flatten_row σ it img = Ret r /\
    get_col "AUDIT: Is Title Too Short (<30)" r = Some (Str "Yes") /\
    get_col "AUDIT: Is Title Too Long (>60)" r = Some (Str "No") /\
    audit_columns r
    = [ "AUDIT: SEO Meta Score"; "AUDIT: Is Title Too Long (>60)";
        "AUDIT: Is Title Too Short (<30)"; "AUDIT: Is Meta Desc Missing";
        "AUDIT: Is Meta Desc Too Long (>160)"; "AUDIT: Is Meta Desc Too Short (<70)";
        "AUDIT: Is OG Image Missing"; "AUDIT: Is Featured Image Alt Missing";
        "AUDIT: Has Multiple H1 Tags" ] /\
    (forall t : string,
       (30 <= String.length t <= 60)%nat ->
       exists r' : row,
         flatten_row σ (with_yoast_texts (Some t) (yoast_description it) it) img
         = Ret r' /\
         forall k : string,
           k <> "Yoast Title" -> k <> "AUDIT: Is Title Too Short (<30)" ->
           get_col k r' = get_col k r).
Proof.
  intros Hex Hblank.
  destruct (flatten_row_returns σ it img Hex) as (x & Hx & Hrow).
  eexists; split; [exact Hrow|].
  assert (yoastTitle (flatten_before σ it) = "") as Hnone.
  { rewrite yoastTitle_eq. destruct (yoast_title it) as [[|c s]|]; cbn in *;
      [reflexivity|discriminate|reflexivity]. }
  split; [rewrite col_title_too_short, Hnone; reflexivity|].
  split; [rewrite col_title_too_long, Hnone; reflexivity|].
  split; [reflexivity|].
  intros t Hlen.
  set (it' := with_yoast_texts (Some t) (yoast_description it) it).
  destruct (flatten_row_returns σ it' img Hex) as (x' & Hx' & Hrow').
  eexists; split; [exact Hrow'|].
  unfold it' in Hx'. rewrite excerpt_text_with_yoast_texts, Hx in Hx'.
  injection Hx' as <-.
  intros k Hk1 Hk2.
  destruct (flatten_before_with_title σ it (Some t))
    as (E1 & E2 & E3 & E4 & E5 & E6 & E7 & E8 & E9 & E10 & E11 & E12 & E13).
  assert ((js_length (yoastTitle (flatten_before σ it')) >? 60) = false) as E14.
  { rewrite yoastTitle_eq. unfold it', js_length; cbn.
    rewrite Z.gtb_ltb. apply Z.ltb_ge. lia. }
  subst it'. unfold report_row, completeness.
  rewrite E1, E2, E3, E4, E5, E6, E7, E8, E9, E10, E11, E12, E13, E14, Hnone.
  change (js_length "" >? 60) with false.
  rewrite !get_col_cons.
  repeat match goal with
         | |- context [String.eqb k ?c] =>
             destruct (String.eqb_spec k c); [try reflexivity; contradiction|]
         end.
  reflexivity.
Qed.

(** ** The media resolver: properties *)

(** A call on an id that the cache holds answers from the cache and
    leaves the store as it is. *)
Lemma getFeaturedImageData_cached (E : env) (σ : store) (mediaId : Z) (d : imageData) :
  to_boolean mediaId = true ->
  mediaCache σ !! mediaId = Some d ->
  getFeaturedImageData (Some mediaId) E σ = (Ret d, σ).
Proof. intros Hid Hc. run_step. rewrite Hid; cbn. rewrite Hc. reflexivity. Qed.

(** A call always returns; on an id that the cache does not hold it
    sends at most one request and leaves its result in the cache. *)
Lemma getFeaturedImageData_miss (E : env) (σ : store) (mediaId : Z) :
  to_boolean mediaId = true ->
  mediaCache σ !! mediaId = None ->
  exists (d : imageData) (σ1 : store) (sent : list request),
    getFeaturedImageData (Some mediaId) E σ = (Ret d, σ1) /\
    mediaCache σ1 !! mediaId = Some d /\
    requests σ1 = requests σ ++ sent /\
    (length sent <= 1)%nat.
Proof.
  intros Hid Hc. run_step. rewrite Hid; cbn. rewrite Hc.
  destruct (axiosInstance σ) as [c|]; cbn.
  - destruct (net_media E (length (requests σ)) mediaId) as [e|m]; cbn;
      do 2 eexists; exists [GetMedia mediaId];
      (split; [reflexivity|]); cbn; rewrite lookup_insert_eq; auto.
  - do 2 eexists; exists [];
      (split; [reflexivity|]); cbn; rewrite lookup_insert_eq, app_nil_r; auto.
Qed.

(** Two calls with the same id, the second made when the first has
    returned, from any state of the cache: both return, with the same
    [{url, alt}], and the two together send at most one request. *)
Lemma media_lookup_is_memoized (E : env) (σ : store) (mediaId : option Z) :
  exists (d : imageData) (σ1 σ2 : store) (sent : list request),
    getFeaturedImageData mediaId E σ = (Ret d, σ1) /\
    getFeaturedImageData mediaId E σ1 = (Ret d, σ2) /\
    requests σ2 = requests σ ++ sent /\
    (length sent <= 1)%nat.
Proof.
  destruct mediaId as [mediaId|];
    [destruct (to_boolean mediaId) eqn:Hid|].
  - destruct (mediaCache σ !! mediaId) as [d|] eqn:Hc.
    + exists d, σ, σ, []. rewrite (getFeaturedImageData_cached E σ mediaId d Hid Hc).
      rewrite app_nil_r. cbn. auto.
    + destruct (getFeaturedImageData_miss E σ mediaId Hid Hc)
        as (d & σ1 & sent & H1 & Hc1 & Hreq & Hlen).
      exists d, σ1, σ1, sent.
      rewrite H1, (getFeaturedImageData_cached E σ1 mediaId d Hid Hc1). auto.
  - exists no_image, σ, σ, []. run_step. rewrite Hid; cbn.
    rewrite app_nil_r. auto.
  - exists no_image, σ, σ, []. run_step. rewrite app_nil_r. auto.
Qed.

(** ** The run: what is written and how the process ends *)

Section Keeps_files.

Lemma keeps_files_ret {A} (a : A) : keeps_files (ret a).
Proof. intros E σ. reflexivity. Qed.

Lemma keeps_files_throw {A} (e : error) : keeps_files (@throw A e).
Proof. intros E σ. reflexivity. Qed.

Lemma keeps_files_exit {A} (c : Z) : keeps_files (@process_exit A c).
Proof. intros E σ. reflexivity. Qed.

Lemma keeps_files_out_of_fuel {A} : keeps_files (@out_of_fuel A).
Proof. intros E σ. reflexivity. Qed.

Lemma keeps_files_get_store : keeps_files get_store.
Proof. intros E σ. reflexivity. Qed.

Lemma keeps_files_get_env : keeps_files get_env.
Proof. intros E σ. reflexivity. Qed.

Lemma keeps_files_await {A} (r : error + A) : keeps_files (await r).
Proof. intros E σ. destruct r; reflexivity. Qed.

Lemma keeps_files_bind {A B} (m : M A) (k : A -> M B) :
  keeps_files m -> (forall a, keeps_files (k a)) -> keeps_files (bind m k).
Proof.
  intros Hm Hk E σ. unfold bind. specialize (Hm E σ).
  destruct (m E σ) as [[a| | |] σ1]; cbn in *; try exact Hm.
  rewrite Hk. exact Hm.
Qed.

Lemma keeps_files_try_catch {A} (m : M A) (h : error -> M A) :
  keeps_files m -> (forall e, keeps_files (h e)) -> keeps_files (try_catch m h).
Proof.
  intros Hm Hh E σ. unfold try_catch. specialize (Hm E σ).
  destruct (m E σ) as [[a| | |] σ1]; cbn in *; try exact Hm.
  rewrite Hh. exact Hm.
Qed.

Lemma keeps_files_console (lv : level) (args : list string) :
  keeps_files (console_call lv args).
Proof. intros E σ. reflexivity. Qed.

Lemma keeps_files_send (r : request) : keeps_files (send r).
Proof. intros E σ. unfold send, bind, get_store. destruct (axiosInstance σ); reflexivity. Qed.

Lemma keeps_files_while {S} (fuel : nat) (cond : S -> bool) (body : S -> M S) (s : S) :
  (forall s, keeps_files (body s)) -> keeps_files (while fuel cond body s).
Proof.
  intros Hb. revert s; induction fuel as [|fuel IH]; intros s; cbn [while];
    destruct (cond s); try apply keeps_files_ret; try apply keeps_files_out_of_fuel.
  apply keeps_files_bind; auto.
Qed.

Lemma keeps_files_for_of {A S} (l : list A) (body : A -> S -> M S) (s : S) :
  (forall a s, keeps_files (body a s)) -> keeps_files (for_of l body s).
Proof.
  intros Hb. revert s; induction l as [|a l IH]; intros s; cbn [for_of];
    [apply keeps_files_ret|]. apply keeps_files_bind; auto.
Qed.

End Keeps_files.

Create HintDb files.
#[local] Hint Resolve keeps_files_ret keeps_files_throw keeps_files_exit
  keeps_files_out_of_fuel keeps_files_get_store keeps_files_get_env
  keeps_files_await keeps_files_console keeps_files_send : files.

Ltac keeps_files_step :=
  first
    [ apply keeps_files_bind; [|intros ?]
    | apply keeps_files_try_catch; [|intros ?]
    | apply keeps_files_while; intros ?
    | apply keeps_files_for_of; intros ? ?
    | solve [auto with files]
    | solve [intros ? ?; reflexivity]
    | match goal with
      | |- keeps_files (match ?x with _ => _ end) => destruct x
      end ].

Lemma keeps_files_fetchAndCacheAll (fuel : nat) (endpoint : string) (cache : cache_ref)
    (logName : string) :
  keeps_files (fetchAndCacheAll fuel endpoint cache logName).
Proof. unfold fetchAndCacheAll. repeat keeps_files_step. Qed.

Lemma keeps_files_getPostTypes : keeps_files getPostTypes.
Proof. unfold getPostTypes. repeat keeps_files_step. Qed.

Lemma keeps_files_fetchPaginatedData (fuel : nat) (postType : string) :
  keeps_files (fetchPaginatedData fuel postType).
Proof. unfold fetchPaginatedData, fetchPaginatedData_try. repeat keeps_files_step. Qed.

Lemma keeps_files_main_extract (fuel : nat) : keeps_files (main_extract fuel).
Proof.
  unfold main_extract, extract_type, setupApiClient.
  repeat first
    [ apply keeps_files_fetchAndCacheAll | apply keeps_files_getPostTypes
    | apply keeps_files_fetchPaginatedData | keeps_files_step ].
Qed.

(** With nothing to report, [createAndSaveReport] prints one line and
    returns. *)
Lemma createAndSaveReport_nothing (E : env) (σ : store) :
  createAndSaveReport [] E σ
  = (Ret tt,
     set_console (fun c => c ++
       [{| entry_level := Log;
           entry_args := [nl +:+ "- No data was extracted. Report will not be generated."]
         |}]) σ).
Proof. reflexivity. Qed.

(** C9. When the loop over the post types ends with no item at all, the
    run writes no file and the process ends with status 0. *)
Theorem no_items_no_report (fuel : nat) (E : env) (σ σ1 : store) :
  main_extract fuel E σ = (Ret [], σ1) ->
  exists σ2 : store,
    run fuel E σ = (Ret tt, σ2) /\
    files σ2 = files σ /\
    exit_status (fst (run fuel E σ)) = Some 0.
Proof.
  intros H.
  assert (files σ1 = files σ) as Hf.
  { pose proof (keeps_files_main_extract fuel E σ) as K. rewrite H in K. exact K. }
  unfold run, main, try_catch, bind. rewrite H, createAndSaveReport_nothing.
  eexists; split; [reflexivity|]. split; [exact Hf|reflexivity].
Qed.

(** ** The item fetcher: properties *)

(** What holds of every outcome of a loop body holds of the loop. *)
Lemma while_outcome {S} (fuel : nat) (cond : S -> bool) (body : S -> M S) (E : env)
    (P : outcome S -> Prop) :
  (forall s, P (Ret s)) -> P OutOfFuel ->
  (forall s σ, match fst (body s E σ) with Ret _ => True | o => P o end) ->
  forall s σ, P (fst (while fuel cond body s E σ)).
Proof.
  intros Hret Hfuel Hbody.
  induction fuel as [|fuel IH]; intros s σ; cbn [while];
    destruct (cond s); try apply Hret; try apply Hfuel.
  unfold bind. specialize (Hbody s σ).
  destruct (body s E σ) as [[s'| | |] σ1]; cbn in *; auto.
Qed.

(** Whatever the site answers, [fetchPaginatedData] neither throws nor
    ends the process. *)
Lemma fetchPaginatedData_completes (fuel : nat) (postType : string) :
  completes (fetchPaginatedData fuel postType).
Proof.
  intros E σ. unfold fetchPaginatedData, fetchPaginatedData_try.
  unfold bind at 1. cbn [console_call modify].
  unfold try_catch, bind at 1.
  set (σ0 := set_console _ σ).
  match goal with
  | |- context [while fuel ?c ?b ?s E σ0] =>
      pose proof (while_outcome fuel c b E
        (fun o => match o with Exit _ => False | _ => True end)
        (fun _ => I) I) as W;
      specialize (fun H => W H s σ0);
      destruct (while fuel c b s E σ0) as [[[[allItems page] totalPages]|e|code|] σ1]
  end; cbn; try exact I.
  - unfold bind. destruct (is_not_found e); exact I.
  - apply W. clear. intros [[allItems page] totalPages] σ.
    run_M. destruct (axiosInstance σ); cbn; [|exact I].
    destruct (net_items E _ postType page) as [e|r]; cbn; [exact I|].
    destruct (page =? 1); cbn;
      destruct (Z.of_nat (length (data r)) >? 0); cbn; exact I.
Qed.

(** The [try] block throws only what a request for a page of the
    listing threw: the site's answer, or the missing client. *)
Lemma listing_throws_fetch_errors (fuel : nat) (postType : string) (E : env)
    (σ σ' : store) (e : error) :
  fetchPaginatedData_try fuel postType E σ = (Throw e, σ') ->
  (exists (k : nat) (page : Z), net_items E k postType page = inl e) \/
  message e = "Cannot read properties of undefined (reading 'get')".
Proof.
  unfold fetchPaginatedData_try. unfold bind at 1.
  match goal with
  | |- context [while fuel ?c ?b ?s E σ] =>
      pose proof (while_outcome fuel c b E
        (fun o => match o with
                  | Throw e =>
                      (exists (k : nat) (page : Z), net_items E k postType page = inl e) \/
                      message e = "Cannot read properties of undefined (reading 'get')"
                  | _ => True
                  end)
        (fun _ => I) I) as W;
      specialize (fun H => W H s σ);
      destruct (while fuel c b s E σ) as [[[[allItems page] totalPages]|e0|code|] σ1]
  end; cbn; try discriminate.
  intros [= <- <-]. apply W. clear. intros [[allItems page] totalPages] σ.
  run_M. destruct (axiosInstance σ); cbn; [|right; reflexivity].
  destruct (net_items E _ postType page) as [e|r] eqn:Hnet; cbn; [left; eauto|].
  destruct (page =? 1); cbn;
    destruct (Z.of_nat (length (data r)) >? 0); cbn; exact I.
Qed.

(** C7. When the listing of a post type fails, on whichever page, with
    status 404 or with any other error: [fetchPaginatedData] prints
    one line (a plain one for 404, an error otherwise) and returns the
    empty list, and the loop over the post types goes on to the next
    type with the items collected so far, as for a type without items. *)
Theorem failed_listing_skips_the_type (fuel : nat) (E : env) (σ σ' : store)
    (type : string) (e : error) :
  fetchPaginatedData_try fuel type E (announced type σ) = (Throw e, σ') ->
  let σ'' := set_console (fun c => c ++ [skip_entry type e]) σ' in
  fetchPaginatedData fuel type E σ = (Ret [], σ'') /\
  (forall (types : list string) (allExtractedData : list item),
     for_of (type :: types) (extract_type fuel) allExtractedData E σ
     = for_of types (extract_type fuel) allExtractedData E σ'').
Proof.
  intros H σ''.
  assert (fetchPaginatedData fuel type E σ = (Ret [], σ'')) as Hfetch.
  { unfold fetchPaginatedData. unfold bind at 1. cbn [console_call modify].
    unfold try_catch. fold (announced type σ). rewrite H.
    unfold σ'', skip_entry, bind. destruct (is_not_found e); reflexivity. }
  split; [exact Hfetch|].
  intros types allExtractedData. cbn [for_of].
  unfold bind at 1. unfold extract_type at 1. unfold bind at 1.
  rewrite Hfetch. reflexivity.
Qed.

(** A failure of the request for the first page is such a failure. *)
Lemma first_page_failure (fuel : nat) (E : env) (σ : store) (type : string)
    (c : client) (e : error) :
  axiosInstance σ = Some c ->
  net_items E (length (requests σ)) type 1 = inl e ->
  fetchPaginatedData_try (S fuel) type E (announced type σ)
  = (Throw e, set_requests (fun rs => rs ++ [GetItems type 50 1 fields])
                (announced type σ)).
Proof.
  intros Hc Hnet. unfold fetchPaginatedData_try. cbn [while Z.leb Z.compare].
  run_M. rewrite Hc. cbn. rewrite Hnet. reflexivity.
Qed.

(** ** Post-type discovery: properties *)

Lemma availableTypes_eq (types : list (string * type_obj)) :
  omap rest_base
    (List.filter
       (fun type => to_boolean (viewable type) && to_boolean (rest_base type))
       (map snd types))
  = viewable_slugs types.
Proof.
  induction types as [|[k [[[|]|] [[|c s]|]]] types IH];
    [reflexivity|cbn; rewrite IH; reflexivity..].
Qed.

(** C8. With the listing of the types at hand, [getPostTypes] returns
    the REST bases of the viewable types that have one, and
    [posts, pages] when there is none; when the request fails, the
    process ends there with status 1, whatever was to follow. *)
Theorem discovery_result (E : env) (σ : store) (c : client) :
  axiosInstance σ = Some c ->
  match net_types E (length (requests σ)) with
  | inr types =>
      fst (getPostTypes E σ)
      = Ret (match viewable_slugs types with
             | [] => ["posts"; "pages"]
             | slugs => slugs
             end)
  | inl e =>
      fst (getPostTypes E σ) = Exit 1 /\
      (forall (rest : list string -> M unit) (handler : error -> M unit),
         exit_status
           (fst (try_catch (let* postTypes := getPostTypes in rest postTypes)
                   handler E σ))
         = Some 1)
  end.
Proof.
  intros Hc.
  unfold getPostTypes. run_M. rewrite Hc. cbn.
  destruct (net_types E (length (requests σ))) as [e|types]; cbn.
  - repeat split; reflexivity.
  - rewrite availableTypes_eq.
    destruct (viewable_slugs types) as [|s l]; reflexivity.
Qed.

(** ** Termination: the iteration bound is no restriction *)

Lemma settled_const {A} (m : M A) :
  (forall E σ, fst (m E σ) <> OutOfFuel) -> settled (fun _ => m).
Proof.
  intros H E σ. exists 0%nat, (fst (m E σ)), (snd (m E σ)).
  split; [apply H|]. intros fuel _. destruct (m E σ); reflexivity.
Qed.

Lemma settled_bind {A B} (m : nat -> M A) (k : A -> nat -> M B) :
  settled m -> (forall a, settled (k a)) ->
  settled (fun fuel => let* a := m fuel in k a fuel).
Proof.
  intros Hm Hk E σ.
  destruct (Hm E σ) as (N1 & o & σ1 & Ho & H1).
  destruct o as [a|e|c|]; [|exists N1, (Throw e), σ1|exists N1, (Exit c), σ1|congruence].
  - destruct (Hk a E σ1) as (N2 & o2 & σ2 & Ho2 & H2).
    exists (N1 `max` N2)%nat, o2, σ2. split; [exact Ho2|].
    intros fuel Hf. unfold bind. rewrite H1 by lia. apply H2. lia.
  - split; [discriminate|]. intros fuel Hf. unfold bind. rewrite H1 by lia. reflexivity.
  - split; [discriminate|]. intros fuel Hf. unfold bind. rewrite H1 by lia. reflexivity.
Qed.

Lemma settled_try_catch {A} (m : nat -> M A) (h : error -> nat -> M A) :
  settled m -> (forall e, settled (h e)) ->
  settled (fun fuel => try_catch (m fuel) (fun e => h e fuel)).
Proof.
  intros Hm Hh E σ.
  destruct (Hm E σ) as (N1 & o & σ1 & Ho & H1).
  destruct o as [a|e|c|]; [exists N1, (Ret a), σ1| |exists N1, (Exit c), σ1|congruence].
  - split; [discriminate|]. intros fuel Hf. unfold try_catch. rewrite H1 by lia.
    reflexivity.
  - destruct (Hh e E σ1) as (N2 & o2 & σ2 & Ho2 & H2).
    exists (N1 `max` N2)%nat, o2, σ2. split; [exact Ho2|].
    intros fuel Hf. unfold try_catch. rewrite H1 by lia. apply H2. lia.
  - split; [discriminate|]. intros fuel Hf. unfold try_catch. rewrite H1 by lia.
    reflexivity.
Qed.

Lemma settled_for_of {A S} (l : list A) (body : nat -> A -> S -> M S) (s : S) :
  (forall a s, settled (fun fuel => body fuel a s)) ->
  settled (fun fuel => for_of l (body fuel) s).
Proof.
  intros Hb. revert s; induction l as [|a l IH]; intros s; cbn [for_of].
  - apply settled_const. discriminate.
  - apply (settled_bind (fun fuel => body fuel a s)
             (fun s' fuel => for_of l (body fuel) s')); auto.
Qed.

(** A loop whose body never runs out of fuel and makes a measure drop
    on the states that satisfy an invariant. *)
Lemma while_settles {S} (cond : S -> bool) (body : S -> M S)
    (Inv : S -> Prop) (μ : S -> nat) :
  (forall s E σ, fst (body s E σ) <> OutOfFuel) ->
  (forall s E σ s' σ', Inv s -> cond s = true -> body s E σ = (Ret s', σ') ->
                       Inv s' /\ (μ s' < μ s)%nat) ->
  forall s E σ, Inv s ->
    exists (o : outcome S) (σ' : store),
      o <> OutOfFuel /\
      forall fuel, (Datatypes.S (μ s) <= fuel)%nat ->
                   while fuel cond body s E σ = (o, σ').
Proof.
  intros Hbody Hdrop s.
  remember (μ s) as n eqn:Hn. revert s Hn.
  induction n as [n IH] using lt_wf_ind. intros s -> E σ HInv.
  destruct (cond s) eqn:Hc.
  - pose proof (Hbody s E σ) as Hb. pose proof (Hdrop s E σ) as Hd.
    destruct (body s E σ) as [[s'|e|c|] σ1] eqn:Hrun; cbn in Hb.
    + destruct (Hd s' σ1 HInv Hc eq_refl) as (HInv' & Hlt).
      destruct (IH (μ s') Hlt s' eq_refl E σ1 HInv') as (o & σ' & Ho & Hw).
      exists o, σ'. split; [exact Ho|]. intros [|fuel] Hf; [lia|].
      cbn [while]. rewrite Hc. unfold bind. rewrite Hrun. apply Hw. lia.
    + exists (Throw e), σ1. split; [discriminate|]. intros [|fuel] Hf; [lia|].
      cbn [while]. rewrite Hc. unfold bind. rewrite Hrun. reflexivity.
    + exists (Exit c), σ1. split; [discriminate|]. intros [|fuel] Hf; [lia|].
      cbn [while]. rewrite Hc. unfold bind. rewrite Hrun. reflexivity.
    + congruence.
  - exists (Ret s), σ. split; [discriminate|]. intros [|fuel] _;
      cbn [while]; rewrite Hc; reflexivity.
Qed.

(** The loop of [fetchPaginatedData]: once the first page has fixed
    [totalPages], every round moves [page] one step towards it. *)
Lemma fetchPaginatedData_try_settled (postType : string) :
  settled (fun fuel => fetchPaginatedData_try fuel postType).
Proof.
  intros E σ. unfold fetchPaginatedData_try.
  match goal with
  | |- context [while _ ?c0 ?b0 _] =>
      set (cond := c0); set (body := b0);
      assert (forall s E σ, fst (body s E σ) <> OutOfFuel) as Hbody;
      [|assert (forall s E σ s' σ',
                  1 < snd (fst s) -> cond s = true -> body s E σ = (Ret s', σ') ->
                  1 < snd (fst s') /\
                  (Z.to_nat (snd s' + 1 - snd (fst s'))
                   < Z.to_nat (snd s + 1 - snd (fst s)))%nat) as Hdrop]
  end.
  { clear. intros [[allItems page] totalPages] E σ. unfold body. run_M.
    destruct (axiosInstance σ); cbn; [|discriminate].
    destruct (net_items E _ postType page) as [e|r]; cbn; [discriminate|].
    destruct (page =? 1); cbn;
      destruct (Z.of_nat (length (data r)) >? 0); cbn; discriminate. }
  { clear. intros [[allItems page] totalPages] E σ s' σ' Hpage Hc. cbn in Hpage, Hc.
    unfold body. run_M.
    destruct (axiosInstance σ); cbn; [|discriminate].
    destruct (net_items E _ postType page) as [e|r]; cbn; [discriminate|].
    destruct (page =? 1) eqn:Hp; [lia|]. cbn.
    destruct (Z.of_nat (length (data r)) >? 0); cbn;
      intros [= <- <-]; cbn; lia. }
  destruct (body ([], 1, 1) E σ) as [[s1|e|c|] σ1] eqn:Hfirst.
  - assert (1 < snd (fst s1)) as Hpage.
    { revert Hfirst. clear. unfold body. run_M.
      destruct (axiosInstance σ); cbn; [|discriminate].
      destruct (net_items E _ postType 1) as [e|r]; cbn; [discriminate|].
      destruct (Z.of_nat (length (data r)) >? 0); cbn; intros [= <- <-]; cbn; lia. }
    destruct (while_settles cond body (fun s => 1 < snd (fst s))
                (fun s => Z.to_nat (snd s + 1 - snd (fst s))) Hbody Hdrop s1 E σ1 Hpage)
      as (o & σ' & Ho & Hw).
    exists (S (S (Z.to_nat (snd s1 + 1 - snd (fst s1))))).
    destruct o as [[[allItems page] totalPages]|e|c|]; [| | |congruence].
    + exists (Ret allItems), σ'. split; [discriminate|]. intros [|fuel] Hf; [lia|].
      cbn [while]. change (cond ([], 1, 1)) with true. cbv iota.
      unfold bind at 1 2. rewrite Hfirst, Hw by lia. reflexivity.
    + exists (Throw e), σ'. split; [discriminate|]. intros [|fuel] Hf; [lia|].
      cbn [while]. change (cond ([], 1, 1)) with true. cbv iota.
      unfold bind at 1 2. rewrite Hfirst, Hw by lia. reflexivity.
    + exists (Exit c), σ'. split; [discriminate|]. intros [|fuel] Hf; [lia|].
      cbn [while]. change (cond ([], 1, 1)) with true. cbv iota.
      unfold bind at 1 2. rewrite Hfirst, Hw by lia. reflexivity.
  - exists 1%nat, (Throw e), σ1. split; [discriminate|]. intros [|fuel] Hf; [lia|].
    cbn [while]. change (cond ([], 1, 1)) with true. cbv iota.
    unfold bind at 1 2. rewrite Hfirst. reflexivity.
  - exists 1%nat, (Exit c), σ1. split; [discriminate|]. intros [|fuel] Hf; [lia|].
    cbn [while]. change (cond ([], 1, 1)) with true. cbv iota.
    unfold bind at 1 2. rewrite Hfirst. reflexivity.
  - exfalso. apply (Hbody ([], 1, 1) E σ). rewrite Hfirst. reflexivity.
Qed.

Section Fuel_free.

Lemma fuel_free_ret {A} (a : A) : fuel_free (ret a).
Proof. intros E σ. discriminate. Qed.

Lemma fuel_free_throw {A} (e : error) : fuel_free (@throw A e).
Proof. intros E σ. discriminate. Qed.

Lemma fuel_free_exit {A} (c : Z) : fuel_free (@process_exit A c).
Proof. intros E σ. discriminate. Qed.

Lemma fuel_free_get_store : fuel_free get_store.
Proof. intros E σ. discriminate. Qed.

Lemma fuel_free_get_env : fuel_free get_env.
Proof. intros E σ. discriminate. Qed.

Lemma fuel_free_modify (f : store -> store) : fuel_free (modify f).
Proof. intros E σ. discriminate. Qed.

Lemma fuel_free_console (lv : level) (args : list string) :
  fuel_free (console_call lv args).
Proof. intros E σ. discriminate. Qed.

Lemma fuel_free_await {A} (r : error + A) : fuel_free (await r).
Proof. intros E σ. destruct r; discriminate. Qed.

Lemma fuel_free_send (r : request) : fuel_free (send r).
Proof. intros E σ. unfold send. run_M. destruct (axiosInstance σ); discriminate. Qed.

Lemma fuel_free_bind {A B} (m : M A) (k : A -> M B) :
  fuel_free m -> (forall a, fuel_free (k a)) -> fuel_free (bind m k).
Proof.
  intros Hm Hk E σ. unfold bind. specialize (Hm E σ).
  destruct (m E σ) as [[a| | |] σ1]; cbn in *; try discriminate; [apply Hk|congruence].
Qed.

Lemma fuel_free_try_catch {A} (m : M A) (h : error -> M A) :
  fuel_free m -> (forall e, fuel_free (h e)) -> fuel_free (try_catch m h).
Proof.
  intros Hm Hh E σ. unfold try_catch. specialize (Hm E σ).
  destruct (m E σ) as [[a| | |] σ1]; cbn in *; try discriminate; [apply Hh|congruence].
Qed.

Lemma fuel_free_mapM {A B} (f : A -> M B) (l : list A) :
  (forall a, fuel_free (f a)) -> fuel_free (mapM f l).
Proof.
  intros Hf. induction l as [|a l IH]; cbn [mapM]; [apply fuel_free_ret|].
  apply fuel_free_bind; [apply Hf|]. intros b.
  apply fuel_free_bind; [exact IH|]. intros bs. apply fuel_free_ret.
Qed.

Lemma fuel_free_flatten_after (σ : store) (it : item) (l : flatten_locals)
    (img : imageData) :
  fuel_free (lift (flatten_after σ it l img)).
Proof.
  intros E σ0. unfold lift, flatten_after, excerpt_text.
  destruct (excerpt it) as [[[s|]]|]; discriminate.
Qed.

End Fuel_free.

Create HintDb fuel.
#[local] Hint Resolve fuel_free_ret fuel_free_throw fuel_free_exit fuel_free_get_store
  fuel_free_get_env fuel_free_modify fuel_free_console fuel_free_await fuel_free_send
  fuel_free_flatten_after : fuel.

Ltac fuel_free_step :=
  first
    [ apply fuel_free_bind; [|intros ?]
    | apply fuel_free_try_catch; [|intros ?]
    | apply fuel_free_mapM; intros ?
    | solve [auto with fuel]
    | match goal with
      | |- fuel_free (match ?x with _ => _ end) => destruct x
      end ].

Lemma fuel_free_getPostTypes : fuel_free getPostTypes.
Proof. unfold getPostTypes. repeat fuel_free_step. Qed.

Lemma fuel_free_createAndSaveReport (allData : list item) :
  fuel_free (createAndSaveReport allData).
Proof.
  unfold createAndSaveReport, flatten_all, flatten_begin, flatten_resume,
    getFeaturedImageData_begin, getFeaturedImageData_resume, media_failed.
  repeat fuel_free_step.
Qed.

(** The loop of [fetchAndCacheAll], in the same way. *)
Lemma fetchAndCacheAll_settled (endpoint : string) (cache : cache_ref) (logName : string) :
  settled (fun fuel => fetchAndCacheAll fuel endpoint cache logName).
Proof.
  unfold fetchAndCacheAll.
  apply (settled_bind (fun _ => console_call Log _) (fun _ fuel => try_catch _ _));
    [apply settled_const, fuel_free_console|intros _].
  apply (settled_try_catch
           (fun fuel => let* _ := while fuel _ _ _ in _)
           (fun e _ => console_call Warn _));
    [|intros e; apply settled_const, fuel_free_console].
  apply (settled_bind (fun fuel => while fuel _ _ _) (fun _ _ => _));
    [|intros _; apply settled_const; repeat fuel_free_step].
  intros E σ.
  match goal with
  | |- context [while _ ?c0 ?b0 _] =>
      set (cond := c0); set (body := b0);
      assert (forall s E σ, fst (body s E σ) <> OutOfFuel) as Hbody;
      [|assert (forall s E σ s' σ',
                  1 < fst s -> cond s = true -> body s E σ = (Ret s', σ') ->
                  1 < fst s' /\
                  (Z.to_nat (snd s' + 1 - fst s') < Z.to_nat (snd s + 1 - fst s))%nat)
         as Hdrop]
  end.
  { clear. intros [page totalPages] E σ. unfold body. run_M.
    destruct (axiosInstance σ); cbn; [|discriminate].
    destruct (net_collection E _ endpoint page) as [e|r]; cbn; discriminate. }
  { clear. intros [page totalPages] E σ s' σ' Hpage Hc. cbn in Hpage, Hc.
    unfold body. run_M.
    destruct (axiosInstance σ); cbn; [|discriminate].
    destruct (net_collection E _ endpoint page) as [e|r]; cbn; [discriminate|].
    destruct (page =? 1) eqn:Hp; [lia|]. intros [= <- <-]; cbn; lia. }
  destruct (body (1, 1) E σ) as [[s1|e|c|] σ1] eqn:Hfirst.
  - assert (1 < fst s1) as Hpage.
    { revert Hfirst. clear. unfold body. run_M.
      destruct (axiosInstance σ); cbn; [|discriminate].
      destruct (net_collection E _ endpoint 1) as [e|r]; cbn; [discriminate|].
      intros [= <- <-]; cbn; lia. }
    destruct (while_settles cond body (fun s => 1 < fst s)
                (fun s => Z.to_nat (snd s + 1 - fst s)) Hbody Hdrop s1 E σ1 Hpage)
      as (o & σ' & Ho & Hw).
    exists (S (S (Z.to_nat (snd s1 + 1 - fst s1)))), o, σ'.
    split; [exact Ho|]. intros [|fuel] Hf; [lia|].
    cbn [while]. change (cond (1, 1)) with true. cbv iota.
    unfold bind. rewrite Hfirst. apply Hw. lia.
  - exists 1%nat, (Throw e), σ1. split; [discriminate|]. intros [|fuel] Hf; [lia|].
    cbn [while]. change (cond (1, 1)) with true. cbv iota.
    unfold bind. rewrite Hfirst. reflexivity.
  - exists 1%nat, (Exit c), σ1. split; [discriminate|]. intros [|fuel] Hf; [lia|].
    cbn [while]. change (cond (1, 1)) with true. cbv iota.
    unfold bind. rewrite Hfirst. reflexivity.
  - exfalso. apply (Hbody (1, 1) E σ). rewrite Hfirst. reflexivity.
Qed.

Lemma fetchPaginatedData_settled (postType : string) :
  settled (fun fuel => fetchPaginatedData fuel postType).
Proof.
  unfold fetchPaginatedData.
  apply (settled_bind (fun _ => console_call Log _) (fun _ fuel => try_catch _ _));
    [apply settled_const, fuel_free_console|intros _].
  apply (settled_try_catch (fun fuel => fetchPaginatedData_try fuel postType)
           (fun e _ => _ >>> ret []));
    [apply fetchPaginatedData_try_settled|].
  intros e. apply settled_const. destruct (is_not_found e); repeat fuel_free_step.
Qed.

(** Every run ends: with the bound large enough, in one and the same way. *)
Lemma run_settled : settled run.
Proof.
  unfold run.
  apply (settled_try_catch main (fun e _ => _ >>> process_exit 1));
    [|intros e; apply settled_const; repeat fuel_free_step].
  unfold main.
  apply (settled_bind main_extract (fun allExtractedData _ => createAndSaveReport _));
    [|intros d; apply settled_const, fuel_free_createAndSaveReport].
  unfold main_extract.
  apply (settled_bind (fun _ => console_call Log _) (fun _ fuel => let* E := get_env in _));
    [apply settled_const, fuel_free_console|intros _].
  apply (settled_bind (fun _ => get_env) (fun E fuel => _ >>> _));
    [apply settled_const, fuel_free_get_env|intros E].
  apply (settled_bind (fun _ => setupApiClient _ _ _) (fun _ fuel => _ >>> _));
    [apply settled_const, fuel_free_modify|intros _].
  apply (settled_bind (fun fuel => fetchAndCacheAll fuel _ _ _) (fun _ fuel => _ >>> _));
    [apply fetchAndCacheAll_settled|intros _].
  apply (settled_bind (fun fuel => fetchAndCacheAll fuel _ _ _) (fun _ fuel => _ >>> _));
    [apply fetchAndCacheAll_settled|intros _].
  apply (settled_bind (fun fuel => fetchAndCacheAll fuel _ _ _)
           (fun _ fuel => let* postTypes := getPostTypes in _));
    [apply fetchAndCacheAll_settled|intros _].
  apply (settled_bind (fun _ => getPostTypes)
           (fun postTypes fuel => for_of postTypes (extract_type fuel) []));
    [apply settled_const, fuel_free_getPostTypes|intros postTypes].
  apply (settled_for_of postTypes extract_type).
  intros type acc. unfold extract_type.
  apply (settled_bind (fun fuel => fetchPaginatedData fuel type) (fun items _ => _));
    [apply fetchPaginatedData_settled|intros items].
  apply settled_const. destruct (_ >? _); apply fuel_free_ret.
Qed.

(** ** The rows of the report are the rows of [flatten_row] *)

Lemma flatten_before_names (σ1 σ2 : store) (it : item) :
  same_names σ1 σ2 -> flatten_before σ1 it = flatten_before σ2 it.
Proof. intros (_ & Hc & Ht). unfold flatten_before. rewrite Hc, Ht. reflexivity. Qed.

Lemma flatten_after_names (σ1 σ2 : store) (it : item) (l : flatten_locals)
    (img : imageData) :
  same_names σ1 σ2 -> flatten_after σ1 it l img = flatten_after σ2 it l img.
Proof.
  intros (Ha & _ & _). unfold flatten_after, report_row. rewrite Ha. reflexivity.
Qed.

Lemma same_names_refl (σ : store) : same_names σ σ.
Proof. repeat split. Qed.

Lemma same_names_trans (σ1 σ2 σ3 : store) :
  same_names σ1 σ2 -> same_names σ2 σ3 -> same_names σ1 σ3.
Proof. intros (?&?&?) (?&?&?). repeat split; congruence. Qed.

Lemma getFeaturedImageData_begin_names (mediaId : option Z) (E : env) (σ : store) :
  same_names σ (snd (getFeaturedImageData_begin mediaId E σ)).
Proof.
  unfold getFeaturedImageData_begin, media_failed.
  destruct mediaId as [mediaId|]; [|apply same_names_refl].
  destruct (to_boolean mediaId); cbn; [|apply same_names_refl].
  run_M. destruct (mediaCache σ !! mediaId); [apply same_names_refl|].
  destruct (axiosInstance σ); repeat split.
Qed.

Lemma getFeaturedImageData_resume_names (st : started) (E : env) (σ : store) :
  same_names σ (snd (getFeaturedImageData_resume st E σ)).
Proof.
  unfold getFeaturedImageData_resume, media_failed.
  destruct st as [d|k mediaId]; [apply same_names_refl|].
  run_M. destruct (net_media E k mediaId); repeat split.
Qed.

Lemma mapM_Forall2 {A B} (f : A -> M B) (P : store -> Prop) (R : A -> B -> Prop)
    (E : env) :
  (forall a σ b σ', P σ -> f a E σ = (Ret b, σ') -> P σ' /\ R a b) ->
  forall l σ bs σ', P σ -> mapM f l E σ = (Ret bs, σ') -> P σ' /\ Forall2 R l bs.
Proof.
  intros Hf. induction l as [|a l IH]; intros σ bs σ' HP; cbn [mapM].
  - intros [= <- <-]. split; [exact HP|constructor].
  - unfold bind at 1. destruct (f a E σ) as [[b| | |] σ1] eqn:Ha; try discriminate.
    destruct (Hf a σ b σ1 HP Ha) as (HP1 & HR).
    unfold bind at 1. destruct (mapM f l E σ1) as [[bs'| | |] σ2] eqn:Hl; try discriminate.
    intros [= <- <-]. destruct (IH σ1 bs' σ2 HP1 Hl) as (HP2 & HF).
    split; [exact HP2|constructor; assumption].
Qed.

(** Every row that [createAndSaveReport] hands to the writer is the row
    of [flatten_row] for the item at the same place, the name caches
    being those at the start and the image data those of the item's own
    look-up. *)
Lemma flatten_all_rows (E : env) (σ σ' : store) (allData : list item) (rows : list row) :
  flatten_all allData E σ = (Ret rows, σ') ->
  Forall2 (fun it r => exists img, flatten_row σ it img = Ret r) allData rows.
Proof.
  unfold flatten_all, bind.
  destruct (mapM flatten_begin allData E σ) as [[pending| | |] σ1] eqn:H1;
    try discriminate.
  intros H2.
  destruct (mapM_Forall2 flatten_begin (same_names σ)
              (fun it p => exists st, p = (it, flatten_before σ it, st)) E) with
    (l := allData) (σ := σ) (bs := pending) (σ' := σ1) as (Hn1 & F1);
    [|apply same_names_refl|exact H1|].
  { clear. intros it σ0 p σ1 Hn. unfold flatten_begin. run_M.
    pose proof (getFeaturedImageData_begin_names (featured_media it) E σ0) as Hb.
    destruct (getFeaturedImageData_begin (featured_media it) E σ0)
      as [[st| | |] σ2]; try discriminate.
    intros [= <- <-]. split; [eapply same_names_trans; eassumption|].
    exists st. rewrite (flatten_before_names σ σ0 it Hn). reflexivity. }
  destruct (mapM_Forall2 flatten_resume (same_names σ)
              (fun p r => exists img,
                 flatten_after σ (fst (fst p)) (snd (fst p)) img = Ret r) E) with
    (l := pending) (σ := σ1) (bs := rows) (σ' := σ') as (_ & F2);
    [|exact Hn1|exact H2|].
  { clear. intros [[it l] st] σ0 r σ1 Hn. unfold flatten_resume. run_M.
    pose proof (getFeaturedImageData_resume_names st E σ0) as Hr.
    destruct (getFeaturedImageData_resume st E σ0) as [[img| | |] σ2];
      try discriminate. cbn in Hr.
    rewrite <- (flatten_after_names σ σ2 it l img
                  (same_names_trans _ _ _ Hn Hr)).
    destruct (flatten_after σ it l img) as [r0| | |] eqn:Hrow; try discriminate.
    intros [= <- <-]. split; [eapply same_names_trans; eassumption|].
    exists img. exact Hrow. }
  clear H1 H2 Hn1. revert rows F2.
  induction F1 as [|it p allData pending (st & ->) F1 IH]; intros rows F2;
    inversion F2 as [|? r ? rows' (img & Himg) F2']; subst; constructor.
  - exists img. exact Himg.
  - apply IH. exact F2'.
Qed.

(** ** The error sentinel of the media resolver *)

(** A failed fetch leaves the sentinel in the cache and returns it, and
    as long as it is there a later awaited call for the id sends nothing. *)
Lemma failed_fetch_is_cached (E : env) (σ : store) (mediaId : Z) (c : client)
    (e : error) :
  to_boolean mediaId = true ->
  mediaCache σ !! mediaId = None ->
  axiosInstance σ = Some c ->
  net_media E (length (requests σ)) mediaId = inl e ->
  exists σ1 : store,
    getFeaturedImageData (Some mediaId) E σ = (Ret errorData, σ1) /\
    mediaCache σ1 !! mediaId = Some errorData /\
    forall (E2 : env) (σ2 : store),
      mediaCache σ2 !! mediaId = Some errorData ->
      getFeaturedImageData (Some mediaId) E2 σ2 = (Ret errorData, σ2).
Proof.
  intros Hid Hc Hcl Hnet. run_step. rewrite Hid; cbn. rewrite Hc, Hcl; cbn.
  rewrite Hnet; cbn. eexists; split; [reflexivity|]. cbn.
  split; [apply lookup_insert_eq|].
  intros E2 σ2 H2. rewrite H2. reflexivity.
Qed.

(** Handling an answer sends nothing: every request of a run of
    [flatten_all] leaves while the callbacks start. *)
Lemma getFeaturedImageData_resume_sends_nothing (st : started) (E : env) (σ : store) :
  requests (snd (getFeaturedImageData_resume st E σ)) = requests σ.
Proof.
  unfold getFeaturedImageData_resume, media_failed.
  destruct st as [d|k mediaId]; [reflexivity|].
  run_M. destruct (net_media E k mediaId); reflexivity.
Qed.

(** The alt-missing flag of a row with the sentinel is that of a row
    without image. *)
Lemma sentinel_flag_as_no_image (σ : store) (it : item) (l : flatten_locals)
    (x : string) :
  get_col "AUDIT: Is Featured Image Alt Missing" (report_row σ it l errorData x)
  = get_col "AUDIT: Is Featured Image Alt Missing" (report_row σ it l no_image x).
Proof. reflexivity. Qed.

(** The sentinel is worth one point more than no image at all: its URL
    is recognised as an error, its alt text is counted as alt text. *)
Lemma sentinel_scores_alt_point (it : item) (l : flatten_locals) :
  completeness it l errorData = completeness it l no_image + 1.
Proof.
  unfold completeness. cbn.
  repeat match goal with
         | |- context [if ?b then _ else _] => destruct b
         end; reflexivity.
Qed.

(** C2, on the point where the program departs from it. The media of
    [sample_post] cannot be fetched. The report row of the item holds the sentinel in both
    image columns and the sentinel is in the cache, but the score is
    1 / 7: the point is the one for the alt text, since the same item
    with no image at all scores 0 / 7. *)
Theorem failed_image_scores_alt_point :
  exists (r r0 : row) (σ' : store),
    flatten_all [sample_post] sample_site connected = (Ret [r], σ') /\
    mediaCache σ' !! 9 = Some errorData /\
    get_col "Featured Image URL" r = Some (Str "Error fetching image") /\
    get_col "Featured Image Alt Text" r = Some (Str "Error fetching image") /\
    get_col "AUDIT: Is Featured Image Alt Missing" r = Some (Str "No") /\
    get_col "AUDIT: SEO Meta Score" r = Some (Str "1 / 7") /\
    flatten_row connected sample_post no_image = Ret r0 /\
    get_col "AUDIT: SEO Meta Score" r0 = Some (Str "0 / 7").
Proof.
  do 3 eexists. split; [vm_compute; reflexivity|].
  repeat split; vm_compute; reflexivity.
Qed.

(** The callbacks of [Promise.all] all start before any answer is in
    the cache: two items with the same image send two requests. *)
Remark shared_image_is_fetched_per_item :
  requests (snd (flatten_all [sample_post; sample_post] sample_site connected))
  = [GetMedia 9; GetMedia 9].
Proof. vm_compute. reflexivity. Qed.

(** C5, on the point where the program departs from it. Two calls for
    image 9 that start from the same state of the cache, the second
    before the answer to the first is there, as the callbacks of
    [Promise.all] make them: each finds the cache empty and sends its
    own request, and on a site that fails the first request and
    answers the second the two calls return different data. The two
    rows of a report of two items that share the image differ in the
    same way. *)
Theorem overlapping_lookups_fetch_twice :
  exists (st1 st2 : started) (d1 d2 : imageData) (σ1 σ2 σ3 σ4 : store),
    mediaCache connected !! 9 = None /\
    getFeaturedImageData_begin (Some 9) flaky_site connected = (Ret st1, σ1) /\
    getFeaturedImageData_begin (Some 9) flaky_site σ1 = (Ret st2, σ2) /\
    mediaCache σ2 = mediaCache connected /\
    getFeaturedImageData_resume st1 flaky_site σ2 = (Ret d1, σ3) /\
    getFeaturedImageData_resume st2 flaky_site σ3 = (Ret d2, σ4) /\
    requests σ4 = [GetMedia 9; GetMedia 9] /\
    d1 = errorData /\ d2 = picture /\
    exists (r1 r2 : row) (σ' : store),
      flatten_all [sample_post; sample_post] flaky_site connected = (Ret [r1; r2], σ') /\
      requests σ' = [GetMedia 9; GetMedia 9] /\
      get_col "Featured Image URL" r1 = Some (Str "Error fetching image") /\
      get_col "Featured Image URL" r2 = Some (Str "https://example.com/p.png").
Proof.
  do 8 eexists.
  split; [reflexivity|].
  split; [vm_compute; reflexivity|].
  split; [vm_compute; reflexivity|].
  split; [reflexivity|].
  split; [vm_compute; reflexivity|].
  split; [vm_compute; reflexivity|].
  split; [reflexivity|]. split; [reflexivity|]. split; [reflexivity|].
  do 3 eexists. split; [vm_compute; reflexivity|].
  repeat split; vm_compute; reflexivity.
Qed.

(** ** The properties at concrete inputs *)

Lemma score_counts_sentinel_alt_text_witness :
  excerpt_ok sample_post = true /\
  exists r : row,
    flatten_row connected sample_post errorData = Ret r /\
    get_col "AUDIT: SEO Meta Score" r = Some (Str "1 / 7") /\
    count_satisfied (seven_conditions sample_post errorData) = 0.
Proof.
  split; [reflexivity|].
  destruct (score_counts_sentinel_alt_text connected sample_post errorData eq_refl)
    as (r & n & Hrow & Hcol & _ & Hn).
  exists r. split; [exact Hrow|].
  split; [rewrite Hcol, Hn; vm_compute; reflexivity|vm_compute; reflexivity].
Defined.

Lemma title_length_audits_witness :
  excerpt_ok full_item = true /\
  yoast_title full_item = Some (text 60) /\
  exists r : row,
    flatten_row connected full_item picture = Ret r /\
    get_col "AUDIT: Is Title Too Long (>60)" r = Some (Str "No").
Proof.
  split; [reflexivity|]. split; [reflexivity|].
  destruct (title_length_audits connected full_item picture (text 60) eq_refl eq_refl)
    as (r & Hr & H60 & _).
  exists r. split; [exact Hr|]. apply H60. reflexivity.
Defined.

Lemma description_audits_witness :
  excerpt_ok full_item = true /\
  exists r : row,
    flatten_row connected full_item picture = Ret r /\
    get_col "AUDIT: Is Meta Desc Too Short (<70)" r = Some (Str "No").
Proof.
  split; [reflexivity|].
  destruct (description_audits connected full_item picture eq_refl)
    as (r & Hr & _ & H).
  exists r. split; [exact Hr|]. apply (H (text 70) eq_refl). reflexivity.
Defined.

Lemma missing_names_become_placeholders_witness :
  excerpt_ok bare_item = true /\
  exists r : row,
    flatten_row connected bare_item no_image = Ret r /\
    (exists s, get_col "Categories" r = Some (Str s) /\ includes s "ID:5" = true) /\
    get_col "Author Name" r = Some (Str "ID:3").
Proof.
  split; [reflexivity|].
  destruct (missing_names_become_placeholders connected bare_item no_image eq_refl)
    as (r & Hr & Hc & _ & Ha).
  exists r. split; [exact Hr|]. split.
  - apply (Hc [4; 5] 5 eq_refl); [|reflexivity].
    apply elem_of_cons; right. apply elem_of_cons; left. reflexivity.
  - apply (Ha 3 eq_refl). reflexivity.
Defined.

Lemma missing_title_is_too_short_witness :
  excerpt_ok bare_item = true /\
  blank (yoast_title bare_item) = true /\
  exists r : row,
    flatten_row connected bare_item no_image = Ret r /\
    get_col "AUDIT: Is Title Too Short (<30)" r = Some (Str "Yes") /\
    get_col "AUDIT: Is Title Too Long (>60)" r = Some (Str "No").
Proof.
  split; [reflexivity|]. split; [reflexivity|].
  destruct (missing_title_is_too_short connected bare_item no_image eq_refl eq_refl)
    as (r & Hr & Hshort & Hlong & _).
  exists r. auto.
Defined.

Lemma failed_listing_skips_the_type_witness :
  fetchPaginatedData_try 1 "books" sample_site (announced "books" connected)
  = (Throw not_found,
     set_requests (fun rs => rs ++ [GetItems "books" 50 1 fields])
       (announced "books" connected)) /\
  fst (fetchPaginatedData 1 "books" sample_site connected) = Ret [] /\
  fst (for_of ["books"; "posts"] (extract_type 1) [] sample_site connected)
  = Ret [with_postType "posts" sample_post].
Proof.
  assert (fetchPaginatedData_try 1 "books" sample_site (announced "books" connected)
          = (Throw not_found,
             set_requests (fun rs => rs ++ [GetItems "books" 50 1 fields])
               (announced "books" connected))) as H by reflexivity.
  split; [exact H|].
  destruct (failed_listing_skips_the_type 1 sample_site connected _ "books" not_found H)
    as (Hfetch & Hloop).
  split; [rewrite Hfetch; reflexivity|].
  rewrite (Hloop ["posts"] []). reflexivity.
Defined.

Lemma discovery_result_witness :
  axiosInstance connected
  = Some {| baseURL := "https://example.com/wp-json/wp/v2";
            auth_user := "editor"; auth_password := "abcd efgh" |} /\
  fst (getPostTypes sample_site connected) = Ret ["books"; "posts"] /\
  fst (getPostTypes unreachable_site connected) = Exit 1.
Proof.
  split; [reflexivity|]. split.
  - exact (discovery_result sample_site connected _ eq_refl).
  - exact (proj1 (discovery_result unreachable_site connected _ eq_refl)).
Defined.

Lemma no_items_no_report_witness :
  main_extract 2 empty_site initial_store
  = (Ret [], snd (main_extract 2 empty_site initial_store)) /\
  exists σ2 : store,
    run 2 empty_site initial_store = (Ret tt, σ2) /\
    files σ2 = files initial_store /\
    exit_status (fst (run 2 empty_site initial_store)) = Some 0.
Proof.
  assert (main_extract 2 empty_site initial_store
          = (Ret [], snd (main_extract 2 empty_site initial_store))) as H
    by (vm_compute; reflexivity).
  split; [exact H|].
  exact (no_items_no_report 2 empty_site initial_store _ H).
Defined.

(** * Further properties of the program *)

(** ** Loops and sequences: invariants *)

(** An invariant of the loop variables and the store: what the body
    keeps while the loop goes on, and what holds where it stops. *)
Lemma while_invariant {S} (cond : S -> bool) (body : S -> M S) (E : env)
    (Inv : S -> store -> Prop) (Post : outcome S -> store -> Prop) :
  (forall s σ, Inv s σ -> cond s = false -> Post (Ret s) σ) ->
  (forall s σ, Inv s σ -> Post OutOfFuel σ) ->
  (forall s σ, Inv s σ -> cond s = true ->
     match body s E σ with
     | (Ret s', σ') => Inv s' σ'
     | (o, σ') => Post o σ'
     end) ->
  forall fuel s σ, Inv s σ ->
    Post (fst (while fuel cond body s E σ)) (snd (while fuel cond body s E σ)).
Proof.
  intros Hstop Hfuel Hbody.
  induction fuel as [|fuel IH]; intros s σ HI; cbn [while];
    destruct (cond s) eqn:Hc; try (apply Hstop; assumption);
    try (apply Hfuel with s; assumption).
  unfold bind. specialize (Hbody s σ HI Hc).
  destruct (body s E σ) as [[s'| | |] σ1]; cbn; auto.
Qed.

Section Raises_only.

Context (ok : error -> Prop) (codes : Z -> Prop).

Lemma raises_only_ret {A} (a : A) : raises_only ok codes (ret a).
Proof. intros E σ. exact I. Qed.

Lemma raises_only_get_store : raises_only ok codes get_store.
Proof. intros E σ. exact I. Qed.

Lemma raises_only_get_env : raises_only ok codes get_env.
Proof. intros E σ. exact I. Qed.

Lemma raises_only_modify (f : store -> store) : raises_only ok codes (modify f).
Proof. intros E σ. exact I. Qed.

Lemma raises_only_console (lv : level) (args : list string) :
  raises_only ok codes (console_call lv args).
Proof. intros E σ. exact I. Qed.

Lemma raises_only_out_of_fuel {A} : raises_only ok codes (@out_of_fuel A).
Proof. intros E σ. exact I. Qed.

Lemma raises_only_throw {A} (e : error) : ok e -> raises_only ok codes (@throw A e).
Proof. intros H E σ. exact H. Qed.

Lemma raises_only_exit {A} (c : Z) : codes c -> raises_only ok codes (@process_exit A c).
Proof. intros H E σ. exact H. Qed.

Lemma raises_only_bind {A B} (m : M A) (k : A -> M B) :
  raises_only ok codes m -> (forall a, raises_only ok codes (k a)) ->
  raises_only ok codes (bind m k).
Proof.
  intros Hm Hk E σ. unfold bind. specialize (Hm E σ).
  destruct (m E σ) as [[a| | |] σ1]; cbn in *; auto. apply Hk.
Qed.

(** A [try] block takes the errors of its body away: what is left are
    those of the handler. *)
Lemma raises_only_try_catch {A} (any : error -> Prop) (m : M A) (h : error -> M A) :
  raises_only any codes m -> (forall e, raises_only ok codes (h e)) ->
  raises_only ok codes (try_catch m h).
Proof.
  intros Hm Hh E σ. unfold try_catch. specialize (Hm E σ).
  destruct (m E σ) as [[a| | |] σ1]; cbn in *; auto. apply Hh.
Qed.

Lemma raises_only_while {S} (fuel : nat) (cond : S -> bool) (body : S -> M S) (s : S) :
  (forall s, raises_only ok codes (body s)) ->
  raises_only ok codes (while fuel cond body s).
Proof.
  intros Hb. revert s; induction fuel as [|fuel IH]; intros s; cbn [while];
    destruct (cond s); try apply raises_only_ret; try apply raises_only_out_of_fuel.
  apply raises_only_bind; auto.
Qed.

Lemma raises_only_for_of {A S} (l : list A) (body : A -> S -> M S) (s : S) :
  (forall a s, raises_only ok codes (body a s)) ->
  raises_only ok codes (for_of l body s).
Proof.
  intros Hb. revert s; induction l as [|a l IH]; intros s; cbn [for_of];
    [apply raises_only_ret|]. apply raises_only_bind; auto.
Qed.

Lemma raises_only_mapM {A B} (f : A -> M B) (l : list A) :
  (forall a, raises_only ok codes (f a)) -> raises_only ok codes (mapM f l).
Proof.
  intros Hf. induction l as [|a l IH]; cbn [mapM]; [apply raises_only_ret|].
  apply raises_only_bind; [apply Hf|]. intros b.
  apply raises_only_bind; [exact IH|]. intros bs. apply raises_only_ret.
Qed.

End Raises_only.

(** Whatever may be thrown is thrown under the weakest condition. *)
Lemma raises_only_any {A} (codes : Z -> Prop) (m : M A) :
  raises_only no_error codes m -> forall ok, raises_only ok codes m.
Proof.
  intros H ok E σ. specialize (H E σ). unfold no_error in H.
  destruct (fst (m E σ)); cbn in *; tauto.
Qed.

Lemma raises_only_send (codes : Z -> Prop) (r : request) :
  raises_only (fun _ => True) codes (send r).
Proof. intros E σ. unfold send. run_M. destruct (axiosInstance σ); exact I. Qed.

Lemma raises_only_await {A} (codes : Z -> Prop) (r : error + A) :
  raises_only (fun _ => True) codes (await r).
Proof. intros E σ. destruct r; exact I. Qed.

Create HintDb raises.
#[local] Hint Resolve raises_only_ret raises_only_get_store raises_only_get_env
  raises_only_modify raises_only_console raises_only_out_of_fuel raises_only_send
  raises_only_await : raises.

Ltac raises_step :=
  first
    [ apply raises_only_bind; [|intros ?]
    | apply raises_only_while; intros ?
    | apply raises_only_for_of; intros ? ?
    | apply raises_only_mapM; intros ?
    | solve [auto with raises]
    | solve [apply raises_only_throw; exact I]
    | match goal with
      | |- raises_only _ _ (match ?x with _ => _ end) => destruct x
      end ].

Lemma fetchAndCacheAll_raises_nothing (fuel : nat) (endpoint : string)
    (cache : cache_ref) (logName : string) :
  raises_only no_error no_code (fetchAndCacheAll fuel endpoint cache logName).
Proof.
  unfold fetchAndCacheAll.
  apply raises_only_bind; [apply raises_only_console|intros _].
  apply raises_only_try_catch with (any := fun _ => True);
    [|intros e; apply raises_only_console].
  repeat raises_step.
Qed.

(** X1. Whatever the site answers, [fetchAndCacheAll] returns: a
    failed request is caught and the process goes on. *)
Theorem fetchAndCacheAll_always_returns (endpoint : string) (cache : cache_ref)
    (logName : string) (E : env) (σ : store) :
  exists (N : nat) (σ' : store),
    forall fuel : nat, (N <= fuel)%nat ->
      fetchAndCacheAll fuel endpoint cache logName E σ = (Ret tt, σ').
Proof.
  destruct (fetchAndCacheAll_settled endpoint cache logName E σ)
    as (N & o & σ' & Ho & H).
  exists N, σ'. intros fuel Hf.
  pose proof (fetchAndCacheAll_raises_nothing fuel endpoint cache logName E σ) as Hr.
  rewrite (H fuel Hf) in *. cbn in Hr.
  destruct o as [[]| | |]; [reflexivity|destruct Hr..|congruence].
Qed.

Section Respects.

Context (R : store -> store -> Prop) (R_refl : forall σ, R σ σ)
  (R_trans : forall σ1 σ2 σ3, R σ1 σ2 -> R σ2 σ3 -> R σ1 σ3).

Lemma respects_ret {A} (a : A) : respects R (ret a).
Proof. intros E σ. apply R_refl. Qed.

Lemma respects_throw {A} (e : error) : respects R (@throw A e).
Proof. intros E σ. apply R_refl. Qed.

Lemma respects_exit {A} (c : Z) : respects R (@process_exit A c).
Proof. intros E σ. apply R_refl. Qed.

Lemma respects_out_of_fuel {A} : respects R (@out_of_fuel A).
Proof. intros E σ. apply R_refl. Qed.

Lemma respects_get_store : respects R get_store.
Proof. intros E σ. apply R_refl. Qed.

Lemma respects_get_env : respects R get_env.
Proof. intros E σ. apply R_refl. Qed.

Lemma respects_await {A} (r : error + A) : respects R (await r).
Proof. intros E σ. destruct r; apply R_refl. Qed.

Lemma respects_lift {A} (o : outcome A) : respects R (lift o).
Proof. intros E σ. apply R_refl. Qed.

Lemma respects_modify (f : store -> store) :
  (forall σ, R σ (f σ)) -> respects R (modify f).
Proof. intros H E σ. apply H. Qed.

Lemma respects_bind {A B} (m : M A) (k : A -> M B) :
  respects R m -> (forall a, respects R (k a)) -> respects R (bind m k).
Proof.
  intros Hm Hk E σ. unfold bind. specialize (Hm E σ).
  destruct (m E σ) as [[a| | |] σ1]; cbn in *; try exact Hm.
  eapply R_trans; [exact Hm|apply Hk].
Qed.

Lemma respects_try_catch {A} (m : M A) (h : error -> M A) :
  respects R m -> (forall e, respects R (h e)) -> respects R (try_catch m h).
Proof.
  intros Hm Hh E σ. unfold try_catch. specialize (Hm E σ).
  destruct (m E σ) as [[a| | |] σ1]; cbn in *; try exact Hm.
  eapply R_trans; [exact Hm|apply Hh].
Qed.

Lemma respects_while {S} (fuel : nat) (cond : S -> bool) (body : S -> M S) (s : S) :
  (forall s, respects R (body s)) -> respects R (while fuel cond body s).
Proof.
  intros Hb. revert s; induction fuel as [|fuel IH]; intros s; cbn [while];
    destruct (cond s); try apply respects_ret; try apply respects_out_of_fuel.
  apply respects_bind; auto.
Qed.

Lemma respects_for_of {A S} (l : list A) (body : A -> S -> M S) (s : S) :
  (forall a s, respects R (body a s)) -> respects R (for_of l body s).
Proof.
  intros Hb. revert s; induction l as [|a l IH]; intros s; cbn [for_of];
    [apply respects_ret|]. apply respects_bind; auto.
Qed.

Lemma respects_mapM {A B} (f : A -> M B) (l : list A) :
  (forall a, respects R (f a)) -> respects R (mapM f l).
Proof.
  intros Hf. induction l as [|a l IH]; cbn [mapM]; [apply respects_ret|].
  apply respects_bind; [apply Hf|]. intros b.
  apply respects_bind; [exact IH|]. intros bs. apply respects_ret.
Qed.

End Respects.

Ltac respects_step Hrefl Htrans :=
  first
    [ apply (respects_bind _ Htrans); [|intros ?]
    | apply (respects_try_catch _ Htrans); [|intros ?]
    | apply (respects_while _ Hrefl Htrans); intros ?
    | apply (respects_for_of _ Hrefl Htrans); intros ? ?
    | apply (respects_mapM _ Hrefl Htrans); intros ?
    | apply (respects_ret _ Hrefl)
    | apply (respects_throw _ Hrefl)
    | apply (respects_exit _ Hrefl)
    | apply (respects_get_store _ Hrefl)
    | apply (respects_get_env _ Hrefl)
    | apply (respects_await _ Hrefl)
    | apply (respects_lift _ Hrefl)
    | match goal with
      | |- respects _ (match ?x with _ => _ end) => destruct x
      end ].








(** ** The requests of the two paginated fetchers *)

Lemma item_pages_S (postType : string) (k : nat) :
  item_pages postType (S k)
  = item_pages postType k ++ [GetItems postType 50 (Z.of_nat k + 1) fields].
Proof. unfold item_pages. rewrite seq_S, map_app. reflexivity. Qed.

Lemma collection_pages_S (endpoint : string) (k : nat) :
  collection_pages endpoint (S k)
  = collection_pages endpoint k ++ [GetCollection endpoint 100 (Z.of_nat k + 1)].
Proof. unfold collection_pages. rewrite seq_S, map_app. reflexivity. Qed.

(** X6. The requests of [fetchPaginatedData] are those for the pages
    1, 2, ..., k of the listing, in this order, 50 items a page and
    with the fixed field list: no page is asked for twice and none is
    skipped, whatever the answers. *)
Theorem fetchPaginatedData_asks_pages_in_order (fuel : nat) (postType : string)
    (E : env) (σ : store) :
  exists k : nat,
    requests (snd (fetchPaginatedData fuel postType E σ))
    = requests σ ++ item_pages postType k.
Proof.
  unfold fetchPaginatedData, fetchPaginatedData_try.
  unfold bind at 1. cbn [console_call modify].
  set (σ0 := set_console _ σ).
  unfold try_catch, bind at 1.
  match goal with
  | |- context [while fuel ?c0 ?b0 ?s0 E σ0] =>
      pose proof (while_invariant c0 b0 E
        (fun s σ' => exists k : nat,
           snd (fst s) = Z.of_nat k + 1 /\
           requests σ' = requests σ ++ item_pages postType k)
        (fun _ σ' => exists k : nat,
           requests σ' = requests σ ++ item_pages postType k)) as W;
      specialize (fun H1 H2 H3 => W H1 H2 H3 fuel s0 σ0);
      destruct (while fuel c0 b0 s0 E σ0) as [[[[allItems page] totalPages]|e|code|] σ1]
  end; cbn [fst snd] in W.
  1: cbn. 2: unfold bind; destruct (is_not_found e); cbn. 3-4: cbn.
  all: apply W; clear W.
  all: try (intros [[allItems' page'] totalPages'] σ' (k & Hp & Hr); eauto).
  all: try (exists 0%nat; split; [reflexivity|]; cbn; rewrite app_nil_r; reflexivity).
  all: cbn in Hp; subst page'; intros _; run_M.
  all: destruct (axiosInstance σ'); cbn; [|eauto].
  all: destruct (net_items E _ postType _) as [e'|r]; cbn;
    [exists (S k); rewrite item_pages_S, Hr, app_assoc; reflexivity|].
  all: destruct (Z.of_nat k + 1 =? 1); cbn;
    destruct (Z.of_nat (length (data r)) >? 0); cbn;
    exists (S k); (split; [lia|]);
    rewrite item_pages_S, Hr, app_assoc; reflexivity.
Qed.

(** X3. The requests of [fetchAndCacheAll] are those for the pages
    1, 2, ..., k of its endpoint, in this order and 100 items a page. *)
Theorem fetchAndCacheAll_asks_pages_in_order (fuel : nat) (endpoint : string)
    (cache : cache_ref) (logName : string) (E : env) (σ : store) :
  exists k : nat,
    requests (snd (fetchAndCacheAll fuel endpoint cache logName E σ))
    = requests σ ++ collection_pages endpoint k.
Proof.
  unfold fetchAndCacheAll.
  unfold bind at 1. cbn [console_call modify].
  set (σ0 := set_console _ σ).
  unfold try_catch, bind at 1.
  match goal with
  | |- context [while fuel ?c0 ?b0 ?s0 E σ0] =>
      pose proof (while_invariant c0 b0 E
        (fun s σ' => exists k : nat,
           fst s = Z.of_nat k + 1 /\
           requests σ' = requests σ ++ collection_pages endpoint k)
        (fun _ σ' => exists k : nat,
           requests σ' = requests σ ++ collection_pages endpoint k)) as W;
      specialize (fun H1 H2 H3 => W H1 H2 H3 fuel s0 σ0);
      destruct (while fuel c0 b0 s0 E σ0) as [[[page totalPages]|e|code|] σ1]
  end; cbn [fst snd] in W.
  all: run_M.
  all: apply W; clear W.
  all: try (intros [page' totalPages'] σ' (k & Hp & Hr); eauto).
  all: try (exists 0%nat; split; [reflexivity|]; cbn; rewrite app_nil_r; reflexivity).
  all: cbn in Hp; subst page'; intros _; run_M.
  all: destruct (axiosInstance σ'); cbn; [|eauto].
  all: destruct (net_collection E _ endpoint _) as [e'|r]; cbn;
    [exists (S k); rewrite collection_pages_S, Hr, app_assoc; reflexivity|].
  all: exists (S k); (split; [lia|]);
    rewrite collection_pages_S, Hr; destruct cache; cbn; rewrite app_assoc; reflexivity.
Qed.

(** ** What [fetchAndCacheAll] leaves in its cache *)

Lemma cache_terms_app (m : gmap Z string) (l1 l2 : list term_obj) :
  cache_terms m (l1 ++ l2) = cache_terms (cache_terms m l1) l2.
Proof. apply foldl_app. Qed.

Lemma cache_terms_other (l : list term_obj) (m : gmap Z string) (id : Z) :
  id ∉ map term_id l -> cache_terms m l !! id = m !! id.
Proof.
  revert m; induction l as [|t l IH]; intros m Hid; [reflexivity|].
  cbn [map] in Hid. apply not_elem_of_cons in Hid as (Hne & Hid).
  change (cache_terms m (t :: l))
    with (cache_terms (<[term_id t := term_name t]> m) l).
  rewrite (IH _ Hid). apply lookup_insert_ne. congruence.
Qed.

(** An id listed once maps to the name listed with it. *)
Lemma cache_terms_lookup (l : list term_obj) (m : gmap Z string) (t : term_obj) :
  NoDup (map term_id l) -> t ∈ l ->
  cache_terms m l !! term_id t = Some (term_name t).
Proof.
  revert m; induction l as [|t' l IH]; intros m Hnd Hin; [inversion Hin|].
  cbn [map] in Hnd. apply NoDup_cons in Hnd as (Hfresh & Hnd).
  change (cache_terms m (t' :: l))
    with (cache_terms (<[term_id t' := term_name t']> m) l).
  apply elem_of_cons in Hin as [->|Hin].
  - rewrite (cache_terms_other _ _ _ Hfresh). apply lookup_insert_eq.
  - apply IH; assumption.
Qed.

Lemma set_cache_cache_of (c : cache_ref) (f : gmap Z string -> gmap Z string)
    (σ : store) :
  cache_of c (set_cache c f σ) = f (cache_of c σ).
Proof. destruct c; reflexivity. Qed.

(** X4. When the site answers every page of a collection, the cache
    that [fetchAndCacheAll] fills holds afterwards every entity of
    every page: [id] maps to [name], the last listing of an id
    winning; an entity whose id is listed once is found under its
    name. *)
Theorem fetchAndCacheAll_caches_all_pages (fuel : nat) (endpoint : string)
    (cache : cache_ref) (logName : string) (E : env) (σ : store) (c : client)
    (r : nat -> response (list term_obj)) :
  let totalPages := parseInt10 (x_wp_totalpages (r 0%nat)) <||> 1 in
  let n := Z.to_nat (Z.max 1 totalPages) in
  let listed := concat (map (fun i => data (r i)) (seq 0 n)) in
  axiosInstance σ = Some c ->
  (forall i : nat, (i < n)%nat ->
     net_collection E (length (requests σ) + i) endpoint (Z.of_nat i + 1) = inr (r i)) ->
  (n <= fuel)%nat ->
  exists σ' : store,
    fetchAndCacheAll fuel endpoint cache logName E σ = (Ret tt, σ') /\
    cache_of cache σ' = cache_terms (cache_of cache σ) listed /\
    (NoDup (map term_id listed) ->
     forall t : term_obj, t ∈ listed ->
       cache_of cache σ' !! term_id t = Some (term_name t)).
Proof.
  intros T n listed Hc Hnet Hfuel.
  unfold fetchAndCacheAll.
  unfold bind at 1. cbn [console_call modify].
  set (σ0 := set_console _ σ).
  unfold try_catch, bind at 1.
  match goal with
  | |- context [while fuel ?c0 ?b0 _ E σ0] => set (cond := c0); set (body := b0)
  end.
  assert (forall (j i : nat) (σ1 : store) (fuel : nat),
            (i + j = n)%nat -> (j <= fuel)%nat ->
            axiosInstance σ1 = Some c ->
            requests σ1 = requests σ ++ collection_pages endpoint i ->
            exists σ2 : store,
              while fuel cond body
                (Z.of_nat i + 1, match i with O => 1 | S _ => T end) E σ1
              = (Ret (Z.of_nat n + 1, T), σ2) /\
              cache_of cache σ2
              = cache_terms (cache_of cache σ1)
                  (concat (map (fun i => data (r i)) (seq i j)))) as Hloop.
  { clear Hfuel fuel σ0. induction j as [|j IH]; intros i σ1 fuel Hij Hf Hc1 Hr1.
    - assert (i = n) as -> by lia. assert (1 <= n)%nat as Hn by lia.
      exists σ1.
      assert (cond (Z.of_nat n + 1, T) = false) as Hcond
        by (cbn; apply Z.leb_gt; lia).
      destruct n as [|n']; [lia|]. split; [|reflexivity].
      destruct fuel; cbn [while]; rewrite Hcond; reflexivity.
    - destruct fuel as [|fuel]; [lia|]. cbn [while].
      assert (cond (Z.of_nat i + 1, match i with O => 1 | S _ => T end) = true)
        as Hcond by (cbn; apply Z.leb_le; destruct i; lia).
      rewrite Hcond. unfold bind at 1.
      assert (exists σ1' : store,
                body (Z.of_nat i + 1, match i with O => 1 | S _ => T end) E σ1
                = (Ret (Z.of_nat (S i) + 1, T), σ1') /\
                axiosInstance σ1' = Some c /\
                requests σ1' = requests σ ++ collection_pages endpoint (S i) /\
                cache_of cache σ1' = cache_terms (cache_of cache σ1) (data (r i)))
        as (σ1' & Hbody & Hc1' & Hr1' & Hcache).
      { unfold body. run_M. rewrite Hc1. cbn.
        assert (length (requests σ1) = length (requests σ) + i)%nat as ->
          by (rewrite Hr1, length_app; unfold collection_pages;
              rewrite length_map, length_seq; reflexivity).
        rewrite (Hnet i) by lia. cbn.
        rewrite collection_pages_S, app_assoc, <- Hr1, Nat2Z.inj_succ.
        replace (Z.succ (Z.of_nat i) + 1) with (Z.of_nat i + 1 + 1) by lia.
        destruct (Z.eqb_spec (Z.of_nat i + 1) 1) as [Hp|Hp].
        - assert (i = 0)%nat as -> by lia. fold T.
          eexists; split; [reflexivity|]. split; [exact Hc1|].
          split; [destruct cache; reflexivity|]. apply set_cache_cache_of.
        - destruct i as [|i]; [lia|].
          eexists; split; [reflexivity|]. split; [exact Hc1|].
          split; [destruct cache; reflexivity|]. apply set_cache_cache_of. }
      rewrite Hbody.
      destruct (IH (S i) σ1' fuel ltac:(lia) ltac:(lia) Hc1' Hr1') as (σ2 & Hw & Hcache2).
      exists σ2. split; [exact Hw|].
      rewrite Hcache2, Hcache. cbn [seq map concat].
      symmetry; apply cache_terms_app. }
  destruct (Hloop n 0%nat σ0 fuel ltac:(lia) Hfuel Hc) as (σ2 & Hw & Hcache);
    [unfold collection_pages; cbn; rewrite app_nil_r; reflexivity|].
  change (Z.of_nat 0 + 1) with 1 in Hw. rewrite Hw. run_M.
  eexists; split; [reflexivity|].
  assert (cache_of cache (set_console
            (fun c0 => c0 ++
               [{| entry_level := Log;
                   entry_args :=
                     ["Successfully cached " +:+ pretty (size (cache_of cache σ2))
                      +:+ " " +:+ logName +:+ "."] |}]) σ2)
          = cache_terms (cache_of cache σ) listed) as Hfinal.
  { transitivity (cache_of cache σ2); [destruct cache; reflexivity|].
    rewrite Hcache. unfold listed. destruct cache; reflexivity. }
  split; [exact Hfinal|].
  intros Hnd t Hin. rewrite Hfinal. apply cache_terms_lookup; assumption.
Qed.

(** X7. When the site answers every page of a listing, the first
    answer saying (in its [x-wp-totalpages] header, read as one page
    if absent, unreadable or zero) how many pages there are:
    [fetchPaginatedData] asks for exactly these pages and returns the
    items of all of them, in the order of the pages. *)
Theorem fetchPaginatedData_collects_all_pages (fuel : nat) (postType : string)
    (E : env) (σ : store) (c : client) (r : nat -> response (list item)) :
  let totalPages := parseInt10 (x_wp_totalpages (r 0%nat)) <||> 1 in
  let n := Z.to_nat (Z.max 1 totalPages) in
  axiosInstance σ = Some c ->
  (forall i : nat, (i < n)%nat ->
     net_items E (length (requests σ) + i) postType (Z.of_nat i + 1) = inr (r i)) ->
  (n <= fuel)%nat ->
  exists σ' : store,
    fetchPaginatedData fuel postType E σ
    = (Ret (concat (map (fun i => data (r i)) (seq 0 n))), σ') /\
    requests σ' = requests σ ++ item_pages postType n.
Proof.
  intros T n Hc Hnet Hfuel.
  unfold fetchPaginatedData, fetchPaginatedData_try.
  unfold bind at 1. cbn [console_call modify].
  set (σ0 := set_console _ σ).
  unfold try_catch, bind at 1.
  match goal with
  | |- context [while fuel ?c0 ?b0 _ E σ0] => set (cond := c0); set (body := b0)
  end.
  assert (forall (j i : nat) (items : list item) (σ1 : store) (fuel : nat),
            (i + j = n)%nat -> (j <= fuel)%nat ->
            axiosInstance σ1 = Some c ->
            requests σ1 = requests σ ++ item_pages postType i ->
            exists σ2 : store,
              while fuel cond body
                (items, Z.of_nat i + 1, match i with O => 1 | S _ => T end) E σ1
              = (Ret (items ++ concat (map (fun i => data (r i)) (seq i j)),
                      Z.of_nat n + 1, T), σ2) /\
              requests σ2 = requests σ ++ item_pages postType n) as Hloop.
  { clear Hfuel fuel σ0. induction j as [|j IH]; intros i items σ1 fuel Hij Hf Hc1 Hr1.
    - assert (i = n) as -> by lia. assert (1 <= n)%nat as Hn by lia.
      exists σ1. cbn [seq map concat]. rewrite app_nil_r.
      assert (cond (items, Z.of_nat n + 1, T) = false) as Hcond
        by (cbn; apply Z.leb_gt; lia).
      destruct n as [|n']; [lia|]. split; [|exact Hr1].
      destruct fuel; cbn [while]; rewrite Hcond; reflexivity.
    - destruct fuel as [|fuel]; [lia|]. cbn [while].
      assert (cond (items, Z.of_nat i + 1, match i with O => 1 | S _ => T end) = true)
        as Hcond by (cbn; apply Z.leb_le; destruct i; lia).
      rewrite Hcond. unfold bind at 1.
      assert (exists σ1' : store,
                body (items, Z.of_nat i + 1, match i with O => 1 | S _ => T end) E σ1
                = (Ret (items ++ data (r i), Z.of_nat (S i) + 1, T), σ1') /\
                axiosInstance σ1' = Some c /\
                requests σ1' = requests σ ++ item_pages postType (S i))
        as (σ1' & Hbody & Hc1' & Hr1').
      { unfold body. run_M. rewrite Hc1. cbn.
        assert (length (requests σ1) = length (requests σ) + i)%nat as ->
          by (rewrite Hr1, length_app; unfold item_pages;
              rewrite length_map, length_seq; reflexivity).
        rewrite (Hnet i) by lia. cbn.
        rewrite item_pages_S, app_assoc, <- Hr1, Nat2Z.inj_succ.
        replace (Z.succ (Z.of_nat i) + 1) with (Z.of_nat i + 1 + 1) by lia.
        destruct (Z.eqb_spec (Z.of_nat i + 1) 1) as [Hp|Hp].
        - assert (i = 0)%nat as -> by lia. cbn. fold T.
          destruct (data (r 0%nat)); cbn; [rewrite app_nil_r|];
            (eexists; split; [reflexivity|split; [exact Hc1|reflexivity]]).
        - destruct i as [|i]; [lia|]. cbn.
          destruct (data (r (S i))); cbn; [rewrite app_nil_r|];
            (eexists; split; [reflexivity|split; [exact Hc1|reflexivity]]). }
      rewrite Hbody.
      destruct (IH (S i) (items ++ data (r i)) σ1' fuel ltac:(lia) ltac:(lia) Hc1' Hr1')
        as (σ2 & Hw & Hr2).
      exists σ2. split; [|exact Hr2].
      rewrite Hw. cbn [seq map concat]. rewrite app_assoc. reflexivity. }
  destruct (Hloop n 0%nat [] σ0 fuel ltac:(lia) Hfuel Hc) as (σ2 & Hw & Hr2);
    [cbn; rewrite app_nil_r; reflexivity|].
  change (Z.of_nat 0 + 1) with 1 in Hw. rewrite Hw. cbn.
  exists σ2. split; [reflexivity|exact Hr2].
Qed.

(** ** Post types and their items *)

Lemma viewable_slugs_non_empty (types : list (string * type_obj)) :
  Forall (fun slug : string => slug <> "") (viewable_slugs types).
Proof.
  induction types as [|[k [[[|]|] [[|ch s]|]]] types IH]; cbn; auto.
Qed.

(** X8. [getPostTypes] never hands an empty list to the loop over the
    post types, and never an empty slug: it returns at least one
    non-empty slug or ends the process with status 1; it does not
    throw. *)
Theorem getPostTypes_returns_slugs_or_exits (E : env) (σ : store) :
  match fst (getPostTypes E σ) with
  | Ret postTypes =>
      postTypes <> [] /\ Forall (fun slug : string => slug <> "") postTypes
  | Exit code => code = 1
  | Throw _ | OutOfFuel => False
  end.
Proof.
  unfold getPostTypes. run_M.
  destruct (axiosInstance σ); cbn; [|reflexivity].
  destruct (net_types E (length (requests σ))) as [e|types]; cbn; [reflexivity|].
  rewrite availableTypes_eq.
  pose proof (viewable_slugs_non_empty types) as Hne.
  destruct (viewable_slugs types) as [|s l]; cbn.
  - split; [discriminate|]. repeat constructor; discriminate.
  - split; [discriminate|exact Hne].
Qed.

(** An invariant of the variables of a [for ... of] loop. *)
Lemma for_of_invariant {A S} (l : list A) (body : A -> S -> M S) (E : env)
    (Inv : S -> Prop) :
  (forall a s σ, a ∈ l -> Inv s ->
     match fst (body a s E σ) with Ret s' => Inv s' | _ => True end) ->
  forall s σ, Inv s ->
    match fst (for_of l body s E σ) with Ret s' => Inv s' | _ => True end.
Proof.
  induction l as [|a l IH]; intros Hb s σ HI; cbn [for_of]; [exact HI|].
  unfold bind. pose proof (Hb a s σ ltac:(left) HI) as Ha.
  destruct (body a s E σ) as [[s'| | |] σ1]; cbn in *; try exact I.
  apply IH; [|exact Ha]. intros a' s0 σ0 Hin. apply Hb. right. exact Hin.
Qed.

(** X9. Every item that the loop over the post types collects carries
    the post type under which it was listed, one of the types of the
    loop: the Post Type column of the report is never undefined. *)
Theorem extracted_items_carry_their_type (fuel : nat) (postTypes : list string)
    (E : env) (σ : store) :
  match fst (for_of postTypes (extract_type fuel) [] E σ) with
  | Ret allExtractedData =>
      Forall (fun it => exists type, type ∈ postTypes /\ postType it = Some type)
             allExtractedData
  | _ => True
  end.
Proof.
  apply (for_of_invariant postTypes (extract_type fuel) E
           (Forall (fun it => exists type,
                      type ∈ postTypes /\ postType it = Some type)));
    [|constructor].
  intros type acc σ1 Hin Hacc. unfold extract_type, bind.
  destruct (fetchPaginatedData fuel type E σ1) as [[items| | |] σ2]; cbn; try exact I.
  destruct (Z.of_nat (length items) >? 0); cbn; [|exact Hacc].
  apply Forall_app. split; [exact Hacc|].
  apply Forall_forall. intros it Hit. apply list_elem_of_fmap in Hit as (it0 & -> & _).
  exists type. split; [exact Hin|reflexivity].
Qed.

(** ** The media cache under awaited calls *)


(** ** The report: its requests, its rows and its file *)

Lemma media_to_fetch_cons (σ : store) (it : item) (l : list item) :
  media_to_fetch σ (it :: l) = media_to_fetch σ [it] ++ media_to_fetch σ l.
Proof.
  unfold media_to_fetch. cbn.
  destruct (featured_media it) as [mediaId|]; [|reflexivity].
  destruct (to_boolean mediaId); [|reflexivity].
  destruct (mediaCache σ !! mediaId); reflexivity.
Qed.

(** X12. With the client set up, the requests that
    [createAndSaveReport] sends while it flattens the items are one
    media request for every item whose featured image is not in the
    cache when the report starts, in the order of the items: the
    callbacks all start before any answer is cached, so that an image
    shared by several items is requested once per item. *)
Theorem report_requests_media_per_item (allData : list item) (E : env) (σ : store)
    (c : client) :
  axiosInstance σ = Some c ->
  requests (snd (flatten_all allData E σ))
  = requests σ ++ map GetMedia (media_to_fetch σ allData).
Proof.
  intros Hc. unfold flatten_all.
  assert (forall (l : list item) (σ1 : store),
            axiosInstance σ1 = Some c -> mediaCache σ1 = mediaCache σ ->
            exists pending σ2,
              mapM flatten_begin l E σ1 = (Ret pending, σ2) /\
              requests σ2 = requests σ1 ++ map GetMedia (media_to_fetch σ l)) as Hbegin.
  { induction l as [|it l IH]; intros σ1 Hc1 Hm1; cbn [mapM].
    - exists [], σ1. split; [reflexivity|]. cbn. rewrite app_nil_r. reflexivity.
    - rewrite (media_to_fetch_cons σ it l).
      assert (exists p σ1',
                flatten_begin it E σ1 = (Ret p, σ1') /\
                axiosInstance σ1' = Some c /\ mediaCache σ1' = mediaCache σ /\
                requests σ1' = requests σ1 ++ map GetMedia (media_to_fetch σ [it]))
        as (p & σ1' & Hb & Hc1' & Hm1' & Hr1').
      { unfold flatten_begin, getFeaturedImageData_begin, media_to_fetch. run_M.
        destruct (featured_media it) as [mediaId|]; cbn;
          [|do 2 eexists; rewrite app_nil_r; auto].
        destruct (to_boolean mediaId); cbn;
          [|do 2 eexists; rewrite app_nil_r; auto].
        rewrite Hm1. destruct (mediaCache σ !! mediaId); cbn;
          [do 2 eexists; rewrite app_nil_r; auto|].
        rewrite Hc1. cbn. do 2 eexists; auto. }
      unfold bind at 1. rewrite Hb.
      destruct (IH σ1' Hc1' Hm1') as (pending & σ2 & Hl & Hr2).
      unfold bind at 1. rewrite Hl. unfold ret.
      do 2 eexists. split; [reflexivity|].
      rewrite Hr2, Hr1', <- app_assoc, <- map_app. reflexivity. }
  destruct (Hbegin allData σ Hc eq_refl) as (pending & σ2 & Hb & Hr).
  unfold bind at 1. rewrite Hb, <- Hr.
  clear. revert E σ2. change (respects same_requests (mapM flatten_resume pending)).
  apply respects_mapM; [reflexivity|intros ? ? ? H1 H2; unfold same_requests in *; congruence|].
  intros [[it l] st] E σ. unfold flatten_resume, bind.
  pose proof (getFeaturedImageData_resume_sends_nothing st E σ) as Hs.
  destruct (getFeaturedImageData_resume st E σ) as [[img| | |] σ1]; cbn in *;
    exact Hs.
Qed.

(** X13. Nothing before the report touches the media cache: in a run,
    it is as at the start of the process when the report starts. *)
Theorem extraction_leaves_media_cache (fuel : nat) (E : env) (σ : store) :
  mediaCache (snd (main_extract fuel E σ)) = mediaCache σ.
Proof.
  revert E σ. change (respects same_media (main_extract fuel)).
  assert (forall σ, same_media σ σ) as Hrefl by reflexivity.
  assert (forall σ1 σ2 σ3, same_media σ1 σ2 -> same_media σ2 σ3 -> same_media σ1 σ3)
    as Htrans by (unfold same_media; congruence).
  unfold main_extract, setupApiClient, fetchAndCacheAll, getPostTypes, extract_type,
    fetchPaginatedData, fetchPaginatedData_try, console_call, send.
  repeat first
    [ respects_step Hrefl Htrans
    | apply respects_modify; intros ?; reflexivity ].
Qed.

Lemma same_report_target_refl (σ : store) : same_report_target σ σ.
Proof. repeat split. Qed.

Lemma same_report_target_trans (σ1 σ2 σ3 : store) :
  same_report_target σ1 σ2 -> same_report_target σ2 σ3 -> same_report_target σ1 σ3.
Proof.
  intros (H1 & H2 & H3) (K1 & K2 & K3).
  split; [congruence|]. split; [congruence|]. eapply same_names_trans; eassumption.
Qed.

Lemma flatten_all_keeps_target (allData : list item) :
  respects same_report_target (flatten_all allData).
Proof.
  pose proof same_report_target_refl as Hrefl.
  pose proof same_report_target_trans as Htrans.
  unfold flatten_all, flatten_begin, flatten_resume, getFeaturedImageData_begin,
    getFeaturedImageData_resume, media_failed, console_call, send.
  repeat first
    [ respects_step Hrefl Htrans
    | apply respects_modify; intros ?; repeat split ].
Qed.

(** The callbacks all return when every excerpt has its text. *)
Lemma flatten_all_returns (allData : list item) (E : env) (σ : store) :
  Forall (fun it => excerpt_ok it = true) allData ->
  exists rows σ', flatten_all allData E σ = (Ret rows, σ').
Proof.
  intros Hok. unfold flatten_all.
  assert (forall (l : list item) (σ1 : store),
            Forall (fun it => excerpt_ok it = true) l ->
            exists pending σ2,
              mapM flatten_begin l E σ1 = (Ret pending, σ2) /\
              Forall (fun p : item * flatten_locals * started =>
                        excerpt_ok (fst (fst p)) = true) pending) as Hbegin.
  { induction l as [|it l IH]; intros σ1 Hl; cbn [mapM].
    - exists [], σ1. split; [reflexivity|constructor].
    - apply Forall_cons in Hl as (Hit & Hl).
      assert (exists st σ1',
                flatten_begin it E σ1 = (Ret (it, flatten_before σ1 it, st), σ1'))
        as (st & σ1' & Hb).
      { unfold flatten_begin, getFeaturedImageData_begin, media_failed. run_M.
        destruct (featured_media it) as [mediaId|]; cbn; [|eauto].
        destruct (to_boolean mediaId); cbn; [|eauto].
        destruct (mediaCache σ1 !! mediaId); cbn; [eauto|].
        destruct (axiosInstance σ1); cbn; eauto. }
      unfold bind at 1. rewrite Hb.
      destruct (IH σ1' Hl) as (pending & σ2 & Hm & Hp).
      unfold bind at 1. rewrite Hm. unfold ret.
      do 2 eexists. split; [reflexivity|]. constructor; [exact Hit|exact Hp]. }
  destruct (Hbegin allData σ Hok) as (pending & σ2 & Hb & Hp).
  unfold bind at 1. rewrite Hb. clear Hb Hbegin Hok. revert σ2.
  induction Hp as [|[[it l] st] pending Hit Hp IH]; intros σ2; cbn [mapM].
  - do 2 eexists. reflexivity.
  - cbn in Hit.
    assert (exists r σ2', flatten_resume (it, l, st) E σ2 = (Ret r, σ2'))
      as (r & σ2' & Hr).
    { unfold flatten_resume, getFeaturedImageData_resume, media_failed,
        flatten_after, excerpt_text. run_M.
      unfold excerpt_ok in Hit.
      destruct (excerpt it) as [[[s|]]|]; try discriminate;
        destruct st as [d|k mediaId]; cbn; eauto;
        destruct (net_media E k mediaId); cbn; eauto. }
    unfold bind at 1. rewrite Hr.
    destruct (IH σ2') as (rows & σ3 & Hm).
    unfold bind at 1. rewrite Hm. unfold ret. eauto.
Qed.

Lemma flatten_row_columns (σ : store) (it : item) (img : imageData) (r : row) :
  flatten_row σ it img = Ret r -> map fst r = report_columns.
Proof.
  unfold flatten_row, flatten_after.
  destruct (excerpt_text it) as [x| | |]; cbn; try discriminate.
  intros [= <-]. reflexivity.
Qed.

(** ** The end of the process *)

Lemma raises_only_weaken {A} (ok ok' : error -> Prop) (codes codes' : Z -> Prop)
    (m : M A) :
  (forall e, ok e -> ok' e) -> (forall c, codes c -> codes' c) ->
  raises_only ok codes m -> raises_only ok' codes' m.
Proof.
  intros Hok Hcodes H E σ. specialize (H E σ).
  destruct (fst (m E σ)); cbn in *; auto.
Qed.

Lemma raises_only_lift_flatten_after (codes : Z -> Prop) (σ : store) (it : item)
    (l : flatten_locals) (img : imageData) :
  raises_only (fun _ => True) codes (lift (flatten_after σ it l img)).
Proof.
  intros E σ0. unfold lift, flatten_after, excerpt_text.
  destruct (excerpt it) as [[[s|]]|]; exact I.
Qed.

(** [main] ends the process with no other status than 1. *)
Lemma main_exits_with_1 (fuel : nat) : raises_only (fun _ => True) code_1 (main fuel).
Proof.
  unfold main, main_extract, setupApiClient, fetchAndCacheAll, getPostTypes,
    extract_type, fetchPaginatedData, fetchPaginatedData_try, createAndSaveReport,
    flatten_all, flatten_begin, flatten_resume, getFeaturedImageData_begin,
    getFeaturedImageData_resume, media_failed.
  repeat first
    [ raises_step
    | apply raises_only_try_catch with (any := fun _ => True); [|intros ?]
    | apply raises_only_exit; reflexivity
    | apply raises_only_lift_flatten_after ].
Qed.

(** X16. Every run ends, and with status 0 or 1: whatever the site
    answers, there is a bound from which on [run] gives one and the
    same exit status, which is 0 or 1. *)
Theorem run_ends_with_status_0_or_1 (E : env) (σ : store) :
  exists (N : nat) (status : Z),
    (status = 0 \/ status = 1) /\
    forall fuel : nat, (N <= fuel)%nat ->
      exit_status (fst (run fuel E σ)) = Some status.
Proof.
  destruct (run_settled E σ) as (N & o & σ' & Ho & H).
  assert (raises_only no_error code_1 (run N)) as Hr.
  { unfold run.
    apply raises_only_try_catch with (any := fun _ => True);
      [apply main_exits_with_1|intros e].
    apply raises_only_bind; [apply raises_only_console|intros _].
    apply raises_only_exit. reflexivity. }
  specialize (Hr E σ). rewrite (H N) in Hr by lia. cbn in Hr.
  destruct o as [[]|e|code|]; [exists N, 0|destruct Hr|exists N, 1|congruence];
    (split; [auto|]); intros fuel Hf; rewrite (H fuel Hf); cbn; [reflexivity|].
  unfold code_1 in Hr. congruence.
Qed.

(** ** The columns of a row against each other *)

Lemma flatten_row_report_row (σ : store) (it : item) (img : imageData) (r : row) :
  flatten_row σ it img = Ret r ->
  exists x, r = report_row σ it (flatten_before σ it) img x.
Proof.
  unfold flatten_row, flatten_after.
  destruct (excerpt_text it) as [x| | |]; cbn; try discriminate.
  intros [= <-]. eauto.
Qed.

(** X17. The audit flags of a row do not contradict each other: a
    title is not both too long and too short; of the three flags of
    the description (missing, too long, too short) at most one is
    Yes, and the description is flagged missing exactly when the
    Yoast Description column is empty. *)
Theorem audit_flags_are_consistent (σ : store) (it : item) (img : imageData) (r : row) :
  flatten_row σ it img = Ret r ->
  ~ (get_col "AUDIT: Is Title Too Long (>60)" r = Some (Str "Yes") /\
     get_col "AUDIT: Is Title Too Short (<30)" r = Some (Str "Yes")) /\
  ~ (get_col "AUDIT: Is Meta Desc Too Long (>160)" r = Some (Str "Yes") /\
     get_col "AUDIT: Is Meta Desc Too Short (<70)" r = Some (Str "Yes")) /\
  (get_col "AUDIT: Is Meta Desc Missing" r = Some (Str "Yes") ->
   get_col "AUDIT: Is Meta Desc Too Long (>160)" r = Some (Str "No") /\
   get_col "AUDIT: Is Meta Desc Too Short (<70)" r = Some (Str "No")) /\
  (get_col "AUDIT: Is Meta Desc Missing" r = Some (Str "Yes") <->
   get_col "Yoast Description" r = Some (Str "")).
Proof.
  intros Hrow. destruct (flatten_row_report_row σ it img r Hrow) as (x & ->).
  rewrite col_title_too_long, col_title_too_short, col_desc_missing,
    col_desc_too_long, col_desc_too_short.
  change (get_col "Yoast Description" (report_row σ it (flatten_before σ it) img x))
    with (Some (Str (yoastDesc (flatten_before σ it)))).
  generalize (yoastTitle (flatten_before σ it)) (yoastDesc (flatten_before σ it)).
  intros t d. unfold js_length, yes_no.
  repeat split.
  - intros (H1 & H2).
    destruct (Z.gtb_spec (Z.of_nat (String.length t)) 60);
      destruct (Z.ltb_spec (Z.of_nat (String.length t)) 30); try discriminate; lia.
  - intros (H1 & H2).
    destruct (Z.gtb_spec (Z.of_nat (String.length d)) 160); [|discriminate].
    destruct (Z.ltb_spec (Z.of_nat (String.length d)) 70);
      [lia|rewrite andb_false_r in H2; discriminate].
  - destruct d; [reflexivity|discriminate].
  - destruct d; [reflexivity|discriminate].
  - destruct d; [reflexivity|discriminate].
  - intros [= ->]. reflexivity.
Qed.

Lemma resolve_name_non_empty (cache : gmap Z string) (id : Z) :
  resolve_name cache id <> "".
Proof.
  unfold resolve_name, js_or. destruct (cache !! id) as [[|ch s]|]; discriminate.
Qed.

Lemma resolve_name_cached (cache : gmap Z string) (id : Z) (name : string) :
  cache !! id = Some name -> name <> "" -> resolve_name cache id = name.
Proof.
  unfold resolve_name, js_or. intros -> Hne. destruct name; [congruence|reflexivity].
Qed.

Lemma join_empty (sep : string) (l : list string) :
  Forall (fun s : string => s <> "") l -> join sep l = "" <-> l = [].
Proof.
  intros Hl. split; [|intros ->; reflexivity].
  destruct Hl as [|s l Hs Hl]; [reflexivity|].
  destruct s as [|ch s]; [congruence|].
  destruct l; discriminate.
Qed.

(** X18. Names in a row: the Author Name column is never empty, and
    it is the cached name when the cache holds a non-empty one; the
    Categories and Tags columns are empty exactly when the item has
    no category and no tag ids. *)
Theorem names_are_never_blank (σ : store) (it : item) (img : imageData) (r : row) :
  flatten_row σ it img = Ret r ->
  (exists name, get_col "Author Name" r = Some (Str name) /\ name <> "") /\
  (forall (a : Z) (name : string),
     author it = Some a -> authorCache σ !! a = Some name -> name <> "" ->
     get_col "Author Name" r = Some (Str name)) /\
  (get_col "Categories" r = Some (Str "") <-> default [] (categories it) = []) /\
  (get_col "Tags" r = Some (Str "") <-> default [] (tags it) = []).
Proof.
  intros Hrow. destruct (flatten_row_report_row σ it img r Hrow) as (x & ->).
  change (get_col "Author Name" (report_row σ it (flatten_before σ it) img x))
    with (Some (Str (match author it with
                     | Some a => resolve_name (authorCache σ) a
                     | None => "ID:undefined"
                     end))).
  change (get_col "Categories" (report_row σ it (flatten_before σ it) img x))
    with (Some (Str (join ", " (map (resolve_name (categoryCache σ))
                                    (default [] (categories it)))))).
  change (get_col "Tags" (report_row σ it (flatten_before σ it) img x))
    with (Some (Str (join ", " (map (resolve_name (tagCache σ))
                                    (default [] (tags it)))))).
  assert (forall (cache : gmap Z string) (l : list Z),
            Some (Str (join ", " (map (resolve_name cache) l))) = Some (Str "")
            <-> l = []) as Hjoin.
  { intros cache l. split; [|intros ->; reflexivity].
    intros [= H]. apply join_empty in H.
    - destruct l; [reflexivity|discriminate].
    - apply Forall_forall. intros s Hs.
      apply list_elem_of_fmap in Hs as (i & -> & _). apply resolve_name_non_empty. }
  split; [|split; [|split; apply Hjoin]].
  - eexists; split; [reflexivity|].
    destruct (author it); [apply resolve_name_non_empty|discriminate].
  - intros a name -> Hc Hne. rewrite (resolve_name_cached _ _ _ Hc Hne). reflexivity.
Qed.

(** ** The time in the name of the report *)

(** X19. The time as it goes into the name of the report has the
    length of the time stamp and holds neither a colon nor a full
    stop; a text without them is left as it is. *)
Theorem dashes_leaves_no_colon_or_stop (s : string) :
  String.length (dashes s) = String.length s /\
  includes (dashes s) ":" = false /\
  includes (dashes s) "." = false /\
  (includes s ":" = false -> includes s "." = false -> dashes s = s).
Proof.
  induction s as [|ch s (IH1 & IH2 & IH3 & IH4)]; [repeat split|].
  cbn [dashes String.length includes].
  split; [rewrite IH1; reflexivity|].
  assert (forall c : ascii, String.prefix (String c "") (String ch s) = Ascii.eqb ch c)
    as Hp.
  { intros c0. cbn. destruct (ascii_dec c0 ch) as [->|Hne].
    - destruct s; symmetry; apply Ascii.eqb_refl.
    - symmetry. apply Ascii.eqb_neq. congruence. }
  assert (forall c d : ascii, String.prefix (String c "") (String d (dashes s))
                              = Ascii.eqb d c) as Hq.
  { intros c0 d0. cbn. destruct (ascii_dec c0 d0) as [->|Hne].
    - destruct (dashes s); symmetry; apply Ascii.eqb_refl.
    - symmetry. apply Ascii.eqb_neq. congruence. }
  rewrite !Hq, IH2, IH3, !orb_false_r.
  destruct (Ascii.eqb ch ":") eqn:E1; [repeat split; try reflexivity|].
  - cbn [includes]. rewrite Hp, E1. discriminate.
  - destruct (Ascii.eqb ch ".") eqn:E2; cbn [orb].
    + repeat split; try reflexivity. cbn [includes]. rewrite !Hp, E2.
      intros _. discriminate.
    + rewrite E1, E2. repeat split.
      cbn [includes]. rewrite !Hp, E1, E2. cbn [orb].
      intros H1 H2. rewrite (IH4 H1 H2). reflexivity.
Qed.

(** ** A fetched image in the row *)

(** X11. An image that the site delivers with a URL and without alt
    text: the awaited call returns the URL with an empty alt text,
    with one request, and every row built with it shows the URL and
    flags the missing alt text. *)
Theorem fetched_image_without_alt_is_flagged (E : env) (σ : store) (c : client)
    (mediaId : Z) (m : media_obj) (u : string) :
  to_boolean mediaId = true ->
  mediaCache σ !! mediaId = None ->
  axiosInstance σ = Some c ->
  net_media E (length (requests σ)) mediaId = inr m ->
  source_url m = Some u -> u <> "" ->
  blank (alt_text m) = true ->
  exists σ' : store,
    getFeaturedImageData (Some mediaId) E σ = (Ret {| url := u; alt := "" |}, σ') /\
    requests σ' = requests σ ++ [GetMedia mediaId] /\
    forall (σ0 : store) (it : item) (r : row),
      flatten_row σ0 it {| url := u; alt := "" |} = Ret r ->
      get_col "Featured Image URL" r = Some (Str u) /\
      get_col "AUDIT: Is Featured Image Alt Missing" r = Some (Str "Yes").
Proof.
  intros Hid Hc Hcl Hnet Hu Hne Halt. run_step.
  rewrite Hid; cbn. rewrite Hc, Hcl; cbn. rewrite Hnet; cbn. rewrite Hu.
  assert (js_or (Some u) "" = u) as -> by (destruct u; [congruence|reflexivity]).
  assert (js_or (alt_text m) "" = "") as ->
    by (destruct (alt_text m) as [[|ch s]|]; [reflexivity|discriminate|reflexivity]).
  eexists; split; [reflexivity|]. split; [reflexivity|].
  intros σ0 it r Hrow.
  destruct (flatten_row_report_row σ0 it _ r Hrow) as (x & ->).
  split; [reflexivity|]. rewrite col_alt_missing. cbn.
  destruct u; [congruence|reflexivity].
Qed.

(** ** The excerpt: removal of tags *)

Lemma includes_char_cons (c ch : ascii) (s : string) :
  includes (String ch s) (String c "") = Ascii.eqb ch c || includes s (String c "").
Proof.
  cbn [includes]. f_equal. cbn. destruct (ascii_dec c ch) as [->|Hne].
  - destruct s; symmetry; apply Ascii.eqb_refl.
  - symmetry. apply Ascii.eqb_neq. congruence.
Qed.

Lemma tag_rest_closed (t b : string) (seen : nat) :
  includes t ">" = false -> (0 < seen + String.length t)%nat ->
  tag_rest seen (t +:+ ">" +:+ b) = Some (S (seen + String.length t)).
Proof.
  revert seen; induction t as [|ch t IH]; intros seen Ht Hlen.
  - change ("" +:+ ">" +:+ b) with (String ">" b). cbn [tag_rest String.length] in *.
    change (Ascii.eqb ">" ">") with true. cbv iota.
    destruct seen; [lia|]. f_equal. lia.
  - rewrite includes_char_cons in Ht. apply orb_false_elim in Ht as (Hch & Ht).
    rewrite append_cons. cbn [tag_rest]. rewrite Hch.
    cbn [String.length] in *.
    rewrite IH by (try assumption; lia). f_equal. lia.
Qed.

Lemma strip_tags_skip (u v : string) (k : nat) :
  strip_tags (String.length u + k) (u +:+ v) = strip_tags k v.
Proof.
  induction u as [|ch u IH]; [reflexivity|].
  rewrite append_cons. cbn [String.length Nat.add strip_tags]. exact IH.
Qed.

Lemma length_append (u v : string) :
  String.length (u +:+ v) = (String.length u + String.length v)%nat.
Proof.
  induction u as [|ch u IH]; [reflexivity|].
  rewrite append_cons. cbn [String.length]. rewrite IH. reflexivity.
Qed.

(** X20. Removing the tags from an excerpt: a text up to its first
    [<] is kept as it is, so that a text without [<] is unchanged, and
    the first tag, a [<], one or more characters other than [>] and a
    [>], is dropped whole, the removal going on behind it. *)
Theorem strip_tags_drops_first_tag (a : string) :
  includes a "<" = false ->
  strip_tags 0 a = a /\
  forall t b : string,
    t <> "" -> includes t ">" = false ->
    strip_tags 0 (a +:+ "<" +:+ t +:+ ">" +:+ b) = a +:+ strip_tags 0 b.
Proof.
  induction a as [|ch a IH]; intros Ha.
  - split; [reflexivity|]. intros t b Ht Hgt.
    change ("" +:+ "<" +:+ t +:+ ">" +:+ b) with (String "<" (t +:+ ">" +:+ b)).
    cbn [strip_tags]. change (Ascii.eqb "<" "<") with true. cbv iota.
    rewrite tag_rest_closed;
      [|exact Hgt|destruct t; cbn [String.length]; [congruence|lia]].
    cbn [Nat.add]. rewrite <- append_assoc.
    replace (S (String.length t)) with (String.length (t +:+ ">") + 0)%nat
      by (rewrite length_append; cbn; lia).
    apply strip_tags_skip.
  - rewrite includes_char_cons in Ha. apply orb_false_elim in Ha as (Hch & Ha).
    destruct (IH Ha) as (IH1 & IH2). split.
    + cbn [strip_tags]. rewrite Hch, IH1. reflexivity.
    + intros t b Ht Hgt. rewrite !(append_cons ch a). cbn [strip_tags].
      rewrite Hch, (IH2 t b Ht Hgt). reflexivity.
Qed.

(** X5. Whatever the site answers, [fetchPaginatedData] returns a
    list of items: a failed request is caught, and the loop over the
    post types goes on. *)
Theorem fetchPaginatedData_always_returns (postType : string) (E : env) (σ : store) :
  exists (N : nat) (items : list item) (σ' : store),
    forall fuel : nat, (N <= fuel)%nat ->
      fetchPaginatedData fuel postType E σ = (Ret items, σ').
Proof.
  destruct (fetchPaginatedData_settled postType E σ) as (N & o & σ' & Ho & H).
  pose proof (fetchPaginatedData_completes N postType E σ) as Hr.
  rewrite (H N) in Hr by lia. cbn in Hr.
  destruct o as [items| | |]; [|destruct Hr..|congruence].
  exists N, items, σ'. exact H.
Qed.

(** ** Paths *)

Lemma plain_segment_spec (s : string) :
  plain_segment s = true ->
  s <> "" /\ includes s "/" = false /\ s <> "." /\ s <> "..".
Proof.
  unfold plain_segment, non_empty. intros H.
  apply andb_prop in H as (H & H4). apply andb_prop in H as (H & H3).
  apply andb_prop in H as (H1 & H2).
  apply negb_true_iff in H1, H2, H3, H4.
  repeat split; try (apply String.eqb_neq; assumption). exact H2.
Qed.

Lemma split_slash_plain (s : string) :
  includes s "/" = false -> split_slash s = [s].
Proof.
  induction s as [|c s IH]; [reflexivity|].
  rewrite includes_char_cons. intros H. apply orb_false_elim in H as (Hc & Hs).
  cbn [split_slash]. rewrite Hc, (IH Hs). reflexivity.
Qed.

Lemma split_slash_app (a b : string) :
  includes a "/" = false ->
  split_slash (a +:+ "/" +:+ b) = a :: split_slash b.
Proof.
  induction a as [|c a IH].
  - intros _. reflexivity.
  - rewrite includes_char_cons. intros H. apply orb_false_elim in H as (Hc & Ha).
    rewrite append_cons. cbn [split_slash]. rewrite Hc, (IH Ha). reflexivity.
Qed.

Lemma split_slash_join (segs : list string) :
  segs <> [] ->
  Forall (fun s => includes s "/" = false) segs ->
  split_slash (join "/" segs) = segs.
Proof.
  intros Hne H. induction H as [|s segs Hs H IH]; [congruence|].
  destruct segs as [|s' segs]; [apply split_slash_plain; exact Hs|].
  change (join "/" (s :: s' :: segs)) with (s +:+ "/" +:+ join "/" (s' :: segs)).
  rewrite (split_slash_app _ _ Hs), IH by discriminate. reflexivity.
Qed.

Lemma normalize_segment_plain (allow : bool) (res : list string) (seg : string) :
  plain_segment seg = true -> normalize_segment allow res seg = seg :: res.
Proof.
  intros H. apply plain_segment_spec in H as (H1 & _ & H2 & H3).
  unfold normalize_segment.
  apply String.eqb_neq in H1, H2, H3. rewrite H1, H2, H3. reflexivity.
Qed.

Lemma normalize_segments_plain (allow : bool) (segs res : list string) :
  Forall (fun s => plain_segment s = true) segs ->
  fold_left (normalize_segment allow) segs res = rev segs ++ res.
Proof.
  intros H. revert res. induction H as [|s segs Hs H IH]; intros res; [reflexivity|].
  cbn [fold_left rev]. rewrite (normalize_segment_plain _ _ _ Hs), IH, <- app_assoc.
  reflexivity.
Qed.

Lemma ends_with_slash_cons (c : ascii) (s : string) :
  s <> "" -> ends_with_slash (String c s) = ends_with_slash s.
Proof. destruct s; [congruence|reflexivity]. Qed.

Lemma ends_with_slash_plain (s : string) :
  includes s "/" = false -> ends_with_slash s = false.
Proof.
  induction s as [|c s IH]; [reflexivity|].
  rewrite includes_char_cons. intros H. apply orb_false_elim in H as (Hc & Hs).
  destruct s as [|c' s]; [exact Hc|].
  rewrite ends_with_slash_cons by discriminate. exact (IH Hs).
Qed.

Lemma ends_with_slash_app (a b : string) :
  b <> "" -> ends_with_slash (a +:+ b) = ends_with_slash b.
Proof.
  intros Hb. induction a as [|c a IH]; [reflexivity|].
  rewrite append_cons, ends_with_slash_cons; [exact IH|].
  destruct a; [exact Hb|discriminate].
Qed.

Lemma ends_with_slash_join (segs : list string) :
  Forall (fun s => plain_segment s = true) segs ->
  ends_with_slash (join "/" segs) = false.
Proof.
  intros H. induction H as [|s segs Hs H IH]; [reflexivity|].
  apply plain_segment_spec in Hs as (_ & Hs & _).
  destruct segs as [|s' segs]; [apply ends_with_slash_plain; exact Hs|].
  change (join "/" (s :: s' :: segs)) with (s +:+ "/" +:+ join "/" (s' :: segs)).
  assert (join "/" (s' :: segs) <> "") as Hne.
  { inversion H as [|? ? Hs' _]; subst.
    apply plain_segment_spec in Hs' as (Hs' & _).
    destruct s' as [|c s']; [congruence|]. destruct segs; discriminate. }
  rewrite ends_with_slash_app by discriminate.
  change ("/" +:+ join "/" (s' :: segs)) with (String "/" (join "/" (s' :: segs))).
  rewrite ends_with_slash_cons by exact Hne. exact IH.
Qed.

(** A path made of plain segments is in normal form. *)
Lemma normalize_plain (segs : list string) :
  segs <> [] ->
  Forall (fun s => plain_segment s = true) segs ->
  normalize (join "/" segs) = join "/" segs.
Proof.
  intros Hne H.
  assert (Forall (fun s => includes s "/" = false) segs) as Hslash
    by (eapply Forall_impl; [exact H|]; intros s Hs;
        apply plain_segment_spec in Hs as (_ & Hs & _); exact Hs).
  assert (exists c p, join "/" segs = String c p /\ Ascii.eqb c "/" = false)
    as (c & p & Hj & Hc).
  { destruct H as [|s segs Hs H]; [congruence|].
    apply plain_segment_spec in Hs as (Hs & Hsl & _).
    destruct s as [|c s]; [congruence|].
    rewrite includes_char_cons in Hsl. apply orb_false_elim in Hsl as (Hc & _).
    destruct segs as [|s' segs]; [exists c, s|eexists c, _]; split; try exact Hc;
      reflexivity. }
  unfold normalize, normalizeString.
  rewrite (ends_with_slash_join _ H), (split_slash_join _ Hne Hslash).
  rewrite (normalize_segments_plain _ _ _ H), app_nil_r, rev_involutive.
  rewrite Hj. cbn [String.eqb starts_with_slash]. rewrite Hc. reflexivity.
Qed.

Lemma path_join_plain (segs : list string) (s : string) :
  segs <> [] ->
  Forall (fun s => plain_segment s = true) segs ->
  plain_segment s = true ->
  path_join (join "/" segs) s = join "/" (segs ++ [s]).
Proof.
  intros Hne H Hs.
  assert (join "/" segs +:+ "/" +:+ s = join "/" (segs ++ [s])) as Hj.
  { clear H. induction segs as [|x segs IH]; [congruence|].
    destruct segs as [|y segs]; [reflexivity|].
    change (join "/" (x :: y :: segs)) with (x +:+ "/" +:+ join "/" (y :: segs)).
    change (join "/" ((x :: y :: segs) ++ [s]))
      with (x +:+ "/" +:+ join "/" ((y :: segs) ++ [s])).
    rewrite <- IH by discriminate. rewrite !append_assoc. reflexivity. }
  unfold path_join.
  assert (join "/" segs <> "") as Ha.
  { intros Ha. apply join_empty in Ha; [congruence|].
    eapply Forall_impl; [exact H|]. intros x Hx.
    apply plain_segment_spec in Hx as (Hx & _). exact Hx. }
  pose proof (plain_segment_spec _ Hs) as (Hs0 & _).
  destruct (join "/" segs) as [|ca a] eqn:Ea; [congruence|].
  destruct s as [|cs s]; [congruence|].
  rewrite Hj. apply normalize_plain.
  - destruct segs; discriminate.
  - apply Forall_app. split; [exact H|]. constructor; [exact Hs|constructor].
Qed.

Lemma includes_dashes (s : string) :
  includes (dashes s) "/" = includes s "/".
Proof.
  induction s as [|c s IH]; [reflexivity|].
  cbn [dashes]. rewrite !includes_char_cons, IH. f_equal.
  destruct (Ascii.eqb c ":") eqn:E1; [apply Ascii.eqb_eq in E1; subst; reflexivity|].
  destruct (Ascii.eqb c ".") eqn:E2; [apply Ascii.eqb_eq in E2; subst; reflexivity|].
  reflexivity.
Qed.

Lemma includes_char_append (c : ascii) (a b : string) :
  includes (a +:+ b) (String c "") = includes a (String c "") || includes b (String c "").
Proof.
  induction a as [|ch a IH].
  - destruct b; reflexivity.
  - rewrite append_cons, !includes_char_cons, IH, orb_assoc. reflexivity.
Qed.

(** The file name of a report is a plain segment when the time has no slash. *)
Lemma plain_file_name (now : string) :
  includes now "/" = false ->
  plain_segment (dashes now +:+ "-yoast-report.csv") = true.
Proof.
  intros Hnow. unfold plain_segment, non_empty.
  assert (17 <= String.length (dashes now +:+ "-yoast-report.csv"))%nat as Hlen
    by (rewrite length_append; cbn; lia).
  rewrite includes_char_append, includes_dashes, Hnow.
  change (includes "-yoast-report.csv" "/") with false.
  destruct (String.eqb_spec (dashes now +:+ "-yoast-report.csv") "") as [E|_];
    [rewrite E in Hlen; cbn in Hlen; lia|].
  destruct (String.eqb_spec (dashes now +:+ "-yoast-report.csv") ".") as [E|_];
    [rewrite E in Hlen; cbn in Hlen; lia|].
  destruct (String.eqb_spec (dashes now +:+ "-yoast-report.csv") "..") as [E|_];
    [rewrite E in Hlen; cbn in Hlen; lia|].
  reflexivity.
Qed.

(** For a domain that is a plain segment the report goes to
    [reports/<domain>/<time>-yoast-report.csv]. *)
Lemma report_path_plain (d now : string) :
  plain_segment d = true ->
  includes now "/" = false ->
  path_join (path_join "reports" d) (dashes now +:+ "-yoast-report.csv")
  = report_path d now.
Proof.
  intros Hd Hnow.
  change (path_join "reports" d) with (path_join (join "/" ["reports"]) d).
  rewrite (path_join_plain ["reports"] d) by (repeat constructor; congruence).
  rewrite (path_join_plain (["reports"] ++ [d]));
    [|discriminate|repeat constructor; exact Hd|apply plain_file_name; exact Hnow].
  reflexivity.
Qed.

(** ** The files of a run *)

Lemma createAndSaveReport_at_most_one_file (allData : list item) (E : env)
    (σ σ' : store) (d : string) (o : outcome unit) :
  siteDomain σ = Some d ->
  createAndSaveReport allData E σ = (o, σ') ->
  files σ' = files σ \/
  exists rows : list row,
    length rows = length allData /\
    files σ'
    = files σ ++ [(path_join (path_join "reports" d)
                     (dashes (now_iso E) +:+ "-yoast-report.csv"), rows)].
Proof.
  intros Hd. unfold createAndSaveReport.
  destruct (Z.of_nat (length allData) =? 0); [intros [= <- <-]; left; reflexivity|].
  unfold bind at 1. cbn [console_call modify].
  set (σ0 := set_console _ σ).
  pose proof (flatten_all_keeps_target allData E σ0) as (Hdom & Hfiles & _).
  pose proof (flatten_all_rows E σ0) as Hrows.
  unfold bind at 1.
  destruct (flatten_all allData E σ0) as [[rows| | |] σ1] eqn:Hflat; cbn [snd] in *;
    try (intros [= <- <-]; left; exact Hfiles).
  specialize (Hrows σ1 allData rows Hflat). apply Forall2_length in Hrows.
  run_M. rewrite Hdom. cbn. rewrite Hd. cbn.
  destruct (fs_failure E); cbn; intros [= <- <-]; cbn.
  - left. exact Hfiles.
  - right. exists rows. split; [congruence|]. rewrite Hfiles. reflexivity.
Qed.

(** X14. Given at least one item, items whose excerpts have their
    text, and a site domain that is a plain path segment (not empty,
    without a slash, neither [.] nor [..]), [createAndSaveReport]
    returns normally and writes at most one file: when the file system
    accepts it, the file [reports/<domain>/<time>-yoast-report.csv]
    with one row for every item, in the order of the items, each row
    with the 36 columns of the report; when the file system refuses,
    no file, and the failure is not passed on. *)
Theorem report_is_written_once (allData : list item) (E : env) (σ : store)
    (d : string) :
  allData <> [] ->
  Forall (fun it => excerpt_ok it = true) allData ->
  siteDomain σ = Some d ->
  plain_segment d = true ->
  includes (now_iso E) "/" = false ->
  exists (rows : list row) (σ' : store),
    createAndSaveReport allData E σ = (Ret tt, σ') /\
    Forall2 (fun it r =>
               (exists img, flatten_row σ it img = Ret r) /\
               map fst r = report_columns) allData rows /\
    files σ'
    = match fs_failure E with
      | None => files σ ++ [(report_path d (now_iso E), rows)]
      | Some _ => files σ
      end.
Proof.
  intros Hne Hok Hd Hplain Hnow. unfold createAndSaveReport.
  destruct allData as [|it0 rest] eqn:Hall; [congruence|].
  rewrite <- Hall in *. replace (Z.of_nat (length allData) =? 0) with false
    by (rewrite Hall; reflexivity).
  unfold bind at 1. cbn [console_call modify].
  set (σ0 := set_console _ σ).
  destruct (flatten_all_returns allData E σ0 Hok) as (rows & σ1 & Hflat).
  pose proof (flatten_all_keeps_target allData E σ0) as (Hdom & Hfiles & _).
  pose proof (flatten_all_rows E σ0 σ1 allData rows Hflat) as Hrows.
  rewrite Hflat in Hdom, Hfiles. cbn [snd] in Hdom, Hfiles.
  unfold bind at 1. rewrite Hflat. run_M. rewrite Hdom. cbn. rewrite Hd. cbn.
  assert (Forall2 (fun it r =>
                     (exists img, flatten_row σ it img = Ret r) /\
                     map fst r = report_columns) allData rows) as Hrows'.
  { eapply Forall2_impl; [exact Hrows|]. cbn. intros it r (img & Himg).
    assert (flatten_row σ it img = Ret r) as Hrow.
    { rewrite <- Himg. unfold flatten_row.
      rewrite (flatten_before_names σ σ0 it) by repeat split.
      apply flatten_after_names. repeat split. }
    split; [eauto|]. eapply flatten_row_columns; exact Hrow. }
  exists rows.
  destruct (fs_failure E) as [e|]; cbn;
    (eexists; split; [reflexivity|]; split; [exact Hrows'|]); cbn.
  - exact Hfiles.
  - rewrite <- (report_path_plain d (now_iso E) Hplain Hnow), Hfiles. reflexivity.
Qed.

(** The report goes to the domain that the operator gave. *)
Lemma main_extract_sets_domain (fuel : nat) (E : env) (σ : store) :
  siteDomain (snd (main_extract fuel E σ)) = Some (domain (answers E)).
Proof.
  assert (respects same_domain_and_files
            (fetchAndCacheAll fuel "/users" AuthorCache "users" >>>
             fetchAndCacheAll fuel "/categories" CategoryCache "categories" >>>
             fetchAndCacheAll fuel "/tags" TagCache "tags" >>>
             (let* postTypes := getPostTypes in
              for_of postTypes (extract_type fuel) []))) as Hrest.
  { assert (forall σ, same_domain_and_files σ σ) as Hrefl by (split; reflexivity).
    assert (forall σ1 σ2 σ3, same_domain_and_files σ1 σ2 ->
              same_domain_and_files σ2 σ3 -> same_domain_and_files σ1 σ3) as Htrans
      by (intros ? ? ? (?&?) (?&?); split; congruence).
    unfold fetchAndCacheAll, getPostTypes, extract_type,
      fetchPaginatedData, fetchPaginatedData_try, console_call, send.
    repeat first
      [ respects_step Hrefl Htrans
      | apply respects_modify; intros ?; split; reflexivity ]. }
  unfold main_extract.
  unfold bind at 1. cbn [console_call modify].
  unfold bind at 1. cbn [get_env].
  unfold bind at 1. cbn [setupApiClient modify].
  match goal with
  | |- context [set_client ?cl ?dm ?s0] => set (σ1 := set_client cl dm s0)
  end.
  destruct (Hrest E σ1) as (Hdom & _). etransitivity; [exact Hdom|reflexivity].
Qed.

(** X15. When the domain that the operator gave is a plain path
    segment, a run writes at most one file, and if it writes one it is
    the report [reports/<domain>/<time>-yoast-report.csv] of that
    domain, with at least one row. *)
Theorem run_writes_at_most_one_file (fuel : nat) (E : env) (σ : store) :
  plain_segment (domain (answers E)) = true ->
  includes (now_iso E) "/" = false ->
  let σ' := snd (run fuel E σ) in
  files σ' = files σ \/
  exists rows : list row,
    rows <> [] /\
    files σ' = files σ ++ [(report_path (domain (answers E)) (now_iso E), rows)].
Proof.
  intros Hplain Hnow σ'. subst σ'.
  pose proof (keeps_files_main_extract fuel E σ) as Hfiles.
  pose proof (main_extract_sets_domain fuel E σ) as Hd.
  destruct (run fuel E σ) as [o' σ'] eqn:Hrun. cbn [snd].
  unfold run, main, try_catch, bind in Hrun.
  destruct (main_extract fuel E σ) as [[allData| | |] σ2]; cbn [snd fst] in *;
    try (injection Hrun as <- <-; left; exact Hfiles).
  destruct (createAndSaveReport allData E σ2) as [o σ3] eqn:Hrep.
  pose proof (createAndSaveReport_at_most_one_file allData E σ2 σ3 _ o Hd Hrep) as Hw.
  rewrite (report_path_plain _ _ Hplain Hnow) in Hw.
  assert (rows_of_nothing : forall rows : list row,
            length rows = length allData ->
            files σ3 = files σ2 ++ [(report_path (domain (answers E)) (now_iso E), rows)] ->
            rows <> []).
  { intros rows Hlen Hfs ->. destruct allData; [|discriminate].
    rewrite createAndSaveReport_nothing in Hrep. injection Hrep as <- <-.
    cbn in Hfs. rewrite <- (app_nil_r (files σ2)) in Hfs at 1.
    apply app_inv_head in Hfs. discriminate. }
  clear Hrep.
  assert (files σ' = files σ3) as ->
    by (destruct o as [[]|e|c|]; injection Hrun as <- <-; reflexivity).
  destruct Hw as [Hw|(rows & Hlen & Hw)]; [left; rewrite Hw, Hfiles; reflexivity|].
  right. exists rows. split; [eapply rows_of_nothing; eassumption|].
  rewrite Hw, Hfiles. reflexivity.
Qed.

(** ** The further properties at concrete inputs *)

Lemma fetchAndCacheAll_caches_all_pages_witness :
  axiosInstance connected
  = Some {| baseURL := "https://example.com/wp-json/wp/v2";
            auth_user := "editor"; auth_password := "abcd efgh" |} /\
  (forall i : nat, (i < 2)%nat ->
     net_collection paged_site (length (requests connected) + i) "/categories"
       (Z.of_nat i + 1) = inr (category_page i)) /\
  (2 <= 5)%nat /\
  exists σ' : store,
    fetchAndCacheAll 5 "/categories" CategoryCache "categories" paged_site connected
    = (Ret tt, σ') /\
    categoryCache σ' !! 5 = Some "Sport".
Proof.
  assert (forall i : nat, (i < 2)%nat ->
            net_collection paged_site (length (requests connected) + i) "/categories"
              (Z.of_nat i + 1) = inr (category_page i)) as Hnet
    by (intros [|[|i]] Hi; [reflexivity|reflexivity|lia]).
  split; [reflexivity|]. split; [exact Hnet|]. split; [lia|].
  destruct (fetchAndCacheAll_caches_all_pages 5 "/categories" CategoryCache "categories"
              paged_site connected _ category_page eq_refl Hnet ltac:(vm_compute; repeat constructor))
    as (σ' & Hrun & _ & Hlookup).
  exists σ'. split; [exact Hrun|].
  apply (Hlookup ltac:(apply (bool_decide_unpack _); vm_compute; exact I)
           {| term_id := 5; term_name := "Sport" |}).
  apply elem_of_cons; right. apply elem_of_cons; left. reflexivity.
Defined.

Lemma fetchPaginatedData_collects_all_pages_witness :
  axiosInstance connected
  = Some {| baseURL := "https://example.com/wp-json/wp/v2";
            auth_user := "editor"; auth_password := "abcd efgh" |} /\
  (forall i : nat, (i < 2)%nat ->
     net_items paged_site (length (requests connected) + i) "posts" (Z.of_nat i + 1)
     = inr (post_page i)) /\
  (2 <= 5)%nat /\
  exists σ' : store,
    fetchPaginatedData 5 "posts" paged_site connected
    = (Ret [sample_post; bare_item; full_item], σ') /\
    requests σ' = [GetItems "posts" 50 1 fields; GetItems "posts" 50 2 fields].
Proof.
  assert (forall i : nat, (i < 2)%nat ->
            net_items paged_site (length (requests connected) + i) "posts"
              (Z.of_nat i + 1) = inr (post_page i)) as Hnet
    by (intros [|[|i]] Hi; [reflexivity|reflexivity|lia]).
  split; [reflexivity|]. split; [exact Hnet|]. split; [lia|].
  exact (fetchPaginatedData_collects_all_pages 5 "posts" paged_site connected _
           post_page eq_refl Hnet ltac:(vm_compute; repeat constructor)).
Defined.


Lemma report_requests_media_per_item_witness :
  axiosInstance connected
  = Some {| baseURL := "https://example.com/wp-json/wp/v2";
            auth_user := "editor"; auth_password := "abcd efgh" |} /\
  requests (snd (flatten_all [sample_post; full_item; sample_post] sample_site connected))
  = requests connected
    ++ map GetMedia (media_to_fetch connected [sample_post; full_item; sample_post]).
Proof.
  split; [reflexivity|].
  exact (report_requests_media_per_item [sample_post; full_item; sample_post]
           sample_site connected _ eq_refl).
Defined.

Lemma report_is_written_once_witness :
  [full_item; bare_item] <> [] /\
  Forall (fun it => excerpt_ok it = true) [full_item; bare_item] /\
  siteDomain connected = Some "example.com" /\
  plain_segment "example.com" = true /\
  includes (now_iso sample_site) "/" = false /\
  exists (rows : list row) (σ' : store),
    createAndSaveReport [full_item; bare_item] sample_site connected = (Ret tt, σ') /\
    length rows = 2%nat /\
    files σ' = [("reports/example.com/2025-08-01T21-55-00-123Z-yoast-report.csv", rows)].
Proof.
  assert (Forall (fun it => excerpt_ok it = true) [full_item; bare_item]) as Hok
    by (repeat constructor).
  split; [discriminate|]. split; [exact Hok|]. split; [reflexivity|].
  split; [reflexivity|]. split; [reflexivity|].
  destruct (report_is_written_once [full_item; bare_item] sample_site connected
              "example.com" ltac:(discriminate) Hok eq_refl eq_refl eq_refl)
    as (rows & σ' & Hrun & Hrows & Hfiles).
  exists rows, σ'. split; [exact Hrun|].
  split; [symmetry; exact (Forall2_length _ _ _ Hrows)|exact Hfiles].
Defined.

Lemma run_writes_at_most_one_file_witness :
  plain_segment (domain (answers sample_site)) = true /\
  includes (now_iso sample_site) "/" = false /\
  exists rows : list row,
    length rows = 1%nat /\
    files (snd (run 2 sample_site initial_store))
    = [("reports/example.com/2025-08-01T21-55-00-123Z-yoast-report.csv", rows)].
Proof.
  split; [reflexivity|]. split; [reflexivity|].
  destruct (run_writes_at_most_one_file 2 sample_site initial_store eq_refl eq_refl)
    as [Hnone|(rows & Hne & Hfiles)].
  - vm_compute in Hnone. discriminate.
  - exists rows. split; [|exact Hfiles].
    vm_compute in Hfiles. injection Hfiles as <-. reflexivity.
Defined.

Lemma audit_flags_are_consistent_witness :
  flatten_row connected full_item picture = Ret full_row /\
  (get_col "AUDIT: Is Meta Desc Missing" full_row = Some (Str "Yes") <->
   get_col "Yoast Description" full_row = Some (Str "")).
Proof.
  split; [reflexivity|].
  exact (proj2 (proj2 (proj2
           (audit_flags_are_consistent connected full_item picture full_row eq_refl)))).
Defined.

Lemma names_are_never_blank_witness :
  flatten_row connected full_item picture = Ret full_row /\
  exists name, get_col "Author Name" full_row = Some (Str name) /\ name <> "".
Proof.
  split; [reflexivity|].
  exact (proj1 (names_are_never_blank connected full_item picture full_row eq_refl)).
Defined.

Lemma strip_tags_drops_first_tag_witness :
  includes "Hi " "<" = false /\
  strip_tags 0 "Hi <b>there</b>" = "Hi " +:+ strip_tags 0 "there</b>".
Proof.
  split; [reflexivity|].
  exact (proj2 (strip_tags_drops_first_tag "Hi " eq_refl) "b" "there</b>"
           ltac:(discriminate) eq_refl).
Defined.

Lemma fetched_image_without_alt_is_flagged_witness :
  to_boolean 9 = true /\
  mediaCache connected !! 9 = None /\
  axiosInstance connected
  = Some {| baseURL := "https://example.com/wp-json/wp/v2";
            auth_user := "editor"; auth_password := "abcd efgh" |} /\
  net_media media_site (length (requests connected)) 9
  = inr {| source_url := Some "https://example.com/p.png"; alt_text := None |} /\
  "https://example.com/p.png" <> "" /\
  exists σ' : store,
    getFeaturedImageData (Some 9) media_site connected
    = (Ret {| url := "https://example.com/p.png"; alt := "" |}, σ') /\
    requests σ' = [GetMedia 9].
Proof.
  split; [reflexivity|]. split; [vm_compute; reflexivity|]. split; [reflexivity|].
  split; [reflexivity|]. split; [discriminate|].
  destruct (fetched_image_without_alt_is_flagged media_site connected _ 9
              {| source_url := Some "https://example.com/p.png"; alt_text := None |}
              "https://example.com/p.png" eq_refl ltac:(vm_compute; reflexivity)
              eq_refl eq_refl eq_refl ltac:(discriminate) eq_refl)
    as (σ' & Hrun & Hreq & _).
  exists σ'. split; [exact Hrun|exact Hreq].
Defined.
